(** * Power-law Lorentzian fit pipeline: a shallow embedding

    Source: [src/2DPowerLorentzianFitCeres.cc].

    - C++ [double] is the kernel's binary64 [float]; every arithmetic
      operation, comparison and literal below is the IEEE-754 one, so NaN,
      infinities, signed zeros and rounding behave as in the compiled code.
    - [std::vector<double>] is [list float]; a [size_t] size is a [nat];
      an [int] is a [Z] (the one narrowing cast of the source,
      [static_cast<int>(size)], is written out with its wrap-around).
    - A function that writes through [double&] parameters takes the
      variables' contents and returns their new contents next to its result.
    - The nonlinear solver and the covariance estimator (Ceres) are external:
      they are section variables of the fitting code, never implemented here.
      The residual functor is carried as data (x, y, uncertainty); only the
      solver evaluates it.
    - [Constants::...] live in a header that is not part of the translation
      unit; they are section variables as well.  The result structs of the
      same header are modelled field by field from their uses.
    - Of the diagnostic output to [std::cout] only that of the profile
      filter is kept (as a list of messages); the solver mutex and the
      logging initialisation have no effect on any value computed. *)

From Stdlib Require Import String.
From Stdlib Require Import Floats ZArith List Bool Lia PeanoNat.
From Stdlib Require Import Sorted Permutation.
Import ListNotations.

Set Warnings "-inexact-float".

Local Open Scope float_scope.

(** ** Doubles and the [<cmath>] / [<algorithm>] helpers the source calls *)

Module Dbl.

(** [std::max(a, b)] is [(a < b) ? b : a]. *)
Definition max (a b : float) : float := if a <? b then b else a.

(** [std::min(a, b)] is [(b < a) ? b : a]. *)
Definition min (a b : float) : float := if b <? a then b else a.

(** [a > b] and [a >= b] are the flipped IEEE comparisons. *)
Definition gtb (a b : float) : bool := b <? a.
Definition geb (a b : float) : bool := b <=? a.

Definition isnan (a : float) : bool := is_nan a.
Definition isfinite (a : float) : bool := is_finite a.

(** Conversion of a [size_t] to [double] (exact below 2^53). *)
Definition of_size (n : nat) : float := of_uint63 (Uint63.of_Z (Z.of_nat n)).

(** Conversion of an [int] to [double]. *)
Definition of_int (z : Z) : float :=
  if (z <? 0)%Z then - of_uint63 (Uint63.of_Z (- z)) else of_uint63 (Uint63.of_Z z).

(** [std::numeric_limits<double>::max()]. *)
Definition DBL_MAX : float := 0x1.fffffffffffffp+1023.

End Dbl.

Infix ">?" := Dbl.gtb (at level 70, no associativity) : float_scope.
Infix ">=?" := Dbl.geb (at level 70, no associativity) : float_scope.

(** [static_cast<int>(n)] for a [size_t]: reduction modulo 2^32 into
    [-2^31, 2^31). *)
Definition int_of_size (n : nat) : Z :=
  ((Z.of_nat n + 2147483648) mod 4294967296 - 2147483648)%Z.

(** ** Vectors *)

Module Vec.

(** [v[i]]; the default is never read by an in-range index. *)
Definition at_ (v : list float) (i : nat) : float := nth i v nan.

(** [std::accumulate(v.begin(), v.end(), 0.0)]. *)
Definition accumulate (v : list float) : float := fold_left add v 0.

(** [*std::min_element]: the first element no later one is [<] than. *)
Definition min_element (v : list float) : float :=
  match v with
  | [] => nan
  | a :: r => fold_left (fun smallest b => if b <? smallest then b else smallest) r a
  end.

(** [*std::max_element]: the first element that is [<] no later one. *)
Definition max_element (v : list float) : float :=
  match v with
  | [] => nan
  | a :: r => fold_left (fun largest b => if largest <? b then b else largest) r a
  end.

(** [std::sort] is library code.  The C++ standard fixes its result only up
    to the order of elements that compare equivalent ([-0.0] and [+0.0]
    under [<]) and leaves it undefined when [<] is no strict weak order on
    the data (a NaN among them).  The model follows the algorithm libstdc++
    runs on a range of at most 16 elements, [std::__insertion_sort], step by
    step, so that it also agrees with the compiled code on signed zeros and
    on NaN there.  On longer ranges libstdc++ partitions first (introsort);
    the result is the same sequence whenever the data hold no NaN and no
    two distinct equivalent values. *)

(** [std::__unguarded_linear_insert]: [val] travels from the end of the
    sorted prefix towards its front, past every element it is [<] than, and
    stops at the first it is not.  The prefix is read from its end:
    [rprefix] is the prefix reversed. *)
Fixpoint unguarded_linear_insert {A} (lt : A -> A -> bool) (val : A) (rprefix : list A)
  : list A :=
  match rprefix with
  | [] => [val]
  | next :: r =>
      if lt val next then next :: unguarded_linear_insert lt val r else val :: rprefix
  end.

(** One round of the loop of [std::__insertion_sort]: an element [<] than the
    first of the prefix is moved to the front, any other is inserted from
    the end. *)
Definition insertion_step {A} (lt : A -> A -> bool) (rprefix : list A) (val : A) : list A :=
  match rprefix with
  | [] => [val]
  | _ :: _ =>
      if lt val (last rprefix val) then rprefix ++ [val]
      else unguarded_linear_insert lt val rprefix
  end.

Definition sort {A} (lt : A -> A -> bool) (l : list A) : list A :=
  rev (fold_left (insertion_step lt) l []).

End Vec.

(** ** Robust statistics (lines 104-190) *)

Record DataStatistics := mkStats {
  mean : float;
  median : float;
  std_dev : float;
  mad : float;
  q25 : float;
  q75 : float;
  min_val : float;
  max_val : float;
  weighted_mean : float;
  total_weight : float;
  robust_center : float;
  valid : bool
}.

(** [DataStatistics stats; stats.valid = false;] -- the numeric fields are
    left uninitialised by the source; no caller reads them when [valid] is
    false.  They are zero here. *)
Definition stats_invalid : DataStatistics :=
  mkStats 0 0 0 0 0 0 0 0 0 0 0 false.

(** The median of the sorted copy (lines 143-148). *)
Definition median_of_sorted (sorted_y : list float) : float :=
  let n := length sorted_y in
  if (n mod 2 =? 0)%nat
  then (Vec.at_ sorted_y (n / 2 - 1) + Vec.at_ sorted_y (n / 2)) / 2
  else Vec.at_ sorted_y (n / 2).

(** The scaled median absolute deviation before its floor (lines 154-159). *)
Definition raw_mad (y_vals : list float) (median : float) (n : nat) : float :=
  let abs_deviations :=
    Vec.sort ltb (map (fun val => abs (val - median)) y_vals) in
  Vec.at_ abs_deviations (n / 2) * 1.4826.

(** The numerical floor of the MAD (lines 162-165). *)
Definition mad_safeguard (raw_mad sd : float) : float :=
  if negb (Dbl.isfinite raw_mad) || (raw_mad <? 1e-12)
  then (if Dbl.isfinite sd && (sd >? 1e-12) then sd else 1e-12)
  else raw_mad.

(** The weighted-centroid loop (lines 171-177): the running
    [(weighted_mean, total_weight)]. *)
Definition centroid_step (q : float) (acc : float * float) (xy : float * float)
  : float * float :=
  let weight := Dbl.max 0 (snd xy - q) in
  if weight >? 0
  then (fst acc + fst xy * weight, snd acc + weight)
  else acc.

Definition CalculateRobustStatisticsPowerLorentzian
  (x_vals y_vals : list float) : DataStatistics :=
  if negb (length x_vals =? length y_vals)%nat || (length x_vals =? 0)%nat
  then stats_invalid
  else
    let min_val := Vec.min_element y_vals in
    let max_val := Vec.max_element y_vals in
    let mean := Vec.accumulate y_vals / Dbl.of_size (length y_vals) in
    let variance :=
      fold_left (fun v val => v + (val - mean) * (val - mean)) y_vals 0 in
    let std_dev := sqrt (variance / Dbl.of_size (length y_vals)) in
    let sorted_y := Vec.sort ltb y_vals in
    let n := length sorted_y in
    let median := median_of_sorted sorted_y in
    let q25 := Vec.at_ sorted_y (n / 4) in
    let q75 := Vec.at_ sorted_y (3 * n / 4) in
    let mad := mad_safeguard (raw_mad y_vals median n) std_dev in
    let '(wm, tw) := fold_left (centroid_step q25) (combine x_vals y_vals) (0, 0) in
    let weighted_mean :=
      if tw >? 0 then wm / tw
      else Vec.accumulate x_vals / Dbl.of_size (length x_vals) in
    mkStats mean median std_dev mad q25 q75 min_val max_val
            weighted_mean tw weighted_mean true.

(** ** Initial parameter estimation (lines 192-314) *)

Module Est.

Record PowerLorentzianParameterEstimates := mk {
  amplitude : float;
  center : float;
  gamma : float;
  beta : float;
  baseline : float;
  amplitude_err : float;
  center_err : float;
  gamma_err : float;
  beta_err : float;
  baseline_err : float;
  valid : bool;
  method_used : Z
}.

(** [estimates.valid = false; estimates.method_used = 0;] on a fresh struct;
    the source never writes the [_err] fields (zero here, as every other
    field it leaves uninitialised). *)
Definition initial : PowerLorentzianParameterEstimates :=
  mk 0 0 0 0 0 0 0 0 0 0 false 0.

(** The five estimates, the flag and the tag written into [e], the [_err]
    fields kept. *)
Definition assign (e : PowerLorentzianParameterEstimates)
  (a c g b bl : float) (ok : bool) (tag : Z) : PowerLorentzianParameterEstimates :=
  mk a c g b bl (amplitude_err e) (center_err e) (gamma_err e) (beta_err e)
     (baseline_err e) ok tag.

End Est.

(** The second-moment loop of Method 1 (lines 244-251): the running
    [(distance_spread, weight_sum)]. *)
Definition spread_step (baseline amplitude center : float)
  (acc : float * float) (xy : float * float) : float * float :=
  let weight := Dbl.max 0 (snd xy - baseline) in
  if weight >? 0.1 * amplitude
  then let dx := fst xy - center in
       (fst acc + weight * dx * dx, snd acc + weight)
  else acc.

(** Method 1, physics-based (lines 234-262): amplitude, center, gamma, beta,
    baseline as they stand when the validation of line 265 reads them. *)
Definition method1_estimates (stats : DataStatistics)
  (x_vals y_vals : list float) (pixel_spacing : float)
  : float * float * float * float * float :=
  let center := weighted_mean stats in
  let baseline := Dbl.min (min_val stats) (q25 stats) in
  let amplitude := max_val stats - baseline in
  let beta := 1 in
  let '(distance_spread, weight_sum) :=
    fold_left (spread_step baseline amplitude center) (combine x_vals y_vals) (0, 0) in
  let gamma :=
    if weight_sum >? 0 then sqrt (2 * distance_spread / weight_sum)
    else pixel_spacing * 0.7 in
  let gamma := Dbl.max (pixel_spacing * 0.3) (Dbl.min (pixel_spacing * 3) gamma) in
  let amplitude := Dbl.max amplitude ((max_val stats - min_val stats) * 0.1) in
  (amplitude, center, gamma, beta, baseline).

(** The validation of Method 1 (lines 265-267). *)
Definition method1_valid (est : float * float * float * float * float) : bool :=
  let '(amplitude, center, gamma, beta, baseline) := est in
  (amplitude >? 0) && (gamma >? 0) &&
  negb (Dbl.isnan center) && negb (Dbl.isnan amplitude) &&
  negb (Dbl.isnan gamma) && negb (Dbl.isnan beta) && negb (Dbl.isnan baseline).

(** Method 2, robust statistical (lines 280-284). *)
Definition method2_estimates (stats : DataStatistics) (pixel_spacing : float)
  : float * float * float * float * float :=
  (q75 stats - q25 stats, median stats,
   Dbl.max (mad stats) (pixel_spacing * 0.5), 1, q25 stats).

(** The validation of Method 2 (line 286). *)
Definition method2_valid (est : float * float * float * float * float) : bool :=
  let '(amplitude, _, gamma, _, _) := est in
  (amplitude >? 0) && (gamma >? 0).

(** Method 3, conservative fallback (lines 299-303). *)
Definition method3_estimates (stats : DataStatistics)
  (center_estimate pixel_spacing : float)
  : float * float * float * float * float :=
  (max_val stats, center_estimate, pixel_spacing * 0.7, 1, 0).

(** Writing one method's five values, with [valid = true] and its tag. *)
Definition accept (e : Est.PowerLorentzianParameterEstimates)
  (est : float * float * float * float * float) (tag : Z)
  : Est.PowerLorentzianParameterEstimates :=
  let '(amplitude, center, gamma, beta, baseline) := est in
  Est.assign e amplitude center gamma beta baseline true tag.

Definition EstimatePowerLorentzianParameters
  (x_vals y_vals : list float) (center_estimate pixel_spacing : float)
  : Est.PowerLorentzianParameterEstimates :=
  let estimates := Est.initial in
  if negb (length x_vals =? length y_vals)%nat || (length x_vals <? 5)%nat
  then estimates
  else
    let stats := CalculateRobustStatisticsPowerLorentzian x_vals y_vals in
    if negb (valid stats) then estimates
    else
      let m1 := method1_estimates stats x_vals y_vals pixel_spacing in
      if method1_valid m1 then accept estimates m1 1
      else
        let m2 := method2_estimates stats pixel_spacing in
        if method2_valid m2 then accept estimates m2 2
        else accept estimates (method3_estimates stats center_estimate pixel_spacing) 3.

(** ** Profile-level outlier filter (lines 316-383) *)

(** What the filter writes to [std::cout] when [verbose] is set. *)
Inductive Diagnostic :=
| TooManyOutliers (outliers_removed : Z)            (* lines 351-352 *)
| FewPointsRemain (remaining : nat)                 (* lines 371-372 *)
| RemovedOutliers (outliers_removed : Z) (remaining : nat). (* lines 378-379 *)

(** One threshold loop (lines 339-346 and 361-366): the points whose charge
    lies in [[lower, upper]], positions and charges kept in step. *)
Fixpoint threshold_pass (lower upper : float) (x_vals y_vals : list float)
  : list float * list float :=
  match x_vals, y_vals with
  | x :: xs, y :: ys =>
      let '(fx, fy) := threshold_pass lower upper xs ys in
      if (y >=? lower) && (y <=? upper) then (x :: fx, y :: fy) else (fx, fy)
  | _, _ => ([], [])
  end.

Definition FilterPowerLorentzianOutliers
  (x_vals y_vals : list float) (sigma_threshold : float) (verbose : bool)
  : (list float * list float) * list Diagnostic :=
  if negb (length x_vals =? length y_vals)%nat || (length x_vals <? 5)%nat
  then (([], []), [])
  else
    let stats := CalculateRobustStatisticsPowerLorentzian x_vals y_vals in
    if negb (valid stats) then ((x_vals, y_vals), [])
    else
      let outlier_threshold := median stats + sigma_threshold * mad stats in
      let lower_threshold := median stats - sigma_threshold * mad stats in
      let first := threshold_pass lower_threshold outlier_threshold x_vals y_vals in
      (* the counter of line 344: one increment per point the first loop drops *)
      let outliers_removed := (Z.of_nat (length y_vals) - Z.of_nat (length (fst first)))%Z in
      let retry := (length (fst first) <? length x_vals / 2)%nat in
      let filtered :=
        if retry
        then threshold_pass (median stats - 4 * mad stats) (median stats + 4 * mad stats)
                            x_vals y_vals
        else first in
      let cout1 := if retry && verbose then [TooManyOutliers outliers_removed] else [] in
      if (length (fst filtered) <? 5)%nat
      then ((x_vals, y_vals),
            cout1 ++ (if verbose then [FewPointsRemain (length (fst filtered))] else []))
      else (filtered,
            cout1 ++ (if verbose && (0 <? outliers_removed)%Z
                      then [RemovedOutliers outliers_removed (length (fst filtered))]
                      else [])).

(** ** The external solver's interface (Ceres), as the source uses it *)

Inductive LinearSolverType := DENSE_QR | DENSE_NORMAL_CHOLESKY | SPARSE_NORMAL_CHOLESKY.
Inductive TrustRegionStrategyType := LEVENBERG_MARQUARDT | DOGLEG.
Inductive MinimizerType := TRUST_REGION | LINE_SEARCH.
Inductive TerminationType :=
  CONVERGENCE | NO_CONVERGENCE | FAILURE | USER_SUCCESS | USER_FAILURE.
Inductive CovarianceAlgorithmType := DENSE_SVD | SPARSE_QR.

(** A robust loss ([ceres::LossFunction*]); [nullptr] is [None]. *)
Inductive LossFunction := HuberLoss (a : float) | CauchyLoss (a : float).

(** The data of one [PowerLorentzianCostFunction] (lines 42-101); its
    residual is evaluated inside the solver only. *)
Record PowerLorentzianCostFunction := mkCost {
  x_ : float;
  y_ : float;
  uncertainty_ : float
}.

(** One [AddResidualBlock(cost_function, loss_function, parameters)]. *)
Record ResidualBlock := mkBlock {
  cost_function : PowerLorentzianCostFunction;
  loss : option LossFunction
}.

(** [ceres::Problem] over the one 5-parameter block: its residual blocks in
    the order they were added and the bounds of the five parameters. *)
Record Problem := mkProblem {
  residual_blocks : list ResidualBlock;
  lower_bound : list float;
  upper_bound : list float
}.

Record SolverOptions := mkOptions {
  linear_solver_type : LinearSolverType;
  minimizer_type : MinimizerType;
  trust_region_strategy_type : TrustRegionStrategyType;
  opt_function_tolerance : float;
  opt_gradient_tolerance : float;
  parameter_tolerance : float;
  max_num_iterations : Z;
  max_num_consecutive_invalid_steps : Z;
  use_nonmonotonic_steps : bool;
  minimizer_progress_to_stdout : bool
}.

(** The two fields of [ceres::Solver::Summary] the source reads. *)
Record Summary := mkSummary {
  termination_type : TerminationType;
  final_cost : float
}.

Record CovarianceOptions := mkCovOptions {
  algorithm_type : CovarianceAlgorithmType;
  min_reciprocal_condition_number : float;
  null_space_rank : Z;
  apply_loss_function : bool
}.

Module Pb.

(** [v[i] = a] on a parameter-sized array. *)
Fixpoint set (i : nat) (a : float) (v : list float) : list float :=
  match v, i with
  | [], _ => []
  | _ :: r, O => a :: r
  | b :: r, S j => b :: set j a r
  end.

(** A fresh [ceres::Problem]: no residual block; once the parameter block is
    known its bounds are [-DBL_MAX] and [DBL_MAX]. *)
Definition empty : Problem :=
  mkProblem [] (repeat (- Dbl.DBL_MAX) 5) (repeat Dbl.DBL_MAX 5).

Definition AddResidualBlock (c : PowerLorentzianCostFunction)
  (l : option LossFunction) (p : Problem) : Problem :=
  mkProblem (residual_blocks p ++ [mkBlock c l]) (lower_bound p) (upper_bound p).

Definition SetParameterLowerBound (i : nat) (a : float) (p : Problem) : Problem :=
  mkProblem (residual_blocks p) (set i a (lower_bound p)) (upper_bound p).

Definition SetParameterUpperBound (i : nat) (a : float) (p : Problem) : Problem :=
  mkProblem (residual_blocks p) (lower_bound p) (set i a (upper_bound p)).

(** Both bounds of parameter [i], lower first, as every pair of calls in the
    source sets them. *)
Definition SetBounds (i : nat) (lo hi : float) (p : Problem) : Problem :=
  SetParameterUpperBound i hi (SetParameterLowerBound i lo p).

End Pb.

(** ** Data of the 1-D fit (lines 385-731) *)

(** The eleven [double&] output parameters of [FitPowerLorentzianCeres]: the
    caller's variables before the call, and after it. *)
Record FitOutputs := mkOut {
  fit_amplitude : float;
  fit_center : float;
  fit_gamma : float;
  fit_beta : float;
  fit_vertical_offset : float;
  fit_amplitude_err : float;
  fit_center_err : float;
  fit_gamma_err : float;
  fit_beta_err : float;
  fit_vertical_offset_err : float;
  chi2_reduced : float
}.

(** The local struct of lines 461-469. *)
Record PowerLorentzianFittingConfig := mkConfig {
  linear_solver : LinearSolverType;
  trust_region : TrustRegionStrategyType;
  function_tolerance : float;
  gradient_tolerance : float;
  max_iterations : Z;
  loss_function : string;
  loss_parameter : float
}.

(** The five configurations, in the order they are pushed (lines 471-521). *)
Definition configs (estimates : Est.PowerLorentzianParameterEstimates)
  : list PowerLorentzianFittingConfig :=
  [ mkConfig DENSE_QR LEVENBERG_MARQUARDT 1e-15 1e-15 2000 "HUBER"
             (Est.amplitude estimates * 0.1);
    mkConfig DENSE_QR LEVENBERG_MARQUARDT 1e-12 1e-12 1500 "CAUCHY"
             (Est.amplitude estimates * 0.16);
    mkConfig DENSE_QR DOGLEG 1e-10 1e-10 1000 "NONE" 0;
    mkConfig DENSE_NORMAL_CHOLESKY LEVENBERG_MARQUARDT 1e-12 1e-12 1500 "HUBER"
             (Est.amplitude estimates * 0.13);
    mkConfig SPARSE_NORMAL_CHOLESKY LEVENBERG_MARQUARDT 1e-12 1e-12 1200 "CAUCHY"
             (Est.amplitude estimates * 0.22) ].

(** The solver options of one configuration (lines 570-580). *)
Definition options_of (config : PowerLorentzianFittingConfig) : SolverOptions :=
  mkOptions (linear_solver config) TRUST_REGION (trust_region config)
            (function_tolerance config) (gradient_tolerance config)
            1e-15 (max_iterations config) 50 true false.

(** The four covariance attempts (lines 653-658 and 661-665). *)
Definition cov_configs : list CovarianceOptions :=
  [ mkCovOptions DENSE_SVD 1e-14 2 true;
    mkCovOptions DENSE_SVD 1e-12 2 true;
    mkCovOptions DENSE_SVD 1e-10 2 true;
    mkCovOptions SPARSE_QR 1e-12 2 true ].

(** The residual blocks of lines 536-542, one per point, each added with a
    null loss function. *)
Definition add_residual_blocks (clean_x clean_y : list float) (uncertainty : float)
  (problem : Problem) : Problem :=
  fold_left (fun p xy => Pb.AddResidualBlock (mkCost (fst xy) (snd xy) uncertainty) None p)
            (combine clean_x clean_y) problem.

(** The parameter array [parameters[5]] initialised from the estimates
    (lines 525-530). *)
Definition initial_parameters (estimates : Est.PowerLorentzianParameterEstimates)
  : list float :=
  [Est.amplitude estimates; Est.center estimates; Est.gamma estimates;
   Est.beta estimates; Est.baseline estimates].

(** The test applied after Stage 1 (lines 596-601). *)
Definition stage1_ok (summary : Summary) (parameters : list float) : bool :=
  (match termination_type summary with CONVERGENCE | USER_SUCCESS => true | _ => false end) &&
  (Vec.at_ parameters 0 >? 0) && (Vec.at_ parameters 2 >? 0) &&
  negb (Dbl.isnan (Vec.at_ parameters 0)) && negb (Dbl.isnan (Vec.at_ parameters 1)) &&
  negb (Dbl.isnan (Vec.at_ parameters 2)) && negb (Dbl.isnan (Vec.at_ parameters 3)) &&
  negb (Dbl.isnan (Vec.at_ parameters 4)).

(** The acceptance test of the final solve (lines 634-640). *)
Definition fit_ok (summary : Summary) (parameters : list float) : bool :=
  (match termination_type summary with CONVERGENCE | USER_SUCCESS => true | _ => false end) &&
  (Vec.at_ parameters 0 >? 0) && (Vec.at_ parameters 2 >? 0) &&
  (Vec.at_ parameters 3 >? 0.1) && (Vec.at_ parameters 3 <? 5) &&
  negb (Dbl.isnan (Vec.at_ parameters 0)) && negb (Dbl.isnan (Vec.at_ parameters 1)) &&
  negb (Dbl.isnan (Vec.at_ parameters 2)) && negb (Dbl.isnan (Vec.at_ parameters 3)) &&
  negb (Dbl.isnan (Vec.at_ parameters 4)).

(** The five fitted values written to the outputs (lines 644-648). *)
Definition set_values (o : FitOutputs) (parameters : list float) : FitOutputs :=
  mkOut (Vec.at_ parameters 0) (Vec.at_ parameters 1) (abs (Vec.at_ parameters 2))
        (Vec.at_ parameters 3) (Vec.at_ parameters 4)
        (fit_amplitude_err o) (fit_center_err o) (fit_gamma_err o)
        (fit_beta_err o) (fit_vertical_offset_err o) (chi2_reduced o).

(** The five standard errors written to the outputs. *)
Definition set_errors (o : FitOutputs) (ea ec eg eb ev : float) : FitOutputs :=
  mkOut (fit_amplitude o) (fit_center o) (fit_gamma o) (fit_beta o)
        (fit_vertical_offset o) ea ec eg eb ev (chi2_reduced o).

Definition set_chi2 (o : FitOutputs) (c : float) : FitOutputs :=
  mkOut (fit_amplitude o) (fit_center o) (fit_gamma o) (fit_beta o)
        (fit_vertical_offset o) (fit_amplitude_err o) (fit_center_err o)
        (fit_gamma_err o) (fit_beta_err o) (fit_vertical_offset_err o) c.

(** The sanity test on the covariance errors (lines 680-684). *)
Definition errors_ok (o : FitOutputs) (pixel_spacing : float) : bool :=
  negb (Dbl.isnan (fit_amplitude_err o)) && negb (Dbl.isnan (fit_center_err o)) &&
  negb (Dbl.isnan (fit_gamma_err o)) && negb (Dbl.isnan (fit_beta_err o)) &&
  negb (Dbl.isnan (fit_vertical_offset_err o)) &&
  (fit_amplitude_err o <? 10 * fit_amplitude o) &&
  (fit_center_err o <? 5 * pixel_spacing).

(** The heuristic errors of lines 694-699. *)
Definition fallback_errors (o : FitOutputs) (data_stats : DataStatistics)
  (pixel_spacing : float) : FitOutputs :=
  set_errors o
    (Dbl.max (0.02 * fit_amplitude o) (0.1 * mad data_stats))
    (Dbl.max (0.02 * pixel_spacing) (fit_gamma o / 10))
    (Dbl.max (0.05 * fit_gamma o) (0.01 * pixel_spacing))
    (Dbl.max (0.1 * fit_beta o) 0.05)
    (Dbl.max (0.1 * abs (fit_vertical_offset o)) (0.05 * mad data_stats)).

(** [int dof = std::max(1, static_cast<int>(n) - 5)] (lines 705 and 862). *)
Definition dof_of_size (n : nat) : Z := Z.max 1 (int_of_size n - 5).

(** The reduced chi-square of lines 704-706. *)
Definition reduced_chi2 (summary : Summary) (n : nat) : float :=
  let chi2 := final_cost summary * 2 in
  chi2 / Dbl.of_int (dof_of_size n).

(** ** Data of the 2-D coordinator (lines 733-942) *)

(** One axis of [PowerLorentzianFit2DResultsCeres]: the source's fields
    [x_<name>] (resp. [y_<name>]) are the fields of [x_axis] (resp.
    [y_axis]); [axis_out] holds the eleven of them that are passed to
    [FitPowerLorentzianCeres] by reference ([x_amplitude] .. [x_chi2red]),
    [pixel_coords] is [x_row_pixel_coords] / [y_col_pixel_coords], and so
    on. *)
Record AxisFit := mkAxis {
  axis_out : FitOutputs;
  dof : Z;
  pp : float;
  pixel_coords : list float;
  charge_values : list float;
  charge_errors : list float;
  charge_uncertainty : float
}.

Record PowerLorentzianFit2DResultsCeres := mk2D {
  x_axis : AxisFit;
  y_axis : AxisFit;
  fit_successful : bool
}.

Definition FitOutputs_default : FitOutputs := mkOut 0 0 0 0 0 0 0 0 0 0 0.

(** Modelled from the spec: the default-constructed result struct, declared
    in [2DPowerLorentzianFitCeres.hh], which is not among the sources.  The
    spec has input errors "reported via a boolean success flag plus an
    empty/default result": numbers zero, vectors empty, flag false. *)
Definition Fit2D_default : PowerLorentzianFit2DResultsCeres :=
  mk2D (mkAxis FitOutputs_default 0 0 [] [] [] 0)
       (mkAxis FitOutputs_default 0 0 [] [] [] 0) false.

(** [std::map<double, std::vector<std::pair<double, double>>>]: the entries
    in ascending key order, which is the order the source iterates in. *)
Definition GroupMap := list (float * list (float * float)).

Module Grp.

(** The loops of lines 785-791 / 798-804: push [p] onto the first group, in
    key order, whose key is within [tolerance] of [c]; [None] when no group
    is ([found_row] stays false). *)
Fixpoint push_near (tolerance c : float) (p : float * float) (m : GroupMap)
  : option GroupMap :=
  match m with
  | [] => None
  | (k, v) :: r =>
      if abs (k - c) <? tolerance then Some ((k, v ++ [p]) :: r)
      else option_map (cons (k, v)) (push_near tolerance c p r)
  end.

(** [m[c].push_back(p)]: [operator[]] finds the key equivalent to [c] or
    inserts [c] with an empty vector at its place in the order. *)
Fixpoint push_at (c : float) (p : float * float) (m : GroupMap) : GroupMap :=
  match m with
  | [] => [(c, [p])]
  | (k, v) :: r =>
      if c <? k then (c, [p]) :: m
      else if k <? c then (k, v) :: push_at c p r
      else (k, v ++ [p]) :: r
  end.

(** Lines 783-794 (and 796-807). *)
Definition add_point (tolerance c : float) (p : float * float) (m : GroupMap) : GroupMap :=
  match push_near tolerance c p m with
  | Some m' => m'
  | None => push_at c p m
  end.

(** [m.find(c)]: the vector stored under the key equivalent to [c]. *)
Fixpoint find (c : float) (m : GroupMap) : option (list (float * float)) :=
  match m with
  | [] => None
  | (k, v) :: r =>
      if k <? c then find c r else if c <? k then None else Some v
  end.

(** The selection loops of lines 811-829: the running [(best, min_dist)]. *)
Definition closest (center_estimate : float) (m : GroupMap) : float :=
  fst (fold_left
         (fun (acc : float * float) (kv : float * list (float * float)) =>
            let dist := abs (fst kv - center_estimate) in
            if (dist <? snd acc) && (5 <=? length (snd kv))%nat
            then (fst kv, dist) else acc)
         m (center_estimate, Dbl.DBL_MAX)).

(** [operator<] of [std::pair<double, double>]. *)
Definition pair_ltb (a b : float * float) : bool :=
  (fst a <? fst b) || (negb (fst b <? fst a) && (snd a <? snd b)).

End Grp.

(** The grouping loop (lines 776-808): rows keyed by y hold (x, charge),
    columns keyed by x hold (y, charge). *)
Fixpoint group_points (tolerance : float) (x_coords y_coords charge_values : list float)
  (rows_data cols_data : GroupMap) : GroupMap * GroupMap :=
  match x_coords, y_coords, charge_values with
  | x :: xs, y :: ys, charge :: cs =>
      if charge <=? 0 then group_points tolerance xs ys cs rows_data cols_data
      else group_points tolerance xs ys cs
             (Grp.add_point tolerance y (x, charge) rows_data)
             (Grp.add_point tolerance x (y, charge) cols_data)
  | _, _, _ => (rows_data, cols_data)
  end.

(** The line of the map the fit of one direction runs on (lines 835-839 and
    872-876): the vector under [best], sorted, when it is there with at
    least five points. *)
Definition selected_line (best : float) (m : GroupMap) : option (list (float * float)) :=
  match Grp.find best m with
  | Some v => if (5 <=? length v)%nat then Some (Vec.sort Grp.pair_ltb v) else None
  | None => None
  end.

(** The grouping and the two selections (lines 770-829, with the tests of
    lines 835 and 872): the row the X fit runs on and the column the Y fit
    runs on, when there is one. *)
Definition selected_lines (x_coords y_coords charge_values : list float)
  (center_x_estimate center_y_estimate pixel_spacing : float)
  : option (list (float * float)) * option (list (float * float)) :=
  let tolerance := pixel_spacing * 0.1 in
  let '(rows_data, cols_data) :=
    group_points tolerance x_coords y_coords charge_values [] [] in
  let best_row_y := Grp.closest center_y_estimate rows_data in
  let best_col_x := Grp.closest center_x_estimate cols_data in
  (selected_line best_row_y rows_data, selected_line best_col_x cols_data).

(** The pseudo p-value of lines 863 and 900. *)
Definition pseudo_p (chi2red : float) : float :=
  if chi2red >? 0 then 1 - Dbl.min 1 (chi2red / 10) else 0.

(** ** The 2-D outlier remover (lines 944-1046) *)

Record PowerLorentzianOutlierRemovalResult := mkRemoval {
  filtered_x_coords : list float;
  filtered_y_coords : list float;
  filtered_charge_values : list float;
  outliers_removed : Z;
  filtering_applied : bool;
  success : bool
}.

(** Modelled from the spec: the default-constructed removal result (the
    struct is declared in [2DPowerLorentzianFitCeres.hh], not among the
    sources): vectors empty, count zero, flags false. *)
Definition Removal_default : PowerLorentzianOutlierRemovalResult :=
  mkRemoval [] [] [] 0 false false.

(** The flags of lines 999-1008: [is_outlier[i]] for every charge. *)
Definition outlier_flags (charge_values : list float) (median_ outlier_threshold : float)
  : list bool :=
  map (fun charge => abs (charge - median_) >? outlier_threshold) charge_values.

(** [outlier_count]: one increment per flag set. *)
Definition count_flags (is_outlier : list bool) : nat :=
  length (filter (fun b => b) is_outlier).

(** The copy loop of lines 1028-1034: the triples whose flag is clear. *)
Fixpoint keep_unflagged (is_outlier : list bool) (x_coords y_coords charge_values : list float)
  : list float * list float * list float :=
  match is_outlier, x_coords, y_coords, charge_values with
  | b :: bs, x :: xs, y :: ys, c :: cs =>
      let '(fx, fy, fc) := keep_unflagged bs xs ys cs in
      if b then (fx, fy, fc) else (x :: fx, y :: fy, c :: fc)
  | _, _, _, _ => ([], [], [])
  end.

Definition RemovePowerLorentzianOutliers (x_coords y_coords charge_values : list float)
  (enable_outlier_removal : bool) (sigma_threshold : float) (verbose : bool)
  : PowerLorentzianOutlierRemovalResult :=
  let result := Removal_default in
  let original (ok : bool) := mkRemoval x_coords y_coords charge_values 0 false ok in
  if negb (length x_coords =? length y_coords)%nat ||
     negb (length x_coords =? length charge_values)%nat
  then result
  else if negb enable_outlier_removal then original true
  else if (length charge_values <? 5)%nat then original true
  else
    let stats := CalculateRobustStatisticsPowerLorentzian x_coords charge_values in
    if negb (valid stats) then original false
    else
      let outlier_threshold := sigma_threshold * mad stats in
      let is_outlier := outlier_flags charge_values (median stats) outlier_threshold in
      let outlier_count := count_flags is_outlier in
      if (length charge_values - outlier_count <? 5)%nat then original true
      else
        let '(fx, fy, fc) := keep_unflagged is_outlier x_coords y_coords charge_values in
        mkRemoval fx fy fc (Z.of_nat outlier_count) true true.

(** ** Data of the diagonal coordinator (lines 1048-1254) *)

(** One of the four sub-fits of [DiagonalPowerLorentzianFitResultsCeres]: the
    source's fields [main_diag_x_<name>], ... are the fields of
    [main_diag_x], ...; [diag_out] holds the eleven passed by reference. *)
Record DiagFit := mkDiagFit {
  diag_out : FitOutputs;
  diag_dof : Z;
  diag_pp : float;
  diag_fit_successful : bool
}.

Module Diag.

Record DiagonalPowerLorentzianFitResultsCeres := mk {
  main_diag_x : DiagFit;
  main_diag_y : DiagFit;
  sec_diag_x : DiagFit;
  sec_diag_y : DiagFit;
  fit_successful : bool
}.

(** Modelled from the spec: the default-constructed diagonal result (declared
    in [2DPowerLorentzianFitCeres.hh], not among the sources): numbers zero,
    every success flag false. *)
Definition default : DiagonalPowerLorentzianFitResultsCeres :=
  let d := mkDiagFit FitOutputs_default 0 0 false in
  mk d d d d false.

End Diag.

(** The classification loop (lines 1112-1135): the points of the main and of
    the secondary diagonal, each as (diagonal coordinate, charge). *)
Fixpoint diagonal_points (diagonal_tolerance center_x_estimate center_y_estimate : float)
  (xs ys cs : list float) : list (float * float) * list (float * float) :=
  match xs, ys, cs with
  | x :: xs', y :: ys', charge :: cs' =>
      let '(main_diag, sec_diag) :=
        diagonal_points diagonal_tolerance center_x_estimate center_y_estimate xs' ys' cs' in
      if charge <=? 0 then (main_diag, sec_diag)
      else
        let dx := x - center_x_estimate in
        let dy := y - center_y_estimate in
        ((if abs (dx - dy) <? diagonal_tolerance
          then ((dx + dy) / 2, charge) :: main_diag else main_diag),
         (if abs (dx + dy) <? diagonal_tolerance
          then ((dx - dy) / 2, charge) :: sec_diag else sec_diag))
  | _, _, _ => ([], [])
  end.

(** The points the four diagonal fits run on (lines 1085-1135): the optional
    outlier removal, then the classification. *)
Definition diagonal_data (x_coords y_coords charge_values : list float)
  (center_x_estimate center_y_estimate pixel_spacing : float)
  (verbose enable_outlier_filtering : bool)
  : list (float * float) * list (float * float) :=
  let '(filtered_x_coords, filtered_y_coords, filtered_charge_values) :=
    if enable_outlier_filtering
    then
      let filter_result :=
        RemovePowerLorentzianOutliers x_coords y_coords charge_values true 2.5 verbose in
      if success filter_result && filtering_applied filter_result
      then (filtered_x_coords filter_result, filtered_y_coords filter_result,
            filtered_charge_values filter_result)
      else (x_coords, y_coords, charge_values)
    else (x_coords, y_coords, charge_values) in
  let diagonal_tolerance := pixel_spacing * 0.5 in
  diagonal_points diagonal_tolerance center_x_estimate center_y_estimate
                  filtered_x_coords filtered_y_coords filtered_charge_values.

(** ** The fitting code, over the constants and the solver *)

Section Fit.

(** [Constants::ENABLE_VERTICAL_CHARGE_UNCERTAINTIES] and
    [Constants::MIN_UNCERTAINTY_VALUE] (declared in [Constants.hh]). *)
Variable ENABLE_VERTICAL_CHARGE_UNCERTAINTIES : bool.
Variable MIN_UNCERTAINTY_VALUE : float.

(** [ceres::Solve(options, &problem, &summary)]: from the options, the
    problem and the current contents of the parameter array, the summary and
    the new contents of the array. *)
Variable Solve : SolverOptions -> Problem -> list float -> Summary * list float.

(** [covariance.Compute] followed by [GetCovarianceBlock]: the 5x5 block,
    row-major, when both return true. *)
Variable Covariance : CovarianceOptions -> Problem -> list float -> option (list float).

(** *** The 1-D fit (lines 385-731) *)

(** Lines 29-38. *)
Definition CalculatePowerLorentzianUncertainty (max_charge_in_line : float) : float :=
  if negb ENABLE_VERTICAL_CHARGE_UNCERTAINTIES then 1
  else
    let uncertainty := 0.05 * max_charge_in_line in
    if uncertainty <? MIN_UNCERTAINTY_VALUE then MIN_UNCERTAINTY_VALUE else uncertainty.

(** The problem as it stands before Stage 1 is solved: residual blocks
    (lines 536-542), the five pairs of bounds (lines 545-567), then the
    Stage-1 bounds of the exponent (lines 585-586). *)
Definition stage1_problem (clean_x clean_y : list float)
  (estimates : Est.PowerLorentzianParameterEstimates)
  (uncertainty pixel_spacing : float) : Problem :=
  let problem := add_residual_blocks clean_x clean_y uncertainty Pb.empty in
  let amp_min := Dbl.max MIN_UNCERTAINTY_VALUE (Est.amplitude estimates * 0.01) in
  let max_charge_val := Vec.max_element clean_y in
  let physics_amp_max := max_charge_val * 1.5 in
  let algo_amp_max := Est.amplitude estimates * 100 in
  let amp_max := Dbl.min physics_amp_max algo_amp_max in
  let problem := Pb.SetBounds 0 amp_min amp_max problem in
  let center_range := pixel_spacing * 3 in
  let problem := Pb.SetBounds 1 (Est.center estimates - center_range)
                                (Est.center estimates + center_range) problem in
  let problem := Pb.SetBounds 2 (pixel_spacing * 0.05) (pixel_spacing * 4) problem in
  let problem := Pb.SetBounds 3 0.2 4 problem in
  let baseline_range :=
    Dbl.max (Est.amplitude estimates * 0.5) (abs (Est.baseline estimates) * 2) in
  let problem := Pb.SetBounds 4 (Est.baseline estimates - baseline_range)
                                (Est.baseline estimates + baseline_range) problem in
  Pb.SetBounds 3 0.9 1.1 problem.

(** The two-stage solve of one configuration (lines 592-631): the final
    summary, the final parameter array and the problem as the last solve
    saw it. *)
Definition two_stage_solve (options : SolverOptions) (problem : Problem)
  (parameters : list float) (pixel_spacing : float)
  : Summary * list float * Problem :=
  let '(summary_stage1, parameters) := Solve options problem parameters in
  if stage1_ok summary_stage1 parameters
  then
    let problem := Pb.SetBounds 3 0.2 4 problem in
    let stage1_center := Vec.at_ parameters 1 in
    let tight_center_range := pixel_spacing * 0.5 in
    let problem := Pb.SetBounds 1 (stage1_center - tight_center_range)
                                  (stage1_center + tight_center_range) problem in
    let '(summary, parameters) := Solve options problem parameters in
    (summary, parameters, problem)
  else
    let problem := Pb.SetBounds 3 0.2 4 problem in
    let '(summary, parameters) := Solve options problem parameters in
    (summary, parameters, problem).

(** The covariance loop (lines 660-690): the outputs as the loop leaves them
    and [cov_success]. *)
Fixpoint covariance_errors (attempts : list CovarianceOptions) (problem : Problem)
  (parameters : list float) (pixel_spacing : float) (o : FitOutputs)
  : FitOutputs * bool :=
  match attempts with
  | [] => (o, false)
  | cov_options :: rest =>
      match Covariance cov_options problem parameters with
      | Some covariance_matrix =>
          let o := set_errors o
            (sqrt (abs (Vec.at_ covariance_matrix 0)))
            (sqrt (abs (Vec.at_ covariance_matrix 6)))
            (sqrt (abs (Vec.at_ covariance_matrix 12)))
            (sqrt (abs (Vec.at_ covariance_matrix 18)))
            (sqrt (abs (Vec.at_ covariance_matrix 24))) in
          if errors_ok o pixel_spacing then (o, true)
          else covariance_errors rest problem parameters pixel_spacing o
      | None => covariance_errors rest problem parameters pixel_spacing o
      end
  end.

(** One pass of the configuration loop (lines 523-724): [Some] of the
    outputs when this configuration's fit is accepted ([return true]), [None]
    when the loop goes on to the next one, the outputs untouched. *)
Definition fit_with_config (clean_x clean_y : list float)
  (estimates : Est.PowerLorentzianParameterEstimates)
  (uncertainty pixel_spacing : float) (o : FitOutputs)
  (config : PowerLorentzianFittingConfig) : option FitOutputs :=
  let parameters := initial_parameters estimates in
  let problem := stage1_problem clean_x clean_y estimates uncertainty pixel_spacing in
  let '(summary, parameters, problem) :=
    two_stage_solve (options_of config) problem parameters pixel_spacing in
  if fit_ok summary parameters
  then
    let o := set_values o parameters in
    let '(o, cov_success) :=
      covariance_errors cov_configs problem parameters pixel_spacing o in
    let o :=
      if cov_success then o
      else fallback_errors o (CalculateRobustStatisticsPowerLorentzian clean_x clean_y)
                           pixel_spacing in
    Some (set_chi2 o (reduced_chi2 summary (length clean_x)))
  else None.

(** The configuration loop: the first accepted configuration wins. *)
Fixpoint try_configs (clean_x clean_y : list float)
  (estimates : Est.PowerLorentzianParameterEstimates)
  (uncertainty pixel_spacing : float) (o : FitOutputs)
  (cs : list PowerLorentzianFittingConfig) : option FitOutputs :=
  match cs with
  | [] => None
  | config :: rest =>
      match fit_with_config clean_x clean_y estimates uncertainty pixel_spacing o config with
      | Some o' => Some o'
      | None => try_configs clean_x clean_y estimates uncertainty pixel_spacing o rest
      end
  end.

(** The body of the dataset loop for one dataset (lines 438-724). *)
Definition fit_dataset (center_estimate pixel_spacing : float) (o : FitOutputs)
  (dataset : list float * list float) : option FitOutputs :=
  let clean_x := fst dataset in
  let clean_y := snd dataset in
  if (length clean_x <? 5)%nat then None
  else
    let estimates :=
      EstimatePowerLorentzianParameters clean_x clean_y center_estimate pixel_spacing in
    if negb (Est.valid estimates) then None
    else
      let max_charge := Vec.max_element clean_y in
      let uncertainty := CalculatePowerLorentzianUncertainty max_charge in
      try_configs clean_x clean_y estimates uncertainty pixel_spacing o (configs estimates).

(** The dataset loop (lines 437-725). *)
Fixpoint try_datasets (center_estimate pixel_spacing : float) (o : FitOutputs)
  (datasets : list (list float * list float)) : option FitOutputs :=
  match datasets with
  | [] => None
  | dataset :: rest =>
      match fit_dataset center_estimate pixel_spacing o dataset with
      | Some o' => Some o'
      | None => try_datasets center_estimate pixel_spacing o rest
      end
  end.

(** The candidate datasets (lines 414-429). *)
Definition filtered_datasets (x_vals y_vals : list float)
  (verbose enable_outlier_filtering : bool) : list (list float * list float) :=
  (if enable_outlier_filtering
   then
     let conservative_data := fst (FilterPowerLorentzianOutliers x_vals y_vals 2.5 verbose) in
     let lenient_data := fst (FilterPowerLorentzianOutliers x_vals y_vals 3 verbose) in
     (if (5 <=? length (fst conservative_data))%nat then [conservative_data] else []) ++
     (if (5 <=? length (fst lenient_data))%nat then [lenient_data] else [])
   else []) ++ [(x_vals, y_vals)].

(** [FitPowerLorentzianCeres]: the returned [bool] and the eleven output
    variables after the call, [o] being their contents before it. *)
Definition FitPowerLorentzianCeres (x_vals y_vals : list float)
  (center_estimate pixel_spacing : float) (o : FitOutputs)
  (verbose enable_outlier_filtering : bool) : bool * FitOutputs :=
  if negb (length x_vals =? length y_vals)%nat || (length x_vals <? 5)%nat
  then (false, o)
  else
    match try_datasets center_estimate pixel_spacing o
            (filtered_datasets x_vals y_vals verbose enable_outlier_filtering) with
    | Some o' => (true, o')
    | None => (false, o)
    end.

(** *** The 2-D coordinator, continued *)

(** One direction's fit (lines 835-869 and 872-906): whether it succeeded and
    the axis fields after it; without a line of five points neither the fit
    nor any assignment happens. *)
Definition fit_axis (line : option (list (float * float)))
  (center_estimate pixel_spacing : float) (a : AxisFit)
  (verbose enable_outlier_filtering : bool) : bool * AxisFit :=
  match line with
  | Some data =>
      let x_vals := map fst data in
      let y_vals := map snd data in
      let '(success, o) :=
        FitPowerLorentzianCeres x_vals y_vals center_estimate pixel_spacing
                                (axis_out a) verbose enable_outlier_filtering in
      (success,
       mkAxis o (dof_of_size (length x_vals)) (pseudo_p (chi2_reduced o))
              x_vals y_vals [] (charge_uncertainty a))
  | None => (false, a)
  end.

(** The charge uncertainty stored for one direction (lines 912-933); after a
    successful fit the map holds the sorted [line] under the selected key. *)
Definition store_charge_uncertainty (success : bool)
  (line : option (list (float * float))) (a : AxisFit) : AxisFit :=
  let set u := mkAxis (axis_out a) (dof a) (pp a) (pixel_coords a)
                      (charge_values a) (charge_errors a) u in
  if ENABLE_VERTICAL_CHARGE_UNCERTAINTIES
  then
    if success
    then match line with
         | Some data =>
             set (0.05 * fold_left (fun m point => Dbl.max m (snd point)) data 0)
         | None => a
         end
    else a
  else set 0.

Definition Fit2DPowerLorentzianCeres (x_coords y_coords charge_values : list float)
  (center_x_estimate center_y_estimate pixel_spacing : float)
  (verbose enable_outlier_filtering : bool) : PowerLorentzianFit2DResultsCeres :=
  let result := Fit2D_default in
  if negb (length x_coords =? length y_coords)%nat ||
     negb (length x_coords =? length charge_values)%nat
  then result
  else if (length x_coords <? 5)%nat then result
  else
    let '(row, col) :=
      selected_lines x_coords y_coords charge_values
                     center_x_estimate center_y_estimate pixel_spacing in
    let '(x_fit_success, xa) :=
      fit_axis row center_x_estimate pixel_spacing (x_axis result)
               verbose enable_outlier_filtering in
    let '(y_fit_success, ya) :=
      fit_axis col center_y_estimate pixel_spacing (y_axis result)
               verbose enable_outlier_filtering in
    mk2D (store_charge_uncertainty x_fit_success row xa)
         (store_charge_uncertainty y_fit_success col ya)
         (x_fit_success && y_fit_success).

(** *** The diagonal coordinator (lines 1048-1254) *)

(** One sub-fit (lines 1138-1161 and its three copies): with fewer than five
    diagonal points nothing is fitted and nothing assigned. *)
Definition fit_diagonal (data : list (float * float)) (diag_pixel_spacing : float)
  (d : DiagFit) (verbose enable_outlier_filtering : bool) : DiagFit :=
  if (5 <=? length data)%nat
  then
    let sorted := Vec.sort Grp.pair_ltb data in
    let x_vals := map fst sorted in
    let y_vals := map snd sorted in
    let '(ok, o) :=
      FitPowerLorentzianCeres x_vals y_vals 0 diag_pixel_spacing (diag_out d)
                              verbose enable_outlier_filtering in
    mkDiagFit o (dof_of_size (length x_vals)) (pseudo_p (chi2_reduced o)) ok
  else d.

Definition FitDiagonalPowerLorentzianCeres (x_coords y_coords charge_values : list float)
  (center_x_estimate center_y_estimate pixel_spacing : float)
  (verbose enable_outlier_filtering : bool) : Diag.DiagonalPowerLorentzianFitResultsCeres :=
  let result := Diag.default in
  if negb (length x_coords =? length y_coords)%nat ||
     negb (length x_coords =? length charge_values)%nat
  then result
  else if (length x_coords <? 5)%nat then result
  else
    let diag_pixel_spacing := pixel_spacing * 1.41421356237 in
    let '(main_diag_data, sec_diag_data) :=
      diagonal_data x_coords y_coords charge_values
                    center_x_estimate center_y_estimate pixel_spacing
                    verbose enable_outlier_filtering in
    let mx := fit_diagonal main_diag_data diag_pixel_spacing (Diag.main_diag_x result)
                           verbose enable_outlier_filtering in
    let my := fit_diagonal main_diag_data diag_pixel_spacing (Diag.main_diag_y result)
                           verbose enable_outlier_filtering in
    let sx := fit_diagonal sec_diag_data diag_pixel_spacing (Diag.sec_diag_x result)
                           verbose enable_outlier_filtering in
    let sy := fit_diagonal sec_diag_data diag_pixel_spacing (Diag.sec_diag_y result)
                           verbose enable_outlier_filtering in
    Diag.mk mx my sx sy
      (diag_fit_successful mx && diag_fit_successful my &&
       diag_fit_successful sx && diag_fit_successful sy).

End Fit.

(** * Properties *)

(** ** Facts about binary64 comparisons and classification *)

Module FloatFacts.

Lemma SFcompare_refl_finite (s : bool) (m : positive) (e : Z) :
  SFcompare (S754_finite s m e) (S754_finite s m e) = Some Eq.
Proof.
  cbn. destruct s; rewrite Z.compare_refl, Pos.compare_cont_refl; reflexivity.
Qed.

Lemma compare_cont_opp (m1 m2 : positive) :
  Pos.compare_cont Eq m2 m1 = CompOpp (Pos.compare_cont Eq m1 m2).
Proof.
  change (Pos.compare_cont Eq m2 m1) with (Pos.compare m2 m1).
  change (Pos.compare_cont Eq m1 m2) with (Pos.compare m1 m2).
  apply Pos.compare_antisym.
Qed.

(** Comparison of two non-NaN numbers is antisymmetric. *)
Lemma SFcompare_antisym (x y : spec_float) (c : comparison) :
  SFcompare x y = Some c -> SFcompare y x = Some (CompOpp c).
Proof.
  destruct x as [sx | sx | | sx mx ex], y as [sy | sy | | sy my ey]; cbn;
    try discriminate;
    try (intros H; injection H as <-;
         repeat match goal with b : bool |- _ => destruct b end; reflexivity).
  intros H; injection H as <-. f_equal.
  rewrite (Z.compare_antisym ex ey), (compare_cont_opp mx my).
  destruct sx, sy; try reflexivity;
    destruct (ex ?= ey)%Z; cbn; try reflexivity;
    destruct (Pos.compare_cont Eq mx my); reflexivity.
Qed.

(** The shapes of a finite number. *)
Lemma is_finite_spec (x : float) :
  is_finite x = true <->
  (exists s, Prim2SF x = S754_zero s) \/ (exists s m e, Prim2SF x = S754_finite s m e).
Proof.
  unfold is_finite, is_nan, is_infinity.
  rewrite !FloatAxioms.eqb_spec, FloatAxioms.abs_spec.
  change (Prim2SF infinity) with (S754_infinity false).
  destruct (Prim2SF x) as [s | s | | s m e] eqn:E; unfold SFeqb.
  - cbn. split; [intros _; left; eauto | reflexivity].
  - cbn. split; [destruct s; discriminate | intros [[? H] | [? [? [? H]]]]; discriminate].
  - cbn. split; [discriminate | intros [[? H] | [? [? [? H]]]]; discriminate].
  - rewrite SFcompare_refl_finite. cbn.
    split; [intros _; right; eauto | reflexivity].
Qed.

Lemma is_nan_spec (x : float) : is_nan x = true <-> Prim2SF x = S754_nan.
Proof.
  unfold is_nan. rewrite FloatAxioms.eqb_spec. unfold SFeqb.
  destruct (Prim2SF x) as [s | s | | s m e].
  - cbn. split; discriminate.
  - destruct s; cbn; split; discriminate.
  - cbn. split; reflexivity.
  - rewrite SFcompare_refl_finite. cbn. split; discriminate.
Qed.

(** [a < b] gives [a <= b]. *)
Lemma ltb_leb (a b : float) : (a <? b) = true -> (a <=? b) = true.
Proof.
  rewrite FloatAxioms.ltb_spec, FloatAxioms.leb_spec. unfold SFltb, SFleb.
  destruct (SFcompare (Prim2SF a) (Prim2SF b)) as [[ | | ] | ]; congruence.
Qed.

(** Between comparable numbers, [not (a < b)] gives [b <= a]. *)
Lemma not_ltb_leb (a b : float) :
  is_nan a = false -> is_nan b = false -> (a <? b) = false -> (b <=? a) = true.
Proof.
  intros Ha Hb. rewrite FloatAxioms.ltb_spec, FloatAxioms.leb_spec. unfold SFltb, SFleb.
  destruct (SFcompare (Prim2SF a) (Prim2SF b)) as [c | ] eqn:E.
  - rewrite (SFcompare_antisym _ _ _ E). destruct c; cbn; congruence.
  - exfalso.
    assert (Prim2SF a <> S754_nan) as Na
      by (intros H; apply is_nan_spec in H; congruence).
    assert (Prim2SF b <> S754_nan) as Nb
      by (intros H; apply is_nan_spec in H; congruence).
    destruct (Prim2SF a) as [sx | sx | | sx mx ex], (Prim2SF b) as [sy | sy | | sy my ey];
      cbn in E; congruence.
Qed.

Lemma is_finite_not_nan (x : float) : is_finite x = true -> is_nan x = false.
Proof.
  unfold is_finite. destruct (is_nan x); [discriminate | reflexivity].
Qed.

End FloatFacts.

(** ** Sorting and the guards on sizes *)

Lemma unguarded_linear_insert_length {A} (lt : A -> A -> bool) (a : A) (l : list A) :
  length (Vec.unguarded_linear_insert lt a l) = S (length l).
Proof.
  induction l as [ | b r IH]; cbn; [reflexivity | ].
  destruct (lt a b); cbn; [rewrite IH | ]; reflexivity.
Qed.

Lemma insertion_step_length {A} (lt : A -> A -> bool) (l : list A) (a : A) :
  length (Vec.insertion_step lt l a) = S (length l).
Proof.
  unfold Vec.insertion_step. destruct l as [ | b r]; [reflexivity | ].
  destruct (lt a _).
  - rewrite length_app. cbn. lia.
  - apply unguarded_linear_insert_length.
Qed.

Lemma sort_length {A} (lt : A -> A -> bool) (l : list A) :
  length (Vec.sort lt l) = length l.
Proof.
  unfold Vec.sort. rewrite length_rev.
  enough (forall acc, length (fold_left (Vec.insertion_step lt) l acc)
                      = (length l + length acc)%nat) as H
    by (rewrite H; cbn; lia).
  induction l as [ | a r IH]; intros acc; cbn [fold_left length]; [reflexivity | ].
  rewrite IH, insertion_step_length. lia.
Qed.

(** The size guard shared by the estimator, the filter and the 1-D fit
    (lines 220, 325 and 406). *)
Lemma size_guard_passes (x_vals y_vals : list float) :
  length x_vals = length y_vals -> 5 <= length x_vals ->
  negb (length x_vals =? length y_vals)%nat || (length x_vals <? 5)%nat = false.
Proof.
  intros E L. rewrite E, Nat.eqb_refl. cbn [negb orb].
  apply Nat.ltb_ge. lia.
Qed.

Lemma size_guard_fails (x_vals y_vals : list float) :
  length x_vals <> length y_vals \/ length x_vals < 5 ->
  negb (length x_vals =? length y_vals)%nat || (length x_vals <? 5)%nat = true.
Proof.
  intros [N | L].
  - apply Nat.eqb_neq in N. rewrite N. reflexivity.
  - apply Nat.ltb_lt in L. rewrite L. apply orb_true_r.
Qed.

(** The guard of the statistics (line 122). *)
Lemma stats_guard_passes (x_vals y_vals : list float) :
  length x_vals = length y_vals -> x_vals <> [] ->
  negb (length x_vals =? length y_vals)%nat || (length x_vals =? 0)%nat = false.
Proof.
  intros E N. rewrite E, Nat.eqb_refl. cbn [negb orb].
  apply Nat.eqb_neq. rewrite <- E. destruct x_vals; [congruence | discriminate].
Qed.

Lemma stats_valid (x_vals y_vals : list float) :
  length x_vals = length y_vals -> x_vals <> [] ->
  valid (CalculateRobustStatisticsPowerLorentzian x_vals y_vals) = true.
Proof.
  intros E N. unfold CalculateRobustStatisticsPowerLorentzian.
  rewrite (stats_guard_passes _ _ E N).
  cbv zeta. destruct (fold_left _ _ _). reflexivity.
Qed.

(** ** The MAD floor *)

(** The floor of lines 162-165 always leaves a finite value of at least
    1e-12, whatever it is given. *)
Lemma mad_safeguard_floor (raw sd : float) :
  is_finite (mad_safeguard raw sd) = true /\
  (1e-12 <=? mad_safeguard raw sd) = true.
Proof.
  unfold mad_safeguard, Dbl.isfinite, Dbl.gtb.
  destruct (is_finite raw) eqn:Fr; cbn [negb orb].
  - destruct (raw <? 1e-12) eqn:Lr.
    + destruct (is_finite sd) eqn:Fs; cbn [andb].
      * destruct (1e-12 <? sd) eqn:Ls.
        -- split; [exact Fs | apply FloatFacts.ltb_leb; exact Ls].
        -- split; reflexivity.
      * split; reflexivity.
    + split; [exact Fr | ].
      apply FloatFacts.not_ltb_leb;
        [apply FloatFacts.is_finite_not_nan; exact Fr | reflexivity | exact Lr].
  - destruct (is_finite sd) eqn:Fs; cbn [andb].
    + destruct (1e-12 <? sd) eqn:Ls.
      * split; [exact Fs | apply FloatFacts.ltb_leb; exact Ls].
      * split; reflexivity.
    + split; reflexivity.
Qed.

(** The indices at which the statistics read their two sorted copies of size
    [n] (lines 145-151 and 159). *)
Definition sorted_reads (n : nat) : list nat :=
  ((if n mod 2 =? 0 then [n / 2 - 1; n / 2] else [n / 2]) ++ [n / 4; 3 * n / 4])%nat.

Lemma sorted_reads_in_range (n : nat) :
  0 < n -> Forall (fun i => i < n) (sorted_reads n).
Proof.
  intros P. unfold sorted_reads.
  assert (n / 2 < n)%nat by (apply Nat.div_lt; lia).
  assert (n / 4 < n)%nat by (apply Nat.div_lt; lia).
  assert (3 * n / 4 < n)%nat by (apply Nat.Div0.div_lt_upper_bound; lia).
  destruct (n mod 2 =? 0)%nat; cbn [app]; repeat constructor; lia.
Qed.

(** C2.  For equal-length non-empty inputs the statistics are valid and
    their MAD is finite and at least 1e-12: it is the raw MAD when that is
    finite and not below 1e-12, else the standard deviation when that is
    finite and above 1e-12, else 1e-12.  For mismatched lengths or empty
    input [valid] is false.  The function is total, and every index it reads
    from its sorted copies lies inside them. *)
Theorem robust_statistics_mad_floor (x_vals y_vals : list float) :
  let stats := CalculateRobustStatisticsPowerLorentzian x_vals y_vals in
  let n := length y_vals in
  let raw := raw_mad y_vals (median stats) n in
  (length x_vals = length y_vals /\ x_vals <> [] ->
     valid stats = true /\
     is_finite (mad stats) = true /\
     (1e-12 <=? mad stats) = true /\
     (is_finite raw = true -> (raw <? 1e-12) = false -> mad stats = raw) /\
     (is_finite raw = false \/ (raw <? 1e-12) = true ->
        (is_finite (std_dev stats) = true /\ (std_dev stats >? 1e-12) = true ->
           mad stats = std_dev stats) /\
        (is_finite (std_dev stats) = false \/ (std_dev stats >? 1e-12) = false ->
           mad stats = 1e-12)) /\
     Forall (fun i => i < length (Vec.sort ltb y_vals)) (sorted_reads n)) /\
  (length x_vals <> length y_vals \/ x_vals = [] -> valid stats = false).
Proof.
  cbv zeta. split.
  - intros [E N].
    assert (0 < length y_vals) as P
      by (rewrite <- E; destruct x_vals; [congruence | cbn; lia]).
    unfold CalculateRobustStatisticsPowerLorentzian.
    rewrite (stats_guard_passes _ _ E N). cbv zeta.
    destruct (fold_left _ _ _) as [wm tw]. cbn [valid mad median std_dev].
    rewrite sort_length.
    set (raw := raw_mad _ _ _). set (sd := sqrt _).
    destruct (mad_safeguard_floor raw sd) as [F L].
    repeat split; try assumption.
    + intros Fr Lr. unfold mad_safeguard, Dbl.isfinite. rewrite Fr, Lr. reflexivity.
    + intros [Fs Ls]. unfold mad_safeguard, Dbl.isfinite.
      rewrite Fs, Ls.
      destruct H as [Fr | Lr]; [rewrite Fr | rewrite Lr, orb_true_r]; reflexivity.
    + intros Hs. unfold mad_safeguard, Dbl.isfinite.
      assert (is_finite sd && (sd >? 1e-12) = false) as ->
        by (destruct Hs as [-> | ->]; [reflexivity | apply andb_false_r]).
      destruct H as [Fr | Lr]; [rewrite Fr | rewrite Lr, orb_true_r]; reflexivity.
    + apply sorted_reads_in_range. exact P.
  - intros H. unfold CalculateRobustStatisticsPowerLorentzian.
    assert (negb (length x_vals =? length y_vals)%nat || (length x_vals =? 0)%nat = true) as ->.
    { destruct H as [N | ->]; [ | apply orb_true_r].
      apply Nat.eqb_neq in N. rewrite N. reflexivity. }
    reflexivity.
Qed.

(** ** Tier selection in the estimator *)

(** The five values an estimate carries. *)
Definition estimate_values (e : Est.PowerLorentzianParameterEstimates)
  : float * float * float * float * float :=
  (Est.amplitude e, Est.center e, Est.gamma e, Est.beta e, Est.baseline e).

Lemma accept_spec (e : Est.PowerLorentzianParameterEstimates)
  (est : float * float * float * float * float) (tag : Z) :
  estimate_values (accept e est tag) = est /\
  Est.valid (accept e est tag) = true /\
  Est.method_used (accept e est tag) = tag.
Proof.
  destruct est as [[[[a c] g] b] bl]. repeat split.
Qed.

(** The Tier-1 test in the words of its source lines: amplitude > 0,
    width > 0, and none of the five estimates a NaN. *)
Lemma method1_valid_spec (a c g b bl : float) :
  method1_valid (a, c, g, b, bl) = true <->
  (a >? 0) = true /\ (g >? 0) = true /\
  is_nan c = false /\ is_nan a = false /\ is_nan g = false /\
  is_nan b = false /\ is_nan bl = false.
Proof.
  unfold method1_valid, Dbl.isnan.
  rewrite !andb_true_iff, !negb_true_iff. tauto.
Qed.

(** The Tier-2 test: amplitude > 0 and width > 0. *)
Lemma method2_valid_spec (a c g b bl : float) :
  method2_valid (a, c, g, b, bl) = true <-> (a >? 0) = true /\ (g >? 0) = true.
Proof.
  unfold method2_valid. apply andb_true_iff.
Qed.

(** C1.  On a profile (equal lengths, at least 5 points) the estimator
    returns exactly one tier's values, tagged in [method_used], the tiers
    tried in order: Tier 1 when its test holds; Tier 2 when Tier 1 is
    rejected and Tier 2's test holds; Tier 3 otherwise.  The result is valid
    in every case. *)
Theorem estimator_tier_priority (x_vals y_vals : list float)
  (center_estimate pixel_spacing : float) :
  length x_vals = length y_vals -> 5 <= length x_vals ->
  let stats := CalculateRobustStatisticsPowerLorentzian x_vals y_vals in
  let m1 := method1_estimates stats x_vals y_vals pixel_spacing in
  let m2 := method2_estimates stats pixel_spacing in
  let m3 := method3_estimates stats center_estimate pixel_spacing in
  let e := EstimatePowerLorentzianParameters x_vals y_vals center_estimate pixel_spacing in
  Est.valid e = true /\
  (method1_valid m1 = true ->
     Est.method_used e = 1%Z /\ estimate_values e = m1) /\
  (method1_valid m1 = false -> method2_valid m2 = true ->
     Est.method_used e = 2%Z /\ estimate_values e = m2) /\
  (method1_valid m1 = false -> method2_valid m2 = false ->
     Est.method_used e = 3%Z /\ estimate_values e = m3).
Proof.
  intros E L. cbv zeta.
  unfold EstimatePowerLorentzianParameters.
  rewrite (size_guard_passes _ _ E L).
  assert (x_vals <> []) as N by (destruct x_vals; [cbn in L; lia | discriminate]).
  rewrite (stats_valid _ _ E N). cbn [negb].
  set (stats := CalculateRobustStatisticsPowerLorentzian x_vals y_vals).
  set (m1 := method1_estimates stats x_vals y_vals pixel_spacing).
  set (m2 := method2_estimates stats pixel_spacing).
  set (m3 := method3_estimates stats center_estimate pixel_spacing).
  destruct (method1_valid m1) eqn:V1; [ | destruct (method2_valid m2) eqn:V2].
  - destruct (accept_spec Est.initial m1 1) as (Hv & Hok & Ht).
    repeat split; try assumption; discriminate.
  - destruct (accept_spec Est.initial m2 2) as (Hv & Hok & Ht).
    repeat split; try assumption; discriminate.
  - destruct (accept_spec Est.initial m3 3) as (Hv & Hok & Ht).
    repeat split; try assumption; discriminate.
Qed.

(** Each tier is reached: a peaked profile (Tier 1), a ramp with zero pixel
    spacing (Tier 2: the width test of Tier 1 fails), a flat profile
    (Tier 3). *)
Lemma estimator_tier_priority_witness :
  Est.method_used
    (EstimatePowerLorentzianParameters [0; 1; 2; 3; 4; 5; 6] [1; 2; 3; 4; 5; 6; 1000] 3 1)
    = 1%Z /\
  Est.method_used (EstimatePowerLorentzianParameters [0; 1; 2; 3; 4] [1; 2; 3; 4; 5] 3 0)
    = 2%Z /\
  Est.method_used (EstimatePowerLorentzianParameters [0; 1; 2; 3; 4] [2; 2; 2; 2; 2] 3 1)
    = 3%Z.
Proof.
  split; [ | split].
  - refine (proj1 (proj1 (proj2
      (estimator_tier_priority [0; 1; 2; 3; 4; 5; 6] [1; 2; 3; 4; 5; 6; 1000] 3 1
         eq_refl _)) _)).
    + cbn; lia.
    + vm_compute; reflexivity.
  - refine (proj1 (proj1 (proj2 (proj2
      (estimator_tier_priority [0; 1; 2; 3; 4] [1; 2; 3; 4; 5] 3 0 eq_refl _))) _ _)).
    + cbn; lia.
    + vm_compute; reflexivity.
    + vm_compute; reflexivity.
  - refine (proj1 (proj2 (proj2 (proj2
      (estimator_tier_priority [0; 1; 2; 3; 4] [2; 2; 2; 2; 2] 3 1 eq_refl _))) _ _)).
    + cbn; lia.
    + vm_compute; reflexivity.
    + vm_compute; reflexivity.
Defined.

(** ** The profile-level filter keeps at least five points *)

Lemma threshold_pass_lengths (lower upper : float) (x_vals y_vals : list float) :
  length (snd (threshold_pass lower upper x_vals y_vals))
  = length (fst (threshold_pass lower upper x_vals y_vals)).
Proof.
  revert y_vals.
  induction x_vals as [ | x xs IH]; intros [ | y ys]; cbn [threshold_pass]; try reflexivity.
  specialize (IH ys). destruct (threshold_pass lower upper xs ys) as [fx fy].
  destruct ((y >=? lower) && (y <=? upper)); cbn [fst snd length] in *; congruence.
Qed.

(** The points the filter settles on before its final size test
    (lines 335-367): the first pass, or the pass with the threshold 4.0 when
    the first keeps fewer than [size / 2] points. *)
Definition filter_selection (x_vals y_vals : list float) (sigma_threshold : float)
  : list float * list float :=
  let stats := CalculateRobustStatisticsPowerLorentzian x_vals y_vals in
  let first := threshold_pass (median stats - sigma_threshold * mad stats)
                              (median stats + sigma_threshold * mad stats) x_vals y_vals in
  if (length (fst first) <? length x_vals / 2)%nat
  then threshold_pass (median stats - 4 * mad stats) (median stats + 4 * mad stats)
                      x_vals y_vals
  else first.

Lemma filter_unfold (x_vals y_vals : list float) (k : float) (verbose : bool) :
  length x_vals = length y_vals -> 5 <= length x_vals ->
  fst (FilterPowerLorentzianOutliers x_vals y_vals k verbose)
  = if (length (fst (filter_selection x_vals y_vals k)) <? 5)%nat
    then (x_vals, y_vals) else filter_selection x_vals y_vals k.
Proof.
  intros E L. unfold FilterPowerLorentzianOutliers, filter_selection.
  rewrite (size_guard_passes _ _ E L).
  assert (x_vals <> []) as N by (destruct x_vals; [cbn in L; lia | discriminate]).
  rewrite (stats_valid _ _ E N). cbn [negb]. cbv zeta.
  match goal with |- context [if (?a <? 5)%nat then _ else _] =>
    destruct (a <? 5)%nat end; reflexivity.
Qed.

(** C3.  On a profile with at least 5 points the filter returns at least 5
    points, positions and charges in step: when fewer than 5 would remain
    after the threshold pass (the lenient retry included) it returns the
    original sequences unchanged, otherwise the points that passed. *)
Theorem filter_never_below_minimum (x_vals y_vals : list float)
  (sigma_threshold : float) (verbose : bool) :
  length x_vals = length y_vals -> 5 <= length x_vals ->
  let out := fst (FilterPowerLorentzianOutliers x_vals y_vals sigma_threshold verbose) in
  let remaining := filter_selection x_vals y_vals sigma_threshold in
  5 <= length (fst out) /\
  length (snd out) = length (fst out) /\
  (length (fst remaining) < 5 -> out = (x_vals, y_vals)) /\
  (5 <= length (fst remaining) -> out = remaining).
Proof.
  intros E L. cbv zeta. rewrite (filter_unfold _ _ _ _ E L).
  destruct (length (fst (filter_selection x_vals y_vals sigma_threshold)) <? 5)%nat eqn:T.
  - apply Nat.ltb_lt in T. cbn [fst snd].
    repeat split; [exact L | symmetry; exact E | intros; lia].
  - apply Nat.ltb_ge in T.
    repeat split; [exact T | | intros; lia].
    unfold filter_selection.
    match goal with |- context [if ?c then _ else _] => destruct c end;
      apply threshold_pass_lengths.
Qed.

Lemma filter_never_below_minimum_witness :
  fst (FilterPowerLorentzianOutliers [0; 1; 2; 3; 4; 5; 6] [1; 2; 3; 4; 5; 6; 1000] 2.5 false)
  = ([0; 1; 2; 3; 4; 5], [1; 2; 3; 4; 5; 6]) /\
  fst (FilterPowerLorentzianOutliers [0; 1; 2; 3; 4] [-1.7e308; -1.7e308; 0; 1.7e308; 1.7e308]
                                     2.5 false)
  = ([0; 1; 2; 3; 4], [-1.7e308; -1.7e308; 0; 1.7e308; 1.7e308]).
Proof.
  split.
  - rewrite (proj2 (proj2 (proj2
      (filter_never_below_minimum [0; 1; 2; 3; 4; 5; 6] [1; 2; 3; 4; 5; 6; 1000] 2.5 false
         eq_refl ltac:(cbn; lia))))).
    + vm_compute; reflexivity.
    + vm_compute. lia.
  - refine (proj1 (proj2 (proj2
      (filter_never_below_minimum [0; 1; 2; 3; 4] [-1.7e308; -1.7e308; 0; 1.7e308; 1.7e308]
         2.5 false eq_refl _))) _).
    + cbn; lia.
    + vm_compute. lia.
Defined.

(** ** The lenient retry of the filter *)

(** The first pass of the filter, with the caller's threshold
    (lines 335-346). *)
Definition first_pass (x_vals y_vals : list float) (sigma_threshold : float)
  : list float * list float :=
  let stats := CalculateRobustStatisticsPowerLorentzian x_vals y_vals in
  threshold_pass (median stats - sigma_threshold * mad stats)
                 (median stats + sigma_threshold * mad stats) x_vals y_vals.

(** The pass of the retry, with the threshold 4.0 (lines 358-366). *)
Definition extreme_pass (x_vals y_vals : list float) : list float * list float :=
  let stats := CalculateRobustStatisticsPowerLorentzian x_vals y_vals in
  threshold_pass (median stats - 4 * mad stats) (median stats + 4 * mad stats)
                 x_vals y_vals.

(** The number of points the first pass drops. *)
Definition first_pass_removed (x_vals y_vals : list float) (sigma_threshold : float) : Z :=
  (Z.of_nat (length y_vals) - Z.of_nat (length (fst (first_pass x_vals y_vals sigma_threshold))))%Z.




(** The test of line 349 against "more than half removed": a first pass that
    removes more than half of the [n] points keeps fewer than [n / 2], or
    [n] is odd and it keeps exactly [n / 2 = (n - 1) / 2]. *)
Lemma more_than_half_removed (x_vals y_vals : list float) (sigma_threshold : float) :
  length x_vals = length y_vals ->
  let kept := length (fst (first_pass x_vals y_vals sigma_threshold)) in
  (2 * first_pass_removed x_vals y_vals sigma_threshold > Z.of_nat (length x_vals))%Z ->
  (kept < length x_vals / 2)%nat \/
  (Nat.odd (length x_vals) = true /\ kept = (length x_vals / 2)%nat).
Proof.
  intros E. cbv zeta. unfold first_pass_removed. rewrite <- E.
  set (kept := length (fst (first_pass x_vals y_vals sigma_threshold))).
  set (n := length x_vals). intros H.
  pose proof (Nat.div_mod_eq n 2) as D.
  pose proof (Nat.mod_upper_bound n 2 ltac:(lia)) as U.
  destruct (Nat.odd n) eqn:O.
  - destruct (Nat.lt_ge_cases kept (n / 2)) as [Lt | Ge]; [left; exact Lt | right].
    split; [reflexivity | ]. lia.
  - left. rewrite <- Nat.negb_even in O. apply negb_false_iff in O.
    apply Nat.even_spec in O. destruct O as [m M].
    assert (n / 2 = m)%nat as -> by (rewrite M, Nat.mul_comm; apply Nat.div_mul; lia).
    lia.
Qed.

(** At that boundary no retry is taken ([2 < 5 / 2] is false).  In this run
    of five points, three of them removed, the pass with 4.0 selects the
    very points of the first pass, and the data returned are what a retry
    would have returned. *)
Example odd_size_boundary_run :
  let x_vals := [0; 1; 2; 3; 4] in
  let y_vals := [-1.7e308; -1.7e308; 0; 0; 1.7e308] in
  first_pass_removed x_vals y_vals 2.5 = 3%Z /\
  snd (FilterPowerLorentzianOutliers x_vals y_vals 2.5 true) = [FewPointsRemain 2] /\
  first_pass x_vals y_vals 2.5 = extreme_pass x_vals y_vals /\
  fst (FilterPowerLorentzianOutliers x_vals y_vals 2.5 true)
  = (if (length (fst (extreme_pass x_vals y_vals)) <? 5)%nat
     then (x_vals, y_vals) else extreme_pass x_vals y_vals).
Proof.
  cbv zeta. repeat split; vm_compute; reflexivity.
Qed.

(** ** Re-applying the filter *)

(** For fixed thresholds the acceptance test is idempotent. *)
Lemma threshold_pass_idempotent (lower upper : float) (x_vals y_vals : list float) :
  let kept := threshold_pass lower upper x_vals y_vals in
  threshold_pass lower upper (fst kept) (snd kept) = kept.
Proof.
  cbv zeta. revert y_vals.
  induction x_vals as [ | x xs IH]; intros [ | y ys]; cbn [threshold_pass]; try reflexivity.
  specialize (IH ys). destruct (threshold_pass lower upper xs ys) as [fx fy].
  destruct ((y >=? lower) && (y <=? upper)) eqn:T; cbn [fst snd] in *.
  - cbn [threshold_pass]. rewrite IH, T. reflexivity.
  - exact IH.
Qed.

(** C5, as far as it holds.  For fixed thresholds the acceptance test is
    idempotent, and so a second run of the filter with the same threshold
    returns its input unchanged whenever the first run took no lenient retry
    and the median and MAD recomputed from the first run's output are those
    of the original profile. *)
Theorem filter_idempotent_for_fixed_statistics (x_vals y_vals : list float)
  (sigma_threshold : float) (verbose : bool) :
  length x_vals = length y_vals -> 5 <= length x_vals ->
  let stats := CalculateRobustStatisticsPowerLorentzian x_vals y_vals in
  let first := first_pass x_vals y_vals sigma_threshold in
  let out := fst (FilterPowerLorentzianOutliers x_vals y_vals sigma_threshold verbose) in
  let stats' := CalculateRobustStatisticsPowerLorentzian (fst out) (snd out) in
  (length x_vals / 2 <= length (fst first))%nat ->
  median stats' = median stats -> mad stats' = mad stats ->
  fst (FilterPowerLorentzianOutliers (fst out) (snd out) sigma_threshold verbose) = out.
Proof.
  intros E L. cbv zeta. intros H.
  pose proof (filter_unfold _ _ sigma_threshold verbose E L) as U.
  assert (filter_selection x_vals y_vals sigma_threshold
          = first_pass x_vals y_vals sigma_threshold) as S.
  { unfold filter_selection. fold (first_pass x_vals y_vals sigma_threshold).
    apply Nat.ltb_ge in H. rewrite H. reflexivity. }
  rewrite S in U.
  destruct (length (fst (first_pass x_vals y_vals sigma_threshold)) <? 5)%nat eqn:T.
  - (* fewer than five would remain: the output is the input *)
    rewrite U. cbn [fst snd]. intros _ _. exact U.
  - (* the output is the first pass *)
    rewrite U. intros Hm Hd.
    set (first := first_pass x_vals y_vals sigma_threshold) in *.
    apply Nat.ltb_ge in T.
    assert (length (fst first) = length (snd first)) as E'
      by (symmetry; apply threshold_pass_lengths).
    rewrite (filter_unfold _ _ sigma_threshold verbose E' T).
    assert (first_pass (fst first) (snd first) sigma_threshold = first) as I.
    { unfold first_pass at 1. rewrite Hm, Hd. apply threshold_pass_idempotent. }
    assert (filter_selection (fst first) (snd first) sigma_threshold = first) as ->.
    { unfold filter_selection.
      fold (first_pass (fst first) (snd first) sigma_threshold). rewrite I.
      assert ((length (fst first) <? length (fst first) / 2)%nat = false) as ->
        by (apply Nat.ltb_ge, Nat.Div0.div_le_upper_bound; lia).
      reflexivity. }
    apply Nat.ltb_ge in T. rewrite T. reflexivity.
Qed.

(** Two spikes of opposite sign around a ramp: both are removed, and the
    median (4) and MAD (2 x 1.4826) of the seven points left are those of
    the nine. *)
Lemma filter_idempotent_for_fixed_statistics_witness :
  let x_vals := [0; 1; 2; 3; 4; 5; 6; 7; 8] in
  let y_vals := [-1000; 1; 2; 3; 4; 5; 6; 7; 1000] in
  let out := fst (FilterPowerLorentzianOutliers x_vals y_vals 2.5 false) in
  out = ([1; 2; 3; 4; 5; 6; 7], [1; 2; 3; 4; 5; 6; 7]) /\
  fst (FilterPowerLorentzianOutliers (fst out) (snd out) 2.5 false) = out.
Proof.
  cbv zeta. split.
  - vm_compute. reflexivity.
  - apply (filter_idempotent_for_fixed_statistics
             [0; 1; 2; 3; 4; 5; 6; 7; 8] [-1000; 1; 2; 3; 4; 5; 6; 7; 1000] 2.5 false).
    + reflexivity.
    + cbn; lia.
    + vm_compute. lia.
    + vm_compute. reflexivity.
    + vm_compute. reflexivity.
Defined.

(** C5 fails for the filter as a whole, which recomputes median and MAD from
    whatever it is given: on the powers of two 1 .. 256 a first run keeps
    1 .. 64 and a second run, same threshold, removes 64 as well. *)
Lemma filter_idempotence_counterexample :
  let x_vals := [0; 1; 2; 3; 4; 5; 6; 7; 8] in
  let y_vals := [1; 2; 4; 8; 16; 32; 64; 128; 256] in
  let out := fst (FilterPowerLorentzianOutliers x_vals y_vals 2.5 false) in
  out = ([0; 1; 2; 3; 4; 5; 6], [1; 2; 4; 8; 16; 32; 64]) /\
  fst (FilterPowerLorentzianOutliers (fst out) (snd out) 2.5 false)
  = ([0; 1; 2; 3; 4; 5], [1; 2; 4; 8; 16; 32]) /\
  fst (FilterPowerLorentzianOutliers (fst out) (snd out) 2.5 false) <> out.
Proof.
  cbv zeta.
  assert (fst (FilterPowerLorentzianOutliers
                 [0; 1; 2; 3; 4; 5; 6; 7; 8] [1; 2; 4; 8; 16; 32; 64; 128; 256] 2.5 false)
          = ([0; 1; 2; 3; 4; 5; 6], [1; 2; 4; 8; 16; 32; 64])) as -> by (vm_compute; reflexivity).
  cbn [fst snd].
  assert (fst (FilterPowerLorentzianOutliers
                 [0; 1; 2; 3; 4; 5; 6] [1; 2; 4; 8; 16; 32; 64] 2.5 false)
          = ([0; 1; 2; 3; 4; 5], [1; 2; 4; 8; 16; 32])) as -> by (vm_compute; reflexivity).
  repeat split. intros F.
  apply (f_equal (fun p => length (fst p))) in F. discriminate F.
Qed.

(** ** The 2-D outlier remover *)

(** The samples as triples (x, y, charge). *)
Definition triples (x_coords y_coords charge_values : list float)
  : list (float * (float * float)) :=
  combine x_coords (combine y_coords charge_values).

(** The remover's test on one sample: [|charge - median| > k * MAD]. *)
Definition is_outlier_sample (median_ k mad_ : float) (t : float * (float * float)) : bool :=
  abs (snd (snd t) - median_) >? k * mad_.

Lemma count_flags_length (x_coords y_coords charge_values : list float) (m thr : float) :
  length x_coords = length y_coords -> length x_coords = length charge_values ->
  count_flags (outlier_flags charge_values m thr)
  = length (filter (fun t => abs (snd (snd t) - m) >? thr)
                   (triples x_coords y_coords charge_values)).
Proof.
  unfold count_flags, outlier_flags, triples.
  revert y_coords charge_values.
  induction x_coords as [ | x xs IH]; intros [ | y ys] [ | c cs]; cbn [length];
    try discriminate; try reflexivity.
  intros E1 E2. injection E1 as E1. injection E2 as E2.
  cbn [map filter combine snd]. specialize (IH ys cs E1 E2).
  destruct (abs (c - m) >? thr); cbn [length]; rewrite IH; reflexivity.
Qed.

Lemma keep_unflagged_spec (x_coords y_coords charge_values : list float) (m thr : float) :
  length x_coords = length y_coords -> length x_coords = length charge_values ->
  let kept := filter (fun t => negb (abs (snd (snd t) - m) >? thr))
                     (triples x_coords y_coords charge_values) in
  keep_unflagged (outlier_flags charge_values m thr) x_coords y_coords charge_values
  = (map fst kept, map (fun t => fst (snd t)) kept, map (fun t => snd (snd t)) kept).
Proof.
  unfold outlier_flags, triples. cbv zeta.
  revert y_coords charge_values.
  induction x_coords as [ | x xs IH]; intros [ | y ys] [ | c cs]; cbn [length];
    try discriminate; try reflexivity.
  intros E1 E2. injection E1 as E1. injection E2 as E2.
  cbn [map filter combine snd keep_unflagged]. rewrite (IH ys cs E1 E2).
  destruct (abs (c - m) >? thr); reflexivity.
Qed.

Lemma filter_split_length {A} (f : A -> bool) (l : list A) :
  (length (filter f l) + length (filter (fun a => negb (f a)) l))%nat = length l.
Proof.
  induction l as [ | a r IH]; cbn; [reflexivity | ].
  destruct (f a); cbn; lia.
Qed.

(** C9.  On [n >= 5] samples with removal enabled the statistics are valid,
    a sample is flagged exactly when [|charge - median| > k * MAD], and: when
    more than [n - 5] samples are flagged the original triples come back
    with [outliers_removed = 0] and [filtering_applied = false]; otherwise
    exactly the unflagged triples, in order, with [outliers_removed] the
    number flagged and [filtering_applied = true]. *)
Theorem remover_threshold_rule (x_coords y_coords charge_values : list float)
  (sigma_threshold : float) (verbose : bool) :
  length x_coords = length y_coords -> length x_coords = length charge_values ->
  5 <= length charge_values ->
  let stats := CalculateRobustStatisticsPowerLorentzian x_coords charge_values in
  let flagged := is_outlier_sample (median stats) sigma_threshold (mad stats) in
  let samples := triples x_coords y_coords charge_values in
  let outliers := filter flagged samples in
  let kept := filter (fun t => negb (flagged t)) samples in
  let result := RemovePowerLorentzianOutliers x_coords y_coords charge_values
                                              true sigma_threshold verbose in
  valid stats = true /\
  (length outliers > length charge_values - 5 ->
     result = mkRemoval x_coords y_coords charge_values 0 false true) /\
  (length outliers <= length charge_values - 5 ->
     result = mkRemoval (map fst kept) (map (fun t => fst (snd t)) kept)
                        (map (fun t => snd (snd t)) kept)
                        (Z.of_nat (length outliers)) true true /\
     length kept = (length charge_values - length outliers)%nat /\
     5 <= length kept).
Proof.
  intros E1 E2 L. cbv zeta.
  assert (x_coords <> []) as N
    by (destruct x_coords; [rewrite <- E2 in L; cbn in L; lia | discriminate]).
  pose proof (stats_valid _ _ E2 N) as V.
  pose proof (filter_split_length
                (is_outlier_sample
                   (median (CalculateRobustStatisticsPowerLorentzian x_coords charge_values))
                   sigma_threshold
                   (mad (CalculateRobustStatisticsPowerLorentzian x_coords charge_values)))
                (triples x_coords y_coords charge_values)) as P.
  assert (length (triples x_coords y_coords charge_values) = length charge_values) as T.
  { unfold triples. rewrite !length_combine. lia. }
  rewrite T in P.
  unfold RemovePowerLorentzianOutliers.
  assert ((length x_coords =? length y_coords)%nat = true) as ->
    by (apply Nat.eqb_eq; exact E1).
  assert ((length x_coords =? length charge_values)%nat = true) as ->
    by (apply Nat.eqb_eq; exact E2).
  cbn [negb orb].
  assert ((length charge_values <? 5)%nat = false) as -> by (apply Nat.ltb_ge; exact L).
  rewrite V. cbn [negb]. cbv zeta.
  rewrite (count_flags_length x_coords y_coords charge_values _ _ E1 E2).
  rewrite (keep_unflagged_spec x_coords y_coords charge_values _ _ E1 E2). cbv zeta.
  unfold is_outlier_sample in *.
  split; [reflexivity | split].
  - intros G.
    match goal with |- context [(?a <? 5)%nat] =>
      assert ((a <? 5)%nat = true) as -> by (apply Nat.ltb_lt; lia) end.
    reflexivity.
  - intros G.
    match goal with |- context [(?a <? 5)%nat] =>
      assert ((a <? 5)%nat = false) as -> by (apply Nat.ltb_ge; lia) end.
    repeat split; lia.
Qed.

(** One spike among seven samples is flagged and removed; with five samples
    nothing may be removed, so a flagged spike stays. *)
Lemma remover_threshold_rule_witness :
  RemovePowerLorentzianOutliers [0; 1; 2; 3; 4; 5; 6] [9; 9; 9; 9; 9; 9; 9]
                                [1; 2; 3; 4; 5; 6; 1000] true 2.5 false
  = mkRemoval [0; 1; 2; 3; 4; 5] [9; 9; 9; 9; 9; 9] [1; 2; 3; 4; 5; 6] 1 true true /\
  RemovePowerLorentzianOutliers [0; 1; 2; 3; 4] [9; 9; 9; 9; 9]
                                [1; 2; 3; 4; 1000] true 2.5 false
  = mkRemoval [0; 1; 2; 3; 4] [9; 9; 9; 9; 9] [1; 2; 3; 4; 1000] 0 false true.
Proof.
  split.
  - rewrite (proj1 (proj2 (proj2
      (remover_threshold_rule [0; 1; 2; 3; 4; 5; 6] [9; 9; 9; 9; 9; 9; 9]
         [1; 2; 3; 4; 5; 6; 1000] 2.5 false eq_refl eq_refl ltac:(cbn; lia)))
      ltac:(vm_compute; lia))).
    vm_compute. reflexivity.
  - apply (proj1 (proj2
      (remover_threshold_rule [0; 1; 2; 3; 4] [9; 9; 9; 9; 9]
         [1; 2; 3; 4; 1000] 2.5 false eq_refl eq_refl ltac:(cbn; lia)))).
    vm_compute. lia.
Defined.

(** ** The 1-D fit and the coordinators, for any solver *)

Section FitProperties.

Variable ENABLE_VERTICAL_CHARGE_UNCERTAINTIES : bool.
Variable MIN_UNCERTAINTY_VALUE : float.
Variable Solve : SolverOptions -> Problem -> list float -> Summary * list float.
Variable Covariance : CovarianceOptions -> Problem -> list float -> option (list float).

(** C8.  With mismatched lengths or fewer than 5 points the 1-D fit returns
    false and leaves every one of its eleven output variables as it found
    it. *)
Theorem fit_rejects_short_or_mismatched (x_vals y_vals : list float)
  (center_estimate pixel_spacing : float) (o : FitOutputs)
  (verbose enable_outlier_filtering : bool) :
  length x_vals <> length y_vals \/ length x_vals < 5 ->
  FitPowerLorentzianCeres ENABLE_VERTICAL_CHARGE_UNCERTAINTIES MIN_UNCERTAINTY_VALUE
    Solve Covariance x_vals y_vals center_estimate pixel_spacing o
    verbose enable_outlier_filtering
  = (false, o).
Proof.
  intros H. unfold FitPowerLorentzianCeres.
  rewrite (size_guard_fails _ _ H). reflexivity.
Qed.

(** *** The loss fields of a configuration *)

(** A configuration with its two loss fields replaced. *)
Definition with_loss (kind : string) (scale : float) (c : PowerLorentzianFittingConfig)
  : PowerLorentzianFittingConfig :=
  mkConfig (linear_solver c) (trust_region c) (function_tolerance c)
           (gradient_tolerance c) (max_iterations c) kind scale.

Lemma add_residual_blocks_spec (clean_x clean_y : list float) (u : float) (p : Problem) :
  residual_blocks (add_residual_blocks clean_x clean_y u p)
  = residual_blocks p ++
    map (fun xy => mkBlock (mkCost (fst xy) (snd xy) u) None) (combine clean_x clean_y).
Proof.
  unfold add_residual_blocks. revert p.
  induction (combine clean_x clean_y) as [ | xy r IH]; intros p; cbn [fold_left map].
  - rewrite app_nil_r. reflexivity.
  - rewrite IH. cbn [Pb.AddResidualBlock residual_blocks]. rewrite <- app_assoc. reflexivity.
Qed.

Lemma SetBounds_blocks (i : nat) (lo hi : float) (p : Problem) :
  residual_blocks (Pb.SetBounds i lo hi p) = residual_blocks p.
Proof. reflexivity. Qed.

Lemma two_stage_solve_blocks (options : SolverOptions) (problem : Problem)
  (parameters : list float) (pixel_spacing : float) :
  residual_blocks (snd (two_stage_solve Solve options problem parameters pixel_spacing))
  = residual_blocks problem.
Proof.
  unfold two_stage_solve.
  destruct (Solve options problem parameters) as [s1 p1].
  destruct (stage1_ok s1 p1).
  - destruct (Solve options _ p1). reflexivity.
  - destruct (Solve options _ p1). reflexivity.
Qed.

(** C10.  Whatever the loss kind and scale a configuration names, the
    solver is given the same options, the same problem and the same starting
    point, so each attempt and the whole configuration loop of a dataset
    come out the same; and every residual block of the problem, in both
    stages, carries the null loss. *)
Theorem loss_fields_are_ignored (clean_x clean_y : list float)
  (estimates : Est.PowerLorentzianParameterEstimates)
  (uncertainty pixel_spacing : float) (o : FitOutputs)
  (relabel : PowerLorentzianFittingConfig -> string * float) :
  let attempt :=
    fit_with_config MIN_UNCERTAINTY_VALUE Solve Covariance
                    clean_x clean_y estimates uncertainty pixel_spacing o in
  let loop :=
    try_configs MIN_UNCERTAINTY_VALUE Solve Covariance
                clean_x clean_y estimates uncertainty pixel_spacing o in
  let relabelled c := with_loss (fst (relabel c)) (snd (relabel c)) c in
  let problem :=
    stage1_problem MIN_UNCERTAINTY_VALUE clean_x clean_y estimates uncertainty pixel_spacing in
  (forall c, options_of (relabelled c) = options_of c) /\
  (forall c, attempt (relabelled c) = attempt c) /\
  loop (map relabelled (configs estimates)) = loop (configs estimates) /\
  Forall (fun b => loss b = None) (residual_blocks problem) /\
  (forall c, Forall (fun b => loss b = None)
               (residual_blocks
                  (snd (two_stage_solve Solve (options_of c) problem
                          (initial_parameters estimates) pixel_spacing)))).
Proof.
  cbv zeta.
  assert (forall c, fit_with_config MIN_UNCERTAINTY_VALUE Solve Covariance clean_x clean_y
                      estimates uncertainty pixel_spacing o
                      (with_loss (fst (relabel c)) (snd (relabel c)) c)
                    = fit_with_config MIN_UNCERTAINTY_VALUE Solve Covariance clean_x clean_y
                        estimates uncertainty pixel_spacing o c) as A
    by (intros c; reflexivity).
  assert (Forall (fun b => loss b = None)
            (residual_blocks
               (stage1_problem MIN_UNCERTAINTY_VALUE clean_x clean_y estimates
                  uncertainty pixel_spacing))) as B.
  { unfold stage1_problem. cbv zeta. rewrite !SetBounds_blocks, add_residual_blocks_spec.
    cbn [residual_blocks Pb.empty app].
    apply Forall_forall. intros b I. apply in_map_iff in I as (xy & <- & _). reflexivity. }
  split; [intros c; reflexivity | ].
  split; [exact A | ].
  split; [ | split; [exact B | intros c; rewrite two_stage_solve_blocks; exact B]].
  induction (configs estimates) as [ | c r IH]; cbn [map try_configs]; [reflexivity | ].
  rewrite A, IH. reflexivity.
Qed.

End FitProperties.

(** ** Signs through rounding: the reduced chi-square is not negative *)

Module FloatSign.

(** The numbers [0 <= x] holds of: zeros, positive finite numbers and
    [+infinity]. *)
Definition sf_nonneg (x : spec_float) : bool :=
  match x with
  | S754_zero _ => true
  | S754_infinity s | S754_finite s _ _ => negb s
  | S754_nan => false
  end.

Lemma leb_zero_spec x : (0 <=? x) = sf_nonneg (Prim2SF x).
Proof.
  rewrite FloatAxioms.leb_spec. change (Prim2SF 0) with (S754_zero false).
  unfold SFleb. destruct (Prim2SF x) as [s|s| |s m e]; cbn; try reflexivity; destruct s; reflexivity.
Qed.

Lemma iter_pos_invariant {A} (P : A -> Prop) (f : A -> A) :
  (forall a, P a -> P (f a)) -> forall p a, P a -> P (SpecFloat.iter_pos f p a).
Proof.
  intros Hf. induction p as [p IH | p IH | ]; intros a Ha; cbn; auto.
Qed.

Lemma shr_1_nonneg mrs : (0 <= shr_m mrs)%Z -> (0 <= shr_m (shr_1 mrs))%Z.
Proof.
  destruct mrs as [m r s]. cbn [shr_m]. intros H.
  destruct m as [ | p | p]; [cbn; lia | | lia].
  destruct p; cbn; lia.
Qed.

Lemma shr_nonneg mrs e n : (0 <= shr_m mrs)%Z -> (0 <= shr_m (fst (shr mrs e n)))%Z.
Proof.
  intros H. unfold shr. destruct n; cbn [fst]; try exact H.
  apply (iter_pos_invariant (fun a => (0 <= shr_m a)%Z)); [apply shr_1_nonneg | exact H].
Qed.

Lemma shr_fexp_nonneg prec emax m e l :
  (0 <= m)%Z -> (0 <= shr_m (fst (shr_fexp prec emax m e l)))%Z.
Proof.
  intros H. unfold shr_fexp. apply shr_nonneg.
  destruct l as [ | [ | | ]]; exact H.
Qed.

Lemma round_nearest_even_nonneg m l : (0 <= m)%Z -> (0 <= round_nearest_even m l)%Z.
Proof.
  intros H. unfold round_nearest_even.
  destruct l as [ | [ | | ]]; try lia. destruct (Z.even m); lia.
Qed.

Lemma binary_round_aux_nonneg prec emax m e l :
  (0 <= m)%Z -> sf_nonneg (binary_round_aux prec emax false m e l) = true.
Proof.
  intros H. unfold binary_round_aux.
  pose proof (shr_fexp_nonneg prec emax m e l H) as H1.
  destruct (shr_fexp prec emax m e l) as [mrs' e']. cbn [fst] in H1.
  pose proof (shr_fexp_nonneg prec emax _ e' loc_Exact
                (round_nearest_even_nonneg _ (loc_of_shr_record mrs') H1)) as H2.
  destruct (shr_fexp prec emax _ e' loc_Exact) as [mrs'' e'']. cbn [fst] in H2.
  destruct (shr_m mrs'') as [ | p | p]; [reflexivity | | lia].
  destruct (e'' <=? emax - prec)%Z; reflexivity.
Qed.

(** Doubling keeps a number non-negative. *)
Lemma mul_two_nonneg (c : float) : (0 <=? c) = true -> (0 <=? c * 2) = true.
Proof.
  rewrite !leb_zero_spec, FloatAxioms.mul_spec.
  change (Prim2SF 2) with (S754_finite false 4503599627370496 (-51)).
  destruct (Prim2SF c) as [s | s | | s m e]; cbn [sf_nonneg];
    try discriminate; try reflexivity.
  - destruct s; [discriminate | reflexivity].
  - destruct s; [discriminate | ]. intros _.
    unfold SF64mul, SFmul. cbn [xorb]. apply binary_round_aux_nonneg. lia.
Qed.

Lemma div_eucl_nonneg (a : Z) (b : positive) :
  (0 <= a)%Z -> (0 <= fst (Z.div_eucl a (Z.pos b)))%Z.
Proof.
  intros H. change (fst (Z.div_eucl a (Z.pos b))) with (a / Z.pos b)%Z.
  apply Z.div_pos; lia.
Qed.

(** A non-negative number over a positive finite one is non-negative. *)
Lemma div_nonneg (a b : float) (m : positive) (e : Z) :
  (0 <=? a) = true -> Prim2SF b = S754_finite false m e -> (0 <=? a / b) = true.
Proof.
  rewrite !leb_zero_spec, FloatAxioms.div_spec. intros Ha ->.
  destruct (Prim2SF a) as [s | s | | s ma ea]; cbn [sf_nonneg] in *;
    try discriminate; try reflexivity.
  - destruct s; [discriminate | reflexivity].
  - destruct s; [discriminate | ].
    unfold SF64div, SFdiv. cbn [xorb].
    destruct (SFdiv_core_binary prec emax (Z.pos ma) ea (Z.pos m) e) as [[mz ez] lz] eqn:D.
    apply binary_round_aux_nonneg.
    unfold SFdiv_core_binary in D.
    match type of D with
      context [Z.div_eucl ?a ?b] =>
        pose proof (div_eucl_nonneg a m) as Q; destruct (Z.div_eucl a b) as [q r]
    end.
    injection D as <- _ _. cbn [fst] in Q. apply Q.
    match goal with |- (0 <= match ?s with _ => _ end)%Z => destruct s end;
      [lia | | lia].
    rewrite Z.shiftl_mul_pow2 by lia. apply Z.mul_nonneg_nonneg; [lia | apply Z.pow_nonneg; lia].
Qed.

Lemma digits2_pos_iter_xO (p d : positive) :
  digits2_pos (Pos.iter xO p d) = (digits2_pos p + d)%positive.
Proof.
  induction d as [ | d IH] using Pos.peano_ind.
  - cbn. lia.
  - rewrite Pos.iter_succ. cbn [digits2_pos]. rewrite IH. lia.
Qed.

Lemma digits2_pos_bound (p : positive) (k : Z) :
  (0 <= k)%Z -> (Z.pos p < 2 ^ k)%Z -> (Z.pos (digits2_pos p) <= k)%Z.
Proof.
  revert k. induction p as [p IH | p IH | ]; intros k Hk H; cbn [digits2_pos].
  - assert (1 <= k)%Z by (destruct (Z.eq_dec k 0) as [-> | ]; [cbn in H; lia | lia]).
    replace k with (Z.succ (k - 1)) in H by lia. rewrite Z.pow_succ_r in H by lia.
    specialize (IH (k - 1)%Z). lia.
  - assert (1 <= k)%Z by (destruct (Z.eq_dec k 0) as [-> | ]; [cbn in H; lia | lia]).
    replace k with (Z.succ (k - 1)) in H by lia. rewrite Z.pow_succ_r in H by lia.
    specialize (IH (k - 1)%Z). lia.
  - destruct (Z.eq_dec k 0) as [-> | ]; [cbn in H; lia | lia].
Qed.

(** An integer in [1, 2^53) converts exactly: a positive finite double. *)
Lemma binary_normalize_small (p : positive) :
  (Z.pos p < 2 ^ 53)%Z ->
  exists m e, binary_normalize prec emax (Z.pos p) 0 false = S754_finite false m e.
Proof.
  intros H. pose proof (digits2_pos_bound p 53 ltac:(lia) H) as D.
  unfold binary_normalize, binary_round.
  set (dg := digits2_pos p) in *.
  assert (fexp prec emax (Z.pos dg + 0) = (Z.pos dg - 53)%Z) as F.
  { unfold fexp, emin, prec, emax. lia. }
  rewrite F. unfold shl_align.
  destruct (Z.pos dg - 53 - 0)%Z as [ | d | d] eqn:S; [ | lia | ].
  - (* 53 digits already *)
    exists p, 0%Z. unfold binary_round_aux, shr_fexp.
    cbn [Zdigits2 shr_record_of_loc]. fold dg.
    assert ((fexp prec emax (Z.pos dg + 0) - 0)%Z = 0%Z) as -> by (rewrite F; lia).
    cbn [shr round_nearest_even shr_m loc_of_shr_record Zdigits2]. fold dg.
    assert ((fexp prec emax (Z.pos dg + 0) - 0)%Z = 0%Z) as -> by (rewrite F; lia).
    cbn [shr shr_m]. reflexivity.
  - exists (Pos.iter xO p d), (Z.pos dg - 53)%Z.
    assert (Z.pos (digits2_pos (Pos.iter xO p d)) = 53%Z) as G
      by (rewrite digits2_pos_iter_xO; fold dg; lia).
    unfold binary_round_aux, shr_fexp.
    cbn [Zdigits2 shr_record_of_loc]. rewrite G.
    assert ((fexp prec emax (53 + (Z.pos dg - 53)) - (Z.pos dg - 53))%Z = 0%Z) as ->
      by (unfold fexp, emin, prec, emax; lia).
    cbn [shr round_nearest_even shr_m loc_of_shr_record Zdigits2]. rewrite G.
    assert ((fexp prec emax (53 + (Z.pos dg - 53)) - (Z.pos dg - 53))%Z = 0%Z) as ->
      by (unfold fexp, emin, prec, emax; lia).
    cbn [shr shr_m].
    assert ((Z.pos dg - 53 <=? emax - prec)%Z = true) as ->
      by (apply Z.leb_le; unfold emax, prec; lia).
    reflexivity.
Qed.

Lemma of_int_positive (d : Z) :
  (1 <= d < 2 ^ 53)%Z ->
  exists m e, Prim2SF (Dbl.of_int d) = S754_finite false m e.
Proof.
  intros H. unfold Dbl.of_int.
  assert ((d <? 0)%Z = false) as -> by (apply Z.ltb_ge; lia).
  rewrite FloatAxioms.of_uint63_spec, Uint63.of_Z_spec.
  rewrite Z.mod_small by (change Uint63.wB with (2 ^ 63)%Z; lia).
  destruct d as [ | p | p]; try lia.
  apply binary_normalize_small. lia.
Qed.

End FloatSign.

(** ** The aggregate success flags *)

Section CoordinatorProperties.

Variable ENABLE_VERTICAL_CHARGE_UNCERTAINTIES : bool.
Variable MIN_UNCERTAINTY_VALUE : float.
Variable Solve : SolverOptions -> Problem -> list float -> Summary * list float.
Variable Covariance : CovarianceOptions -> Problem -> list float -> option (list float).

(** The 1-D fit as both coordinators call it: on a result struct that is
    still default-constructed. *)
Definition sub_fit (x_vals y_vals : list float) (center_estimate pixel_spacing : float)
  (verbose enable_outlier_filtering : bool) : bool * FitOutputs :=
  FitPowerLorentzianCeres ENABLE_VERTICAL_CHARGE_UNCERTAINTIES MIN_UNCERTAINTY_VALUE
    Solve Covariance x_vals y_vals center_estimate pixel_spacing FitOutputs_default
    verbose enable_outlier_filtering.

(** An axis fit succeeds: a row (column) was selected and the 1-D fit on it
    returned true. *)
Definition line_fit_succeeds (line : option (list (float * float)))
  (center_estimate pixel_spacing : float) (verbose enable_outlier_filtering : bool) : Prop :=
  exists data, line = Some data /\
    fst (sub_fit (map fst data) (map snd data) center_estimate pixel_spacing
                 verbose enable_outlier_filtering) = true.

(** A diagonal sub-fit succeeds: the diagonal has at least five points and
    the 1-D fit on them, sorted, returned true. *)
Definition diagonal_fit_succeeds (data : list (float * float))
  (pixel_spacing : float) (verbose enable_outlier_filtering : bool) : Prop :=
  5 <= length data /\
  fst (sub_fit (map fst (Vec.sort Grp.pair_ltb data)) (map snd (Vec.sort Grp.pair_ltb data))
               0 (pixel_spacing * 1.41421356237) verbose enable_outlier_filtering) = true.

Lemma fit_axis_success (line : option (list (float * float)))
  (center_estimate pixel_spacing : float) (a : AxisFit)
  (verbose enable_outlier_filtering : bool) :
  axis_out a = FitOutputs_default ->
  fst (fit_axis ENABLE_VERTICAL_CHARGE_UNCERTAINTIES MIN_UNCERTAINTY_VALUE Solve Covariance
         line center_estimate pixel_spacing a verbose enable_outlier_filtering) = true
  <-> line_fit_succeeds line center_estimate pixel_spacing verbose enable_outlier_filtering.
Proof.
  intros D. unfold fit_axis, line_fit_succeeds, sub_fit. rewrite D.
  destruct line as [data | ].
  - destruct (FitPowerLorentzianCeres _ _ _ _ (map fst data) _ _ _ _ _ _) as [ok o] eqn:F.
    cbn [fst]. split.
    + intros ->. exists data. rewrite F. split; reflexivity.
    + intros (d & E & H). injection E as <-. rewrite F in H. exact H.
  - cbn [fst]. split; [discriminate | intros (d & E & _); discriminate].
Qed.

Lemma fit_diagonal_success (data : list (float * float)) (pixel_spacing : float)
  (d : DiagFit) (verbose enable_outlier_filtering : bool) :
  diag_out d = FitOutputs_default -> diag_fit_successful d = false ->
  diag_fit_successful
    (fit_diagonal ENABLE_VERTICAL_CHARGE_UNCERTAINTIES MIN_UNCERTAINTY_VALUE Solve Covariance
       data (pixel_spacing * 1.41421356237) d verbose enable_outlier_filtering) = true
  <-> diagonal_fit_succeeds data pixel_spacing verbose enable_outlier_filtering.
Proof.
  intros D N. unfold fit_diagonal, diagonal_fit_succeeds, sub_fit. rewrite D.
  destruct (5 <=? length data)%nat eqn:L.
  - apply Nat.leb_le in L.
    destruct (FitPowerLorentzianCeres _ _ _ _ _ _ _ _ _ _ _) as [ok o].
    cbn [diag_fit_successful fst]. tauto.
  - apply Nat.leb_gt in L. rewrite N. split; [discriminate | intros [G _]; lia].
Qed.

(** The size guards of both coordinators (lines 751-763 and 1067-1079). *)
Lemma coordinator_guard (x_coords y_coords charge_values : list float) :
  (negb (length x_coords =? length y_coords)%nat ||
   negb (length x_coords =? length charge_values)%nat = false /\
   (length x_coords <? 5)%nat = false) <->
  (length x_coords = length y_coords /\ length x_coords = length charge_values /\
   5 <= length x_coords).
Proof.
  rewrite orb_false_iff, !negb_false_iff, !Nat.eqb_eq, Nat.ltb_ge. tauto.
Qed.

(** C7.  The aggregate flag of the 2-D coordinator is true exactly when the
    X fit and the Y fit both ran and succeeded, and that of the diagonal
    coordinator exactly when all four sub-fits did; each is the conjunction
    of its components, so one failed or missing component makes it false. *)
Theorem aggregate_success_is_conjunction (x_coords y_coords charge_values : list float)
  (center_x_estimate center_y_estimate pixel_spacing : float)
  (verbose enable_outlier_filtering : bool) :
  let sizes_ok :=
    length x_coords = length y_coords /\ length x_coords = length charge_values /\
    5 <= length x_coords in
  let lines := selected_lines x_coords y_coords charge_values
                              center_x_estimate center_y_estimate pixel_spacing in
  let diagonals := diagonal_data x_coords y_coords charge_values
                                 center_x_estimate center_y_estimate pixel_spacing
                                 verbose enable_outlier_filtering in
  let result_2d :=
    Fit2DPowerLorentzianCeres ENABLE_VERTICAL_CHARGE_UNCERTAINTIES MIN_UNCERTAINTY_VALUE
      Solve Covariance x_coords y_coords charge_values
      center_x_estimate center_y_estimate pixel_spacing verbose enable_outlier_filtering in
  let result_diag :=
    FitDiagonalPowerLorentzianCeres ENABLE_VERTICAL_CHARGE_UNCERTAINTIES MIN_UNCERTAINTY_VALUE
      Solve Covariance x_coords y_coords charge_values
      center_x_estimate center_y_estimate pixel_spacing verbose enable_outlier_filtering in
  (fit_successful result_2d = true <->
     sizes_ok /\
     line_fit_succeeds (fst lines) center_x_estimate pixel_spacing
                       verbose enable_outlier_filtering /\
     line_fit_succeeds (snd lines) center_y_estimate pixel_spacing
                       verbose enable_outlier_filtering) /\
  (Diag.fit_successful result_diag = true <->
     sizes_ok /\
     diagonal_fit_succeeds (fst diagonals) pixel_spacing verbose enable_outlier_filtering /\
     diagonal_fit_succeeds (fst diagonals) pixel_spacing verbose enable_outlier_filtering /\
     diagonal_fit_succeeds (snd diagonals) pixel_spacing verbose enable_outlier_filtering /\
     diagonal_fit_succeeds (snd diagonals) pixel_spacing verbose enable_outlier_filtering) /\
  Diag.fit_successful result_diag
  = diag_fit_successful (Diag.main_diag_x result_diag) &&
    diag_fit_successful (Diag.main_diag_y result_diag) &&
    diag_fit_successful (Diag.sec_diag_x result_diag) &&
    diag_fit_successful (Diag.sec_diag_y result_diag).
Proof.
  cbv zeta.
  pose proof (coordinator_guard x_coords y_coords charge_values) as G.
  unfold Fit2DPowerLorentzianCeres, FitDiagonalPowerLorentzianCeres.
  destruct (negb (length x_coords =? length y_coords)%nat ||
            negb (length x_coords =? length charge_values)%nat) eqn:G1.
  { (* sizes differ: both results are the default ones *)
    cbn [fit_successful Fit2D_default Diag.fit_successful Diag.default
         Diag.main_diag_x Diag.main_diag_y Diag.sec_diag_x Diag.sec_diag_y
         diag_fit_successful andb].
    repeat split; try discriminate;
      intros [S _]; apply G in S; destruct S; discriminate. }
  destruct (length x_coords <? 5)%nat eqn:G2.
  { cbn [fit_successful Fit2D_default Diag.fit_successful Diag.default
         Diag.main_diag_x Diag.main_diag_y Diag.sec_diag_x Diag.sec_diag_y
         diag_fit_successful andb].
    repeat split; try discriminate;
      intros [S _]; apply G in S; destruct S; discriminate. }
  assert (length x_coords = length y_coords /\ length x_coords = length charge_values /\
          5 <= length x_coords) as S by (apply G; split; reflexivity).
  split; [ | split].
  - destruct (selected_lines _ _ _ _ _ _) as [row col]. cbn [fst snd].
    pose proof (fit_axis_success row center_x_estimate pixel_spacing
                  (x_axis Fit2D_default) verbose enable_outlier_filtering eq_refl) as X.
    pose proof (fit_axis_success col center_y_estimate pixel_spacing
                  (y_axis Fit2D_default) verbose enable_outlier_filtering eq_refl) as Y.
    destruct (fit_axis _ _ _ _ row _ _ _ _ _) as [x_fit_success xa].
    destruct (fit_axis _ _ _ _ col _ _ _ _ _) as [y_fit_success ya].
    cbn [fst fit_successful] in *. rewrite andb_true_iff. tauto.
  - destruct (diagonal_data _ _ _ _ _ _ _ _) as [main_diag sec_diag]. cbn [fst snd].
    pose proof (fit_diagonal_success main_diag pixel_spacing (Diag.main_diag_x Diag.default)
                  verbose enable_outlier_filtering eq_refl eq_refl) as MX.
    pose proof (fit_diagonal_success main_diag pixel_spacing (Diag.main_diag_y Diag.default)
                  verbose enable_outlier_filtering eq_refl eq_refl) as MY.
    pose proof (fit_diagonal_success sec_diag pixel_spacing (Diag.sec_diag_x Diag.default)
                  verbose enable_outlier_filtering eq_refl eq_refl) as SX.
    pose proof (fit_diagonal_success sec_diag pixel_spacing (Diag.sec_diag_y Diag.default)
                  verbose enable_outlier_filtering eq_refl eq_refl) as SY.
    cbn [Diag.fit_successful]. rewrite !andb_true_iff. tauto.
  - destruct (diagonal_data _ _ _ _ _ _ _ _) as [main_diag sec_diag]. reflexivity.
Qed.

End CoordinatorProperties.

(** ** The reduced chi-square of an accepted fit *)

Lemma int_of_size_small (n : nat) :
  (Z.of_nat n < 2 ^ 31)%Z -> int_of_size n = Z.of_nat n.
Proof.
  intros H. unfold int_of_size.
  rewrite Z.mod_small by lia. lia.
Qed.

Lemma dof_of_size_range (n : nat) : (1 <= dof_of_size n < 2 ^ 31)%Z.
Proof.
  unfold dof_of_size, int_of_size.
  pose proof (Z.mod_pos_bound (Z.of_nat n + 2147483648) 4294967296 ltac:(lia)).
  lia.
Qed.

(** A non-negative final cost gives a non-negative reduced chi-square. *)
Lemma reduced_chi2_nonneg (summary : Summary) (n : nat) :
  (0 <=? final_cost summary) = true -> (0 <=? reduced_chi2 summary n) = true.
Proof.
  intros H. unfold reduced_chi2.
  pose proof (dof_of_size_range n) as R.
  destruct (FloatSign.of_int_positive (dof_of_size n) ltac:(lia)) as (m & e & D).
  apply (FloatSign.div_nonneg _ _ m e); [apply FloatSign.mul_two_nonneg; exact H | exact D].
Qed.

Section AcceptedFit.

Variable ENABLE_VERTICAL_CHARGE_UNCERTAINTIES : bool.
Variable MIN_UNCERTAINTY_VALUE : float.
Variable Solve : SolverOptions -> Problem -> list float -> Summary * list float.
Variable Covariance : CovarianceOptions -> Problem -> list float -> option (list float).

(** The summary of the last solve of one configuration on one dataset. *)
Definition final_summary (clean_x clean_y : list float)
  (center_estimate pixel_spacing : float) (config : PowerLorentzianFittingConfig)
  : Summary :=
  let estimates :=
    EstimatePowerLorentzianParameters clean_x clean_y center_estimate pixel_spacing in
  let uncertainty :=
    CalculatePowerLorentzianUncertainty ENABLE_VERTICAL_CHARGE_UNCERTAINTIES
      MIN_UNCERTAINTY_VALUE (Vec.max_element clean_y) in
  fst (fst (two_stage_solve Solve (options_of config)
              (stage1_problem MIN_UNCERTAINTY_VALUE clean_x clean_y estimates
                              uncertainty pixel_spacing)
              (initial_parameters estimates) pixel_spacing)).

(** The parameter array as that solve leaves it. *)
Definition final_parameters (clean_x clean_y : list float)
  (center_estimate pixel_spacing : float) (config : PowerLorentzianFittingConfig)
  : list float :=
  let estimates :=
    EstimatePowerLorentzianParameters clean_x clean_y center_estimate pixel_spacing in
  let uncertainty :=
    CalculatePowerLorentzianUncertainty ENABLE_VERTICAL_CHARGE_UNCERTAINTIES
      MIN_UNCERTAINTY_VALUE (Vec.max_element clean_y) in
  snd (fst (two_stage_solve Solve (options_of config)
              (stage1_problem MIN_UNCERTAINTY_VALUE clean_x clean_y estimates
                              uncertainty pixel_spacing)
              (initial_parameters estimates) pixel_spacing)).

Lemma set_chi2_spec (o : FitOutputs) (c : float) : chi2_reduced (set_chi2 o c) = c.
Proof. reflexivity. Qed.

Lemma fit_with_config_chi2 (clean_x clean_y : list float)
  (estimates : Est.PowerLorentzianParameterEstimates)
  (uncertainty pixel_spacing : float) (o o' : FitOutputs)
  (config : PowerLorentzianFittingConfig) :
  fit_with_config MIN_UNCERTAINTY_VALUE Solve Covariance clean_x clean_y estimates
                  uncertainty pixel_spacing o config = Some o' ->
  chi2_reduced o'
  = reduced_chi2
      (fst (fst (two_stage_solve Solve (options_of config)
                   (stage1_problem MIN_UNCERTAINTY_VALUE clean_x clean_y estimates
                                   uncertainty pixel_spacing)
                   (initial_parameters estimates) pixel_spacing)))
      (length clean_x).
Proof.
  unfold fit_with_config.
  destruct (two_stage_solve _ _ _ _ _) as [[summary parameters] problem]. cbn [fst].
  destruct (fit_ok summary parameters); [ | discriminate].
  destruct (covariance_errors _ _ _ _ _ _) as [o1 cov_success].
  intros H. injection H as <-. apply set_chi2_spec.
Qed.

(** An attempt is accepted only on a solve that passes the test of
    lines 634-640. *)
Lemma fit_with_config_ok (clean_x clean_y : list float)
  (estimates : Est.PowerLorentzianParameterEstimates)
  (uncertainty pixel_spacing : float) (o o' : FitOutputs)
  (config : PowerLorentzianFittingConfig) :
  fit_with_config MIN_UNCERTAINTY_VALUE Solve Covariance clean_x clean_y estimates
                  uncertainty pixel_spacing o config = Some o' ->
  let solved :=
    fst (two_stage_solve Solve (options_of config)
           (stage1_problem MIN_UNCERTAINTY_VALUE clean_x clean_y estimates
                           uncertainty pixel_spacing)
           (initial_parameters estimates) pixel_spacing) in
  fit_ok (fst solved) (snd solved) = true.
Proof.
  unfold fit_with_config.
  destruct (two_stage_solve _ _ _ _ _) as [[summary parameters] problem]. cbn [fst snd].
  destruct (fit_ok summary parameters); [reflexivity | discriminate].
Qed.

Lemma try_configs_some (clean_x clean_y : list float)
  (estimates : Est.PowerLorentzianParameterEstimates)
  (uncertainty pixel_spacing : float) (o o' : FitOutputs)
  (cs : list PowerLorentzianFittingConfig) :
  try_configs MIN_UNCERTAINTY_VALUE Solve Covariance clean_x clean_y estimates
              uncertainty pixel_spacing o cs = Some o' ->
  exists config, In config cs /\
    fit_with_config MIN_UNCERTAINTY_VALUE Solve Covariance clean_x clean_y estimates
                    uncertainty pixel_spacing o config = Some o'.
Proof.
  induction cs as [ | c r IH]; cbn [try_configs]; [discriminate | ].
  destruct (fit_with_config _ _ _ _ _ _ _ _ _ c) as [o1 | ] eqn:F.
  - intros H. injection H as <-. exists c. split; [left; reflexivity | exact F].
  - intros H. destruct (IH H) as (c' & I & F'). exists c'. split; [right; exact I | exact F'].
Qed.

Lemma try_datasets_some (center_estimate pixel_spacing : float) (o o' : FitOutputs)
  (datasets : list (list float * list float)) :
  try_datasets ENABLE_VERTICAL_CHARGE_UNCERTAINTIES MIN_UNCERTAINTY_VALUE Solve Covariance
               center_estimate pixel_spacing o datasets = Some o' ->
  exists dataset, In dataset datasets /\
    fit_dataset ENABLE_VERTICAL_CHARGE_UNCERTAINTIES MIN_UNCERTAINTY_VALUE Solve Covariance
                center_estimate pixel_spacing o dataset = Some o'.
Proof.
  induction datasets as [ | d r IH]; cbn [try_datasets]; [discriminate | ].
  destruct (fit_dataset _ _ _ _ _ _ _ d) as [o1 | ] eqn:F.
  - intros H. injection H as <-. exists d. split; [left; reflexivity | exact F].
  - intros H. destruct (IH H) as (d' & I & F'). exists d'. split; [right; exact I | exact F'].
Qed.

(** The chi-square part of C6, for any solver.  A successful 1-D fit was
    accepted on one of the candidate datasets, of [n >= 5] points and with
    valid estimates, under one of the five configurations: the outputs are
    those of that attempt, whose final solve passed the acceptance test of
    lines 634-640.  The reduced chi-square it reports is twice the final
    cost of that solve divided by [max(1, n - 5)] (the cast of [n] to [int]
    being exact below 2^31); it is not negative when the solver's final cost
    is not. *)
Theorem accepted_fit_reduced_chi2 (x_vals y_vals : list float)
  (center_estimate pixel_spacing : float) (o o' : FitOutputs)
  (verbose enable_outlier_filtering : bool) :
  FitPowerLorentzianCeres ENABLE_VERTICAL_CHARGE_UNCERTAINTIES MIN_UNCERTAINTY_VALUE
    Solve Covariance x_vals y_vals center_estimate pixel_spacing o
    verbose enable_outlier_filtering = (true, o') ->
  exists clean_x clean_y config,
    let n := length clean_x in
    let estimates :=
      EstimatePowerLorentzianParameters clean_x clean_y center_estimate pixel_spacing in
    let uncertainty :=
      CalculatePowerLorentzianUncertainty ENABLE_VERTICAL_CHARGE_UNCERTAINTIES
        MIN_UNCERTAINTY_VALUE (Vec.max_element clean_y) in
    let summary := final_summary clean_x clean_y center_estimate pixel_spacing config in
    let parameters :=
      final_parameters clean_x clean_y center_estimate pixel_spacing config in
    In (clean_x, clean_y)
       (filtered_datasets x_vals y_vals verbose enable_outlier_filtering) /\
    In config (configs estimates) /\
    5 <= n /\
    Est.valid estimates = true /\
    fit_with_config MIN_UNCERTAINTY_VALUE Solve Covariance clean_x clean_y estimates
                    uncertainty pixel_spacing o config = Some o' /\
    fit_ok summary parameters = true /\
    chi2_reduced o' = final_cost summary * 2 / Dbl.of_int (dof_of_size n) /\
    ((Z.of_nat n < 2 ^ 31)%Z -> dof_of_size n = Z.max 1 (Z.of_nat n - 5)) /\
    ((0 <=? final_cost summary) = true -> (0 <=? chi2_reduced o') = true).
Proof.
  unfold FitPowerLorentzianCeres.
  destruct (negb (length x_vals =? length y_vals)%nat || (length x_vals <? 5)%nat);
    [discriminate | ].
  destruct (try_datasets _ _ _ _ _ _ _ _) as [o1 | ] eqn:T; [ | discriminate].
  intros H. injection H as <-.
  apply try_datasets_some in T as ([clean_x clean_y] & I & F).
  unfold fit_dataset in F. cbn [fst snd] in F.
  destruct (length clean_x <? 5)%nat eqn:L; [discriminate | ].
  destruct (Est.valid _) eqn:V; cbn [negb] in F; [ | discriminate].
  apply try_configs_some in F as (config & Ic & F).
  pose proof (fit_with_config_chi2 _ _ _ _ _ _ _ _ F) as C.
  pose proof (fit_with_config_ok _ _ _ _ _ _ _ _ F) as K. cbv zeta in K.
  exists clean_x, clean_y, config. cbv zeta.
  fold (final_summary clean_x clean_y center_estimate pixel_spacing config) in C, K.
  fold (final_parameters clean_x clean_y center_estimate pixel_spacing config) in K.
  repeat split; try assumption.
  - apply Nat.ltb_ge. exact L.
  - intros B. unfold dof_of_size. rewrite (int_of_size_small _ B). reflexivity.
  - rewrite C. apply reduced_chi2_nonneg.
Qed.

End AcceptedFit.

(** ** Concrete runs *)

(** A solver that reports convergence at once, with the given final cost,
    leaving the parameters at their starting values. *)
Definition converging_solver (cost : float)
  : SolverOptions -> Problem -> list float -> Summary * list float :=
  fun _ _ parameters => (mkSummary CONVERGENCE cost, parameters).

(** A covariance estimator that always fails. *)
Definition no_covariance : CovarianceOptions -> Problem -> list float -> option (list float) :=
  fun _ _ _ => None.

(** Three points are too few: the outputs keep the values they had. *)
Lemma fit_rejects_short_or_mismatched_witness :
  FitPowerLorentzianCeres true 1e-20 (converging_solver 3) no_covariance
    [0; 1; 2] [5; 9; 5] 1 1 (mkOut 1 2 3 4 5 6 7 8 9 10 11) false true
  = (false, mkOut 1 2 3 4 5 6 7 8 9 10 11).
Proof.
  apply fit_rejects_short_or_mismatched. right. cbn. lia.
Defined.

(** A clean cross: both axis fits run and the aggregate is true.  A single
    row: the X fit succeeds, no column has five points, and the aggregate is
    false. *)
Lemma aggregate_success_is_conjunction_witness :
  fit_successful
    (Fit2DPowerLorentzianCeres false 1e-20 (converging_solver 3) no_covariance
       [0; 1; 2; 3; 4; 0; 0; 0; 0] [0; 0; 0; 0; 0; 1; 2; 3; 4] [5; 6; 9; 6; 5; 6; 9; 6; 5]
       2 2 1 false true) = true /\
  fit_successful
    (Fit2DPowerLorentzianCeres false 1e-20 (converging_solver 3) no_covariance
       [0; 1; 2; 3; 4; 5; 6] [9; 9; 9; 9; 9; 9; 9] [1; 2; 3; 4; 5; 6; 1000]
       3 9 1 false true) <> true.
Proof.
  split.
  - apply (proj1 (aggregate_success_is_conjunction false 1e-20 (converging_solver 3)
                    no_covariance
                    [0; 1; 2; 3; 4; 0; 0; 0; 0] [0; 0; 0; 0; 0; 1; 2; 3; 4]
                    [5; 6; 9; 6; 5; 6; 9; 6; 5] 2 2 1 false true)).
    split; [repeat split; cbn; lia | ].
    split; eexists; (split; [vm_compute; reflexivity | vm_compute; reflexivity]).
  - intros H.
    apply (proj1 (aggregate_success_is_conjunction false 1e-20 (converging_solver 3)
                    no_covariance
                    [0; 1; 2; 3; 4; 5; 6] [9; 9; 9; 9; 9; 9; 9] [1; 2; 3; 4; 5; 6; 1000]
                    3 9 1 false true)) in H.
    destruct H as (_ & _ & (data & E & _)).
    vm_compute in E. discriminate E.
Defined.

(** The row of seven samples with a spike, fitted on its own: the accepted
    dataset and configuration exist as stated, for the outputs the run
    produces. *)
Lemma accepted_fit_reduced_chi2_witness :
  let o' := mkOut 5 4 1.8257418583505538 1 1 0.22239 0.18257418583505539
                  0.091287092917527693 0.10000000000000001 0.111195 6 in
  exists clean_x clean_y config,
    let n := length clean_x in
    let estimates := EstimatePowerLorentzianParameters clean_x clean_y 3 1 in
    let uncertainty :=
      CalculatePowerLorentzianUncertainty false 1e-20 (Vec.max_element clean_y) in
    let summary :=
      final_summary false 1e-20 (converging_solver 3) clean_x clean_y 3 1 config in
    let parameters :=
      final_parameters false 1e-20 (converging_solver 3) clean_x clean_y 3 1 config in
    In (clean_x, clean_y)
       (filtered_datasets [0; 1; 2; 3; 4; 5; 6] [1; 2; 3; 4; 5; 6; 1000] false true) /\
    In config (configs estimates) /\
    5 <= n /\
    Est.valid estimates = true /\
    fit_with_config 1e-20 (converging_solver 3) no_covariance clean_x clean_y estimates
                    uncertainty 1 FitOutputs_default config = Some o' /\
    fit_ok summary parameters = true /\
    chi2_reduced o' = final_cost summary * 2 / Dbl.of_int (dof_of_size n) /\
    ((Z.of_nat n < 2 ^ 31)%Z -> dof_of_size n = Z.max 1 (Z.of_nat n - 5)) /\
    ((0 <=? final_cost summary) = true -> (0 <=? chi2_reduced o') = true).
Proof.
  cbv zeta.
  apply (accepted_fit_reduced_chi2 false 1e-20 (converging_solver 3) no_covariance
           [0; 1; 2; 3; 4; 5; 6] [1; 2; 3; 4; 5; 6; 1000] 3 1 FitOutputs_default).
  vm_compute. reflexivity.
Defined.

(** C6, the degrees of freedom.  Seven samples in one row, the last a
    spike; outlier filtering on.  Whatever the solver does, the degrees of
    freedom reported for the X fit are [max(1, 7 - 5) = 2]: line 862 takes
    the size of the row as selected, before any filtering.  With a solver
    that converges with final cost 3, the conservative filter drops the
    spike, the fit is accepted on the six points left, and the reduced
    chi-square reported next to those 2 degrees of freedom is
    [2 * 3 / max(1, 6 - 5) = 6]: line 705 takes the size of the accepted
    dataset. *)
Lemma reported_dof_counts_removed_outliers :
  let x_coords := [0; 1; 2; 3; 4; 5; 6] in
  let y_coords := [9; 9; 9; 9; 9; 9; 9] in
  let charges := [1; 2; 3; 4; 5; 6; 1000] in
  let result :=
    Fit2DPowerLorentzianCeres false 1e-20 (converging_solver 3) no_covariance
      x_coords y_coords charges 3 9 1 false true in
  (forall enable min_uncertainty solve covariance,
     dof (x_axis (Fit2DPowerLorentzianCeres enable min_uncertainty solve covariance
                    x_coords y_coords charges 3 9 1 false true)) = 2%Z) /\
  hd ([], []) (filtered_datasets x_coords charges false true)
  = ([0; 1; 2; 3; 4; 5], [1; 2; 3; 4; 5; 6]) /\
  chi2_reduced (axis_out (x_axis result)) = 3 * 2 / Dbl.of_int (Z.max 1 (6 - 5)) /\
  chi2_reduced (axis_out (x_axis result)) = 6 /\
  dof (x_axis result) = 2%Z /\
  dof (x_axis result) <> Z.max 1 (6 - 5).
Proof.
  cbv zeta. split.
  - intros enable min_uncertainty solve covariance.
    unfold Fit2DPowerLorentzianCeres.
    assert (selected_lines [0; 1; 2; 3; 4; 5; 6] [9; 9; 9; 9; 9; 9; 9]
                           [1; 2; 3; 4; 5; 6; 1000] 3 9 1
            = (Some [(0, 1); (1, 2); (2, 3); (3, 4); (4, 5); (5, 6); (6, 1000)], None))
      as -> by (vm_compute; reflexivity).
    cbn [length Nat.eqb Nat.ltb Nat.leb negb orb].
    unfold fit_axis.
    destruct (FitPowerLorentzianCeres _ _ _ _ _ _ _ _ _ _ _) as [ok o].
    unfold store_charge_uncertainty.
    destruct enable, ok; reflexivity.
  - repeat split; try (vm_compute; reflexivity).
    vm_compute. discriminate.
Qed.

(** * Further properties *)

(** ** The order of binary64 numbers *)

Module FloatOrder.

(** A key that orders the non-NaN numbers as [SFcompare] does:
    lexicographically on (class and sign, exponent, mantissa). *)
Definition rank (x : spec_float) : Z * Z * Z :=
  match x with
  | S754_zero _ => (0, 0, 0)%Z
  | S754_infinity false => (2, 0, 0)%Z
  | S754_infinity true => (-2, 0, 0)%Z
  | S754_nan => (0, 0, 0)%Z
  | S754_finite false m e => (1, e, Z.pos m)%Z
  | S754_finite true m e => (-1, - e, Z.neg m)%Z
  end.

Definition lt3 (a b : Z * Z * Z) : Prop :=
  (fst (fst a) < fst (fst b) \/
   (fst (fst a) = fst (fst b) /\
    (snd (fst a) < snd (fst b) \/ (snd (fst a) = snd (fst b) /\ snd a < snd b))))%Z.

Definition le3 (a b : Z * Z * Z) : Prop :=
  (fst (fst a) < fst (fst b) \/
   (fst (fst a) = fst (fst b) /\
    (snd (fst a) < snd (fst b) \/ (snd (fst a) = snd (fst b) /\ snd a <= snd b))))%Z.

Ltac rank_cases :=
  repeat match goal with
         | |- context [(?a ?= ?b)%Z] => destruct (Z.compare_spec a b)
         | |- context [Pos.compare_cont Eq ?a ?b] =>
             change (Pos.compare_cont Eq a b) with (Pos.compare a b);
             destruct (Pos.compare_spec a b)
         end.

Lemma SFltb_rank (x y : spec_float) :
  SFltb x y = true <-> x <> S754_nan /\ y <> S754_nan /\ lt3 (rank x) (rank y).
Proof.
  unfold SFltb, lt3.
  destruct x as [sx | sx | | sx mx ex], y as [sy | sy | | sy my ey];
    try destruct sx; try destruct sy; cbn; rank_cases; cbn;
    (split; [intros HH; try discriminate HH; repeat split; try discriminate; lia
            | intros (Hx & Hy & HH); try congruence; try reflexivity; lia]).
Qed.

Lemma SFleb_rank (x y : spec_float) :
  SFleb x y = true <-> x <> S754_nan /\ y <> S754_nan /\ le3 (rank x) (rank y).
Proof.
  unfold SFleb, le3.
  destruct x as [sx | sx | | sx mx ex], y as [sy | sy | | sy my ey];
    try destruct sx; try destruct sy; cbn; rank_cases; cbn;
    (split; [intros HH; try discriminate HH; repeat split; try discriminate; lia
            | intros (Hx & Hy & HH); try congruence; try reflexivity; lia]).
Qed.

Lemma ltb_iff (a b : float) :
  (a <? b) = true <->
  Prim2SF a <> S754_nan /\ Prim2SF b <> S754_nan /\ lt3 (rank (Prim2SF a)) (rank (Prim2SF b)).
Proof. rewrite FloatAxioms.ltb_spec. apply SFltb_rank. Qed.

Lemma leb_iff (a b : float) :
  (a <=? b) = true <->
  Prim2SF a <> S754_nan /\ Prim2SF b <> S754_nan /\ le3 (rank (Prim2SF a)) (rank (Prim2SF b)).
Proof. rewrite FloatAxioms.leb_spec. apply SFleb_rank. Qed.

Ltac order :=
  repeat match goal with
         | H : (_ <? _) = true |- _ => apply ltb_iff in H; destruct H as (? & ? & H)
         | H : (_ <=? _) = true |- _ => apply leb_iff in H; destruct H as (? & ? & H)
         end;
  first [apply ltb_iff | apply leb_iff];
  repeat split; try assumption; unfold lt3, le3 in *; lia.

Lemma ltb_trans (a b c : float) : (a <? b) = true -> (b <? c) = true -> (a <? c) = true.
Proof. intros H1 H2. order. Qed.

Lemma leb_trans (a b c : float) : (a <=? b) = true -> (b <=? c) = true -> (a <=? c) = true.
Proof. intros H1 H2. order. Qed.

Lemma ltb_leb_trans (a b c : float) : (a <? b) = true -> (b <=? c) = true -> (a <? c) = true.
Proof. intros H1 H2. order. Qed.

Lemma leb_ltb_trans (a b c : float) : (a <=? b) = true -> (b <? c) = true -> (a <? c) = true.
Proof. intros H1 H2. order. Qed.

Lemma ltb_irrefl (a : float) : (a <? a) = false.
Proof.
  destruct (a <? a) eqn:H; [ | reflexivity].
  apply ltb_iff in H. destruct H as (_ & _ & H). unfold lt3 in H. lia.
Qed.

Lemma leb_refl (a : float) : is_nan a = false -> (a <=? a) = true.
Proof.
  intros N. apply leb_iff.
  assert (Prim2SF a <> S754_nan) by (intros H; apply FloatFacts.is_nan_spec in H; congruence).
  repeat split; try assumption. unfold le3. lia.
Qed.

End FloatOrder.

(** ** The sorted copies *)

(** No NaN among the values. *)
Definition no_nan (l : list float) : Prop := Forall (fun a => is_nan a = false) l.

Definition leR (a b : float) : Prop := (a <=? b) = true.
Definition geR (a b : float) : Prop := (b <=? a) = true.

Lemma leR_trans (a b c : float) : leR a b -> leR b c -> leR a c.
Proof. apply FloatOrder.leb_trans. Qed.

Lemma unguarded_linear_insert_perm {A} (lt : A -> A -> bool) (a : A) (l : list A) :
  Permutation (Vec.unguarded_linear_insert lt a l) (a :: l).
Proof.
  induction l as [ | b r IH]; cbn [Vec.unguarded_linear_insert]; [reflexivity | ].
  destruct (lt a b); [ | reflexivity].
  rewrite IH. apply perm_swap.
Qed.

Lemma insertion_step_perm {A} (lt : A -> A -> bool) (l : list A) (a : A) :
  Permutation (Vec.insertion_step lt l a) (a :: l).
Proof.
  unfold Vec.insertion_step. destruct l as [ | b r]; [reflexivity | ].
  destruct (lt a _).
  - symmetry. apply Permutation_cons_append.
  - apply unguarded_linear_insert_perm.
Qed.

(** The sorted copy holds the values of the original, each as often. *)
Lemma sort_perm {A} (lt : A -> A -> bool) (l : list A) :
  Permutation (Vec.sort lt l) l.
Proof.
  unfold Vec.sort. rewrite <- Permutation_rev.
  enough (forall acc, Permutation (fold_left (Vec.insertion_step lt) l acc) (l ++ acc)) as H
    by (rewrite H, app_nil_r; reflexivity).
  induction l as [ | a r IH]; intros acc; cbn [fold_left app]; [reflexivity | ].
  rewrite IH, insertion_step_perm. symmetry. apply Permutation_middle.
Qed.

(** The prefix, read from its end, descends. *)
Lemma unguarded_linear_insert_sorted (a : float) (l : list float) :
  is_nan a = false -> no_nan l ->
  StronglySorted geR l -> StronglySorted geR (Vec.unguarded_linear_insert ltb a l).
Proof.
  intros Na Nl S. induction S as [ | b r S IH F]; cbn [Vec.unguarded_linear_insert].
  - repeat constructor.
  - inversion Nl; subst. destruct (a <? b) eqn:C.
    + constructor; [apply IH; assumption | ].
      rewrite (unguarded_linear_insert_perm ltb a r).
      constructor; [apply FloatFacts.ltb_leb; exact C | exact F].
    + assert (geR a b) as G by (apply FloatFacts.not_ltb_leb; assumption).
      constructor; [constructor; assumption | ].
      constructor; [exact G | ].
      eapply Forall_impl; [ | exact F]. intros c Hc. exact (leR_trans c b a Hc G).
Qed.

Lemma sorted_snoc (R : float -> float -> Prop) (l : list float) (a : float) :
  StronglySorted R l -> Forall (fun b => R b a) l -> StronglySorted R (l ++ [a]).
Proof.
  intros S. induction S as [ | b r S IH F]; intros H; cbn [app].
  - repeat constructor.
  - inversion H; subst. constructor; [apply IH; assumption | ].
    apply Forall_app. split; [exact F | repeat constructor; assumption].
Qed.

Lemma descending_last (l : list float) (d : float) :
  no_nan l -> StronglySorted geR l -> l <> [] -> Forall (fun b => geR b (last l d)) l.
Proof.
  intros N S. induction S as [ | b r S IH F]; intros NE; [congruence | ].
  inversion N; subst. destruct r as [ | c r'].
  - constructor; [apply FloatOrder.leb_refl; assumption | constructor].
  - specialize (IH ltac:(assumption) ltac:(discriminate)).
    change (last (b :: c :: r') d) with (last (c :: r') d).
    constructor; [ | exact IH].
    rewrite Forall_forall in F. apply F. apply exists_last in NE as NE'.
    clear NE'. assert (c :: r' <> []) as NE2 by discriminate.
    destruct (exists_last NE2) as (l' & z & E). rewrite E, last_last.
    apply in_or_app. right. left. reflexivity.
Qed.

Lemma insertion_step_sorted (l : list float) (a : float) :
  is_nan a = false -> no_nan l ->
  StronglySorted geR l -> StronglySorted geR (Vec.insertion_step ltb l a).
Proof.
  intros Na Nl S. unfold Vec.insertion_step.
  destruct l as [ | b r] eqn:El; [repeat constructor | ]. rewrite <- El in *.
  assert (l <> []) as NE by (rewrite El; discriminate).
  destruct (a <? last l a) eqn:C.
  - apply sorted_snoc; [exact S | ].
    pose proof (descending_last l a Nl S NE) as D.
    eapply Forall_impl; [ | exact D]. intros c Hc.
    apply (leR_trans a (last l a) c); [apply FloatFacts.ltb_leb; exact C | exact Hc].
  - apply unguarded_linear_insert_sorted; assumption.
Qed.

Lemma sorted_rev (l : list float) :
  StronglySorted geR l -> StronglySorted leR (rev l).
Proof.
  induction 1 as [ | b r S IH F]; cbn [rev]; [constructor | ].
  apply sorted_snoc; [exact IH | ].
  apply Forall_rev. exact F.
Qed.

(** On values without NaN the sorted copy ascends. *)
Lemma sort_sorted (l : list float) :
  no_nan l -> StronglySorted leR (Vec.sort ltb l).
Proof.
  intros N. unfold Vec.sort. apply sorted_rev.
  enough (forall acc, no_nan acc -> StronglySorted geR acc ->
                      StronglySorted geR (fold_left (Vec.insertion_step ltb) l acc)) as H
    by (apply H; constructor).
  induction N as [ | a r Na Nr IH]; intros acc Nacc S; cbn [fold_left]; [exact S | ].
  apply IH.
  - unfold no_nan. rewrite (insertion_step_perm ltb acc a). constructor; assumption.
  - apply insertion_step_sorted; assumption.
Qed.

Lemma sorted_nth (l : list float) (i j : nat) :
  no_nan l -> StronglySorted leR l -> i <= j -> j < length l ->
  leR (nth i l nan) (nth j l nan).
Proof.
  intros N S. revert i j. induction S as [ | a r S IH F]; intros i j Hij Hj.
  - cbn in Hj. lia.
  - inversion N; subst. destruct i as [ | i], j as [ | j]; cbn [nth].
    + apply FloatOrder.leb_refl. assumption.
    + rewrite Forall_forall in F. apply F. apply nth_In. cbn in Hj. lia.
    + lia.
    + apply IH; [assumption | lia | cbn in Hj; lia].
Qed.
(** [*std::min_element] and [*std::max_element] bound every element. *)
Lemma min_fold_bound (l : list float) (a : float) :
  is_nan a = false -> no_nan l ->
  let r := fold_left (fun smallest b => if b <? smallest then b else smallest) l a in
  is_nan r = false /\ leR r a /\ Forall (leR r) l.
Proof.
  cbv zeta. intros Na N. revert a Na.
  induction N as [ | b l Nb Nl IH]; intros a Na; cbn [fold_left].
  - repeat split; [exact Na | apply FloatOrder.leb_refl; exact Na | constructor].
  - destruct (b <? a) eqn:C.
    + destruct (IH b Nb) as (Nr & Rb & Rl). repeat split; [exact Nr | | ].
      * apply (FloatOrder.leb_trans _ b); [exact Rb | apply FloatFacts.ltb_leb; exact C].
      * constructor; assumption.
    + destruct (IH a Na) as (Nr & Ra & Rl). repeat split; [exact Nr | exact Ra | ].
      constructor; [ | exact Rl].
      apply (FloatOrder.leb_trans _ a); [exact Ra | ].
      apply FloatFacts.not_ltb_leb; assumption.
Qed.

Lemma max_fold_bound (l : list float) (a : float) :
  is_nan a = false -> no_nan l ->
  let r := fold_left (fun largest b => if largest <? b then b else largest) l a in
  is_nan r = false /\ leR a r /\ Forall (fun b => leR b r) l.
Proof.
  cbv zeta. intros Na N. revert a Na.
  induction N as [ | b l Nb Nl IH]; intros a Na; cbn [fold_left].
  - repeat split; [exact Na | apply FloatOrder.leb_refl; exact Na | constructor].
  - destruct (a <? b) eqn:C.
    + destruct (IH b Nb) as (Nr & Rb & Rl). repeat split; [exact Nr | | ].
      * apply (FloatOrder.leb_trans _ b); [apply FloatFacts.ltb_leb; exact C | exact Rb].
      * constructor; assumption.
    + destruct (IH a Na) as (Nr & Ra & Rl). repeat split; [exact Nr | exact Ra | ].
      constructor; [ | exact Rl].
      apply (FloatOrder.leb_trans _ a); [ | exact Ra].
      apply FloatFacts.not_ltb_leb; assumption.
Qed.

Lemma min_element_bound (l : list float) :
  no_nan l -> Forall (leR (Vec.min_element l)) l.
Proof.
  intros N. destruct N as [ | a l Na Nl]; [constructor | ].
  cbn [Vec.min_element]. destruct (min_fold_bound l a Na Nl) as (_ & Ra & Rl).
  constructor; assumption.
Qed.

Lemma max_element_bound (l : list float) :
  no_nan l -> Forall (fun b => leR b (Vec.max_element l)) l.
Proof.
  intros N. destruct N as [ | a l Na Nl]; [constructor | ].
  cbn [Vec.max_element]. destruct (max_fold_bound l a Na Nl) as (_ & Ra & Rl).
  constructor; assumption.
Qed.

(** For charges without NaN the quartiles are input values in order:
    min <= q25 <= q75 <= max, with the median between the quartiles when
    the number of points is odd. *)
Theorem quartiles_are_ordered (x_vals y_vals : list float) :
  length x_vals = length y_vals -> x_vals <> [] -> no_nan y_vals ->
  let stats := CalculateRobustStatisticsPowerLorentzian x_vals y_vals in
  In (q25 stats) y_vals /\ In (q75 stats) y_vals /\
  (min_val stats <=? q25 stats) = true /\
  (q25 stats <=? q75 stats) = true /\
  (q75 stats <=? max_val stats) = true /\
  ((length y_vals mod 2 = 1)%nat ->
     (q25 stats <=? median stats) = true /\ (median stats <=? q75 stats) = true).
Proof.
  intros E N Ny. cbv zeta.
  unfold CalculateRobustStatisticsPowerLorentzian.
  rewrite (stats_guard_passes _ _ E N). cbv zeta.
  destruct (fold_left _ _ _) as [wm tw]. cbn [q25 q75 min_val max_val median].
  rewrite sort_length.
  set (n := length y_vals).
  assert (0 < n) as P by (unfold n; rewrite <- E; destruct x_vals; [congruence | cbn; lia]).
  set (sorted_y := Vec.sort ltb y_vals).
  assert (length sorted_y = n) as Ls by apply sort_length.
  assert (Permutation sorted_y y_vals) as Pm by apply sort_perm.
  assert (no_nan sorted_y) as Nso by (unfold no_nan; rewrite Pm; exact Ny).
  pose proof (sort_sorted y_vals Ny) as So. fold sorted_y in So.
  assert (n / 4 < n)%nat by (apply Nat.div_lt; lia).
  assert (n / 2 < n)%nat by (apply Nat.div_lt; lia).
  assert (3 * n / 4 < n)%nat by (apply Nat.Div0.div_lt_upper_bound; lia).
  assert (n / 4 <= n / 2 /\ n / 2 <= 3 * n / 4)%nat as [Q1 Q2].
  { pose proof (Nat.div_mod_eq n 4). pose proof (Nat.mod_upper_bound n 4).
    pose proof (Nat.div_mod_eq n 2). pose proof (Nat.mod_upper_bound n 2).
    pose proof (Nat.div_mod_eq (3 * n) 4). pose proof (Nat.mod_upper_bound (3 * n) 4).
    lia. }
  assert (In (Vec.at_ sorted_y (n / 4)) y_vals) as I25
    by (apply (Permutation_in _ Pm), nth_In; lia).
  assert (In (Vec.at_ sorted_y (3 * n / 4)) y_vals) as I75
    by (apply (Permutation_in _ Pm), nth_In; lia).
  pose proof (min_element_bound y_vals Ny) as Bmin.
  pose proof (max_element_bound y_vals Ny) as Bmax.
  rewrite Forall_forall in Bmin, Bmax.
  split; [exact I25 | ]. split; [exact I75 | ].
  split; [apply Bmin; exact I25 | ].
  split; [apply (sorted_nth sorted_y); [assumption | assumption | lia | lia] | ].
  split; [apply Bmax; exact I75 | ].
  intros Odd. fold n in Odd.
  unfold median_of_sorted. rewrite Ls.
  assert ((n mod 2 =? 0)%nat = false) as -> by (apply Nat.eqb_neq; lia).
  split; apply (sorted_nth sorted_y); assumption || lia.
Qed.

Lemma quartiles_are_ordered_witness :
  let stats := CalculateRobustStatisticsPowerLorentzian
                 [0; 1; 2; 3; 4; 5; 6] [4; 1000; 2; 6; 1; 5; 3] in
  (q25 stats <=? median stats) = true /\ (median stats <=? q75 stats) = true.
Proof.
  cbv zeta.
  apply (quartiles_are_ordered [0; 1; 2; 3; 4; 5; 6] [4; 1000; 2; 6; 1; 5; 3]).
  - reflexivity.
  - discriminate.
  - repeat constructor.
  - reflexivity.
Defined.


(** ** More on the estimator *)

Lemma stats_mad_floor (x_vals y_vals : list float) :
  length x_vals = length y_vals -> x_vals <> [] ->
  (1e-12 <=? mad (CalculateRobustStatisticsPowerLorentzian x_vals y_vals)) = true.
Proof.
  intros E N. unfold CalculateRobustStatisticsPowerLorentzian.
  rewrite (stats_guard_passes _ _ E N). cbv zeta.
  destruct (fold_left _ _ _) as [wm tw]. cbn [mad].
  apply mad_safeguard_floor.
Qed.

(** [std::max(a, b)] is positive as soon as [a] is. *)
Lemma max_positive (a b : float) : (0 <? a) = true -> (0 <? Dbl.max a b) = true.
Proof.
  intros H. unfold Dbl.max. destruct (a <? b) eqn:C; [ | exact H].
  apply (FloatOrder.ltb_trans _ a); assumption.
Qed.

(** The width of Tier 2 is [max(MAD, 0.5 * pixel_spacing)] with a MAD of at
    least 1e-12, so it is positive whatever the pixel spacing (negative, zero
    or NaN included): Tier 2 is accepted exactly when [q75 - q25 > 0]. *)
Theorem tier2_width_is_positive (x_vals y_vals : list float) (pixel_spacing : float) :
  length x_vals = length y_vals -> x_vals <> [] ->
  let stats := CalculateRobustStatisticsPowerLorentzian x_vals y_vals in
  (Dbl.max (mad stats) (pixel_spacing * 0.5) >? 0) = true /\
  method2_valid (method2_estimates stats pixel_spacing) = (q75 stats - q25 stats >? 0).
Proof.
  intros E N. cbv zeta.
  assert ((0 <? Dbl.max (mad (CalculateRobustStatisticsPowerLorentzian x_vals y_vals))
                        (pixel_spacing * 0.5)) = true) as G.
  { apply max_positive.
    apply (FloatOrder.ltb_leb_trans _ 1e-12); [reflexivity | ].
    apply stats_mad_floor; assumption. }
  split; [exact G | ].
  unfold method2_valid, method2_estimates, Dbl.gtb. rewrite G. apply andb_true_r.
Qed.

Lemma tier2_width_is_positive_witness :
  method2_valid
    (method2_estimates (CalculateRobustStatisticsPowerLorentzian [0; 1; 2; 3; 4] [1; 2; 3; 4; 5])
                       (-1))
  = true.
Proof.
  rewrite (proj2 (tier2_width_is_positive [0; 1; 2; 3; 4] [1; 2; 3; 4; 5] (-1)
                    eq_refl ltac:(discriminate))).
  vm_compute. reflexivity.
Defined.

(** The estimator fails on input errors only: its result is valid exactly
    when the two sequences have the same length, at least 5; an invalid
    result is the initial struct ([method_used = 0]); a valid one starts the
    exponent at 1 and carries the tag 1, 2 or 3. *)
Theorem estimator_valid_iff_sizes (x_vals y_vals : list float)
  (center_estimate pixel_spacing : float) :
  let e := EstimatePowerLorentzianParameters x_vals y_vals center_estimate pixel_spacing in
  (Est.valid e = true <-> length x_vals = length y_vals /\ 5 <= length x_vals) /\
  (Est.valid e = false -> e = Est.initial) /\
  (Est.valid e = true ->
     Est.beta e = 1 /\
     (Est.method_used e = 1 \/ Est.method_used e = 2 \/ Est.method_used e = 3)%Z).
Proof.
  cbv zeta. unfold EstimatePowerLorentzianParameters.
  destruct (negb (length x_vals =? length y_vals)%nat || (length x_vals <? 5)%nat) eqn:G.
  - cbn [Est.valid Est.initial]. split; [ | split; [reflexivity | discriminate]].
    split; [discriminate | ]. intros [E L].
    rewrite (size_guard_passes _ _ E L) in G. discriminate.
  - apply orb_false_iff in G as [G1 G2].
    apply negb_false_iff, Nat.eqb_eq in G1. apply Nat.ltb_ge in G2.
    assert (x_vals <> []) as N by (destruct x_vals; [cbn in G2; lia | discriminate]).
    rewrite (stats_valid _ _ G1 N). cbn [negb].
    set (stats := CalculateRobustStatisticsPowerLorentzian x_vals y_vals).
    assert (forall est tag, Est.valid (accept Est.initial est tag) = true) as V
      by (intros [[[[a c] g] b] bl] tag; reflexivity).
    destruct (method1_valid _); [ | destruct (method2_valid _)]; rewrite V;
      (split; [tauto | split; [discriminate | intros _]]).
    + unfold method1_estimates. destruct (fold_left _ _ _). cbn. auto.
    + cbn. auto.
    + cbn. auto.
Qed.

Lemma method1_width_clamped (stats : DataStatistics) (x_vals y_vals : list float)
  (pixel_spacing : float) :
  (pixel_spacing * 0.3 <=? pixel_spacing * 3) = true ->
  let gamma := snd (fst (fst (method1_estimates stats x_vals y_vals pixel_spacing))) in
  (pixel_spacing * 0.3 <=? gamma) = true /\ (gamma <=? pixel_spacing * 3) = true.
Proof.
  intros H. cbv zeta. unfold method1_estimates.
  destruct (fold_left _ _ _) as [distance_spread weight_sum]. cbn [fst snd].
  set (g0 := if weight_sum >? 0 then _ else _). clearbody g0.
  set (lo := pixel_spacing * 0.3) in *. set (hi := pixel_spacing * 3) in *.
  assert (is_nan lo = false /\ is_nan hi = false) as [Nlo Nhi].
  { apply FloatOrder.leb_iff in H as (A & B & _).
    split.
    - destruct (is_nan lo) eqn:X; [apply FloatFacts.is_nan_spec in X; congruence | reflexivity].
    - destruct (is_nan hi) eqn:X; [apply FloatFacts.is_nan_spec in X; congruence | reflexivity]. }
  assert ((Dbl.min hi g0 <=? hi) = true) as T.
  { unfold Dbl.min. destruct (g0 <? hi) eqn:C;
      [apply FloatFacts.ltb_leb; exact C | apply FloatOrder.leb_refl; exact Nhi]. }
  unfold Dbl.max. destruct (lo <? Dbl.min hi g0) eqn:C.
  - split; [apply FloatFacts.ltb_leb; exact C | exact T].
  - split; [apply FloatOrder.leb_refl; exact Nlo | exact H].
Qed.

(** The width of a Tier-1 estimate is clamped: whenever
    [0.3 * pixel_spacing <= 3 * pixel_spacing] holds (a non-negative pixel
    spacing), an estimate tagged 1 has its width in that interval. *)
Theorem tier1_width_is_clamped (x_vals y_vals : list float)
  (center_estimate pixel_spacing : float) :
  (pixel_spacing * 0.3 <=? pixel_spacing * 3) = true ->
  let e := EstimatePowerLorentzianParameters x_vals y_vals center_estimate pixel_spacing in
  Est.method_used e = 1%Z ->
  (pixel_spacing * 0.3 <=? Est.gamma e) = true /\
  (Est.gamma e <=? pixel_spacing * 3) = true.
Proof.
  intros H. cbv zeta. unfold EstimatePowerLorentzianParameters.
  destruct (negb (length x_vals =? length y_vals)%nat || (length x_vals <? 5)%nat);
    [discriminate | ].
  destruct (negb (valid _)); [discriminate | ].
  set (stats := CalculateRobustStatisticsPowerLorentzian x_vals y_vals).
  pose proof (method1_width_clamped stats x_vals y_vals pixel_spacing H) as B.
  destruct (method1_valid _).
  - intros _. destruct (method1_estimates stats x_vals y_vals pixel_spacing)
      as [[[[a c] g] b] bl]. exact B.
  - destruct (method2_valid _); [discriminate | ].
    unfold method3_estimates. discriminate.
Qed.

Lemma tier1_width_is_clamped_witness :
  let e := EstimatePowerLorentzianParameters [0; 1; 2; 3; 4; 5; 6] [1; 2; 3; 4; 5; 6; 1000] 3 1 in
  (1 * 0.3 <=? Est.gamma e) = true /\ (Est.gamma e <=? 1 * 3) = true.
Proof.
  cbv zeta.
  apply (tier1_width_is_clamped [0; 1; 2; 3; 4; 5; 6] [1; 2; 3; 4; 5; 6; 1000] 3 1).
  - reflexivity.
  - vm_compute. reflexivity.
Defined.

(** ** More on the profile filter *)

Lemma threshold_pass_is_filter (lower upper : float) (x_vals y_vals : list float) :
  let kept := threshold_pass lower upper x_vals y_vals in
  combine (fst kept) (snd kept)
  = filter (fun p => (snd p >=? lower) && (snd p <=? upper)) (combine x_vals y_vals).
Proof.
  cbv zeta. revert y_vals.
  induction x_vals as [ | x xs IH]; intros [ | y ys]; cbn [threshold_pass combine filter];
    try reflexivity.
  specialize (IH ys). destruct (threshold_pass lower upper xs ys) as [fx fy].
  cbn [snd]. destruct ((y >=? lower) && (y <=? upper)); cbn [fst snd combine] in *;
    rewrite IH; reflexivity.
Qed.

Lemma filter_all {A} (l : list A) : filter (fun _ => true) l = l.
Proof. induction l as [ | a r IH]; cbn; [ | rewrite IH]; reflexivity. Qed.

Lemma filter_data_verbose (x_vals y_vals : list float) (k : float) (v1 v2 : bool) :
  fst (FilterPowerLorentzianOutliers x_vals y_vals k v1)
  = fst (FilterPowerLorentzianOutliers x_vals y_vals k v2).
Proof.
  unfold FilterPowerLorentzianOutliers.
  destruct (negb (length x_vals =? length y_vals)%nat || (length x_vals <? 5)%nat);
    [reflexivity | ].
  destruct (negb (valid _)); [reflexivity | ]. cbv zeta.
  match goal with |- context [if (?a <? 5)%nat then _ else _] =>
    destruct (a <? 5)%nat end; reflexivity.
Qed.

(** The filter only selects: for any input, whatever it returns is the
    input pairs (position, charge) that satisfy some test on the pair, in
    their original order, positions and charges in step; the [verbose] flag
    changes none of it, and without [verbose] nothing is printed. *)
Theorem filter_selects_input_pairs (x_vals y_vals : list float)
  (sigma_threshold : float) (verbose : bool) :
  let out := fst (FilterPowerLorentzianOutliers x_vals y_vals sigma_threshold verbose) in
  (exists keep, combine (fst out) (snd out) = filter keep (combine x_vals y_vals)) /\
  length (fst out) = length (snd out) /\
  fst (FilterPowerLorentzianOutliers x_vals y_vals sigma_threshold (negb verbose)) = out /\
  snd (FilterPowerLorentzianOutliers x_vals y_vals sigma_threshold false) = [].
Proof.
  cbv zeta. split; [ | split; [ | split]].
  - unfold FilterPowerLorentzianOutliers.
    destruct (negb (length x_vals =? length y_vals)%nat || (length x_vals <? 5)%nat).
    { exists (fun _ => false). cbn [fst snd combine].
      induction (combine x_vals y_vals) as [ | p r IH]; [reflexivity | exact IH]. }
    destruct (negb (valid _)).
    { exists (fun _ => true). cbn [fst snd]. symmetry. apply filter_all. }
    cbv zeta.
    match goal with |- context [if (?a <? 5)%nat then _ else _] =>
      destruct (a <? 5)%nat end; cbn [fst].
    + exists (fun _ => true). cbn [fst snd]. symmetry. apply filter_all.
    + match goal with |- context [if ?c then _ else _] => destruct c end;
        eexists; apply threshold_pass_is_filter.
  - unfold FilterPowerLorentzianOutliers.
    destruct (negb (length x_vals =? length y_vals)%nat || (length x_vals <? 5)%nat) eqn:G;
      [reflexivity | ].
    apply orb_false_iff in G as [G _]. apply negb_false_iff, Nat.eqb_eq in G.
    destruct (negb (valid _)); [exact G | ]. cbv zeta.
    match goal with |- context [if (?a <? 5)%nat then _ else _] =>
      destruct (a <? 5)%nat end; cbn [fst]; [exact G | ].
    match goal with |- context [if ?c then _ else _] => destruct c end;
      symmetry; apply threshold_pass_lengths.
  - apply filter_data_verbose.
  - unfold FilterPowerLorentzianOutliers.
    destruct (negb (length x_vals =? length y_vals)%nat || (length x_vals <? 5)%nat);
      [reflexivity | ].
    destruct (negb (valid _)); [reflexivity | ]. cbv zeta.
    rewrite andb_false_r. cbn [andb app].
    match goal with |- context [if (?a <? 5)%nat then _ else _] =>
      destruct (a <? 5)%nat end; reflexivity.
Qed.

Lemma filter_output_size (x_vals y_vals : list float) (k : float) (verbose : bool) :
  length x_vals = length y_vals -> 5 <= length x_vals ->
  let out := fst (FilterPowerLorentzianOutliers x_vals y_vals k verbose) in
  5 <= length (fst out) /\ length (fst out) = length (snd out).
Proof.
  intros E L. cbv zeta. rewrite (filter_unfold _ _ _ _ E L).
  destruct (length (fst (filter_selection x_vals y_vals k)) <? 5)%nat eqn:T.
  - split; [exact L | exact E].
  - apply Nat.ltb_ge in T. split; [exact T | ].
    unfold filter_selection.
    match goal with |- context [if ?c then _ else _] => destruct c end;
      symmetry; apply threshold_pass_lengths.
Qed.

Lemma filtered_datasets_sizes (x_vals y_vals : list float)
  (verbose enable_outlier_filtering : bool) :
  length x_vals = length y_vals -> 5 <= length x_vals ->
  Forall (fun d => 5 <= length (fst d) /\ length (fst d) = length (snd d))
         (filtered_datasets x_vals y_vals verbose enable_outlier_filtering).
Proof.
  intros E L. unfold filtered_datasets.
  apply Forall_app. split; [ | repeat constructor; assumption].
  destruct enable_outlier_filtering; [ | constructor]. cbv zeta.
  apply Forall_app. split.
  - destruct (5 <=? _)%nat; repeat constructor; apply filter_output_size; assumption.
  - destruct (5 <=? _)%nat; repeat constructor; apply filter_output_size; assumption.
Qed.

(** On a profile (equal lengths, at least 5 points) the size tests of lines
    418 and 423 never fail: with filtering enabled exactly three datasets
    are tried, conservative, lenient and original, in this order; without
    it the original alone.  Every dataset has at least 5 points, positions
    and charges in step. *)
Theorem candidate_datasets (x_vals y_vals : list float) (verbose : bool) :
  length x_vals = length y_vals -> 5 <= length x_vals ->
  filtered_datasets x_vals y_vals verbose true
  = [fst (FilterPowerLorentzianOutliers x_vals y_vals 2.5 verbose);
     fst (FilterPowerLorentzianOutliers x_vals y_vals 3 verbose);
     (x_vals, y_vals)] /\
  filtered_datasets x_vals y_vals verbose false = [(x_vals, y_vals)] /\
  forall enable_outlier_filtering,
    Forall (fun d => 5 <= length (fst d) /\ length (fst d) = length (snd d))
           (filtered_datasets x_vals y_vals verbose enable_outlier_filtering).
Proof.
  intros E L.
  destruct (filter_output_size x_vals y_vals 2.5 verbose E L) as [A1 A2].
  destruct (filter_output_size x_vals y_vals 3 verbose E L) as [B1 B2].
  assert (filtered_datasets x_vals y_vals verbose true
          = [fst (FilterPowerLorentzianOutliers x_vals y_vals 2.5 verbose);
             fst (FilterPowerLorentzianOutliers x_vals y_vals 3 verbose);
             (x_vals, y_vals)]) as T.
  { unfold filtered_datasets. cbv zeta.
    apply Nat.leb_le in A1, B1. rewrite A1, B1. reflexivity. }
  split; [exact T | split; [reflexivity | ]].
  intros enable_outlier_filtering. apply filtered_datasets_sizes; assumption.
Qed.

Lemma candidate_datasets_witness :
  filtered_datasets [0; 1; 2; 3; 4; 5; 6] [1; 2; 3; 4; 5; 6; 1000] false true
  = [([0; 1; 2; 3; 4; 5], [1; 2; 3; 4; 5; 6]);
     ([0; 1; 2; 3; 4; 5], [1; 2; 3; 4; 5; 6]);
     ([0; 1; 2; 3; 4; 5; 6], [1; 2; 3; 4; 5; 6; 1000])].
Proof.
  rewrite (proj1 (candidate_datasets [0; 1; 2; 3; 4; 5; 6] [1; 2; 3; 4; 5; 6; 1000] false
                    eq_refl ltac:(cbn; lia))).
  vm_compute. reflexivity.
Defined.
(** ** More on the 1-D fit *)

(** The five fitted values and the five standard errors of the outputs. *)
Definition fitted_values (o : FitOutputs) : float * float * float * float * float :=
  (fit_amplitude o, fit_center o, fit_gamma o, fit_beta o, fit_vertical_offset o).

Definition fitted_errors (o : FitOutputs) : float * float * float * float * float :=
  (fit_amplitude_err o, fit_center_err o, fit_gamma_err o, fit_beta_err o,
   fit_vertical_offset_err o).

Lemma outputs_eq (a b : FitOutputs) :
  fitted_values a = fitted_values b -> fitted_errors a = fitted_errors b ->
  chi2_reduced a = chi2_reduced b -> a = b.
Proof.
  destruct a, b. unfold fitted_values, fitted_errors. cbn.
  intros V E C. injection V as -> -> -> -> ->. injection E as -> -> -> -> ->.
  subst. reflexivity.
Qed.

Lemma abs_of_positive (x : float) : (0 <? x) = true -> abs x = x.
Proof.
  rewrite FloatAxioms.ltb_spec. change (Prim2SF 0) with (S754_zero false).
  intros H. apply Prim2SF_inj. rewrite FloatAxioms.abs_spec.
  destruct (Prim2SF x) as [s | s | | s m e]; cbn in H |- *; try discriminate;
    destruct s; try discriminate; reflexivity.
Qed.

(** The first success of a search in list order. *)
Fixpoint first_success {A B} (f : A -> option B) (l : list A) : option B :=
  match l with
  | [] => None
  | a :: r => match f a with Some b => Some b | None => first_success f r end
  end.

Lemma first_success_some {A B} (f : A -> option B) (l : list A) (b : B) :
  first_success f l = Some b <->
  exists l1 a l2, l = l1 ++ a :: l2 /\ Forall (fun a' => f a' = None) l1 /\ f a = Some b.
Proof.
  induction l as [ | a r IH]; cbn [first_success].
  - split; [discriminate | intros (l1 & a & l2 & E & _)]. destruct l1; discriminate.
  - destruct (f a) as [b' | ] eqn:F.
    + split.
      * intros H. injection H as <-. exists [], a, r.
        split; [reflexivity | split; [constructor | exact F]].
      * intros (l1 & a' & l2 & E & N & S).
        destruct l1 as [ | a1 l1]; cbn in E; injection E as E1 E2; subst.
        -- congruence.
        -- inversion N; subst. congruence.
    + rewrite IH. split.
      * intros (l1 & a' & l2 & -> & N & S).
        exists (a :: l1), a', l2.
        split; [reflexivity | split; [constructor; assumption | exact S]].
      * intros (l1 & a' & l2 & E & N & S).
        destruct l1 as [ | a1 l1]; cbn in E; injection E as E1 E2; subst.
        -- congruence.
        -- inversion N; subst. exists l1, a', l2.
           split; [reflexivity | split; assumption].
Qed.

Lemma first_success_ext {A B} (f g : A -> option B) (l : list A) :
  Forall (fun a => f a = g a) l -> first_success f l = first_success g l.
Proof.
  induction 1 as [ | a r E _ IH]; cbn [first_success]; [reflexivity | ].
  rewrite E, IH. reflexivity.
Qed.

Section FitMore.

Variable ENABLE_VERTICAL_CHARGE_UNCERTAINTIES : bool.
Variable MIN_UNCERTAINTY_VALUE : float.
Variable Solve : SolverOptions -> Problem -> list float -> Summary * list float.
Variable Covariance : CovarianceOptions -> Problem -> list float -> option (list float).

Lemma try_configs_first (clean_x clean_y : list float)
  (estimates : Est.PowerLorentzianParameterEstimates)
  (uncertainty pixel_spacing : float) (o : FitOutputs)
  (cs : list PowerLorentzianFittingConfig) :
  try_configs MIN_UNCERTAINTY_VALUE Solve Covariance clean_x clean_y estimates
              uncertainty pixel_spacing o cs
  = first_success (fit_with_config MIN_UNCERTAINTY_VALUE Solve Covariance clean_x clean_y
                     estimates uncertainty pixel_spacing o) cs.
Proof.
  induction cs as [ | c r IH]; cbn [try_configs first_success]; [reflexivity | ].
  rewrite IH. reflexivity.
Qed.

Lemma try_datasets_first (center_estimate pixel_spacing : float) (o : FitOutputs)
  (datasets : list (list float * list float)) :
  try_datasets ENABLE_VERTICAL_CHARGE_UNCERTAINTIES MIN_UNCERTAINTY_VALUE Solve Covariance
               center_estimate pixel_spacing o datasets
  = first_success (fit_dataset ENABLE_VERTICAL_CHARGE_UNCERTAINTIES MIN_UNCERTAINTY_VALUE
                     Solve Covariance center_estimate pixel_spacing o) datasets.
Proof.
  induction datasets as [ | d r IH]; cbn [try_datasets first_success]; [reflexivity | ].
  rewrite IH. reflexivity.
Qed.

(** One attempt: a dataset under a configuration, with the estimates and the
    uncertainty the dataset loop computes for that dataset. *)
Definition attempt (center_estimate pixel_spacing : float) (o : FitOutputs)
  (dataset : list float * list float) (config : PowerLorentzianFittingConfig)
  : option FitOutputs :=
  fit_with_config MIN_UNCERTAINTY_VALUE Solve Covariance (fst dataset) (snd dataset)
    (EstimatePowerLorentzianParameters (fst dataset) (snd dataset)
                                       center_estimate pixel_spacing)
    (CalculatePowerLorentzianUncertainty ENABLE_VERTICAL_CHARGE_UNCERTAINTIES
       MIN_UNCERTAINTY_VALUE (Vec.max_element (snd dataset)))
    pixel_spacing o config.

(** The configurations tried on a dataset. *)
Definition configs_for (center_estimate pixel_spacing : float)
  (dataset : list float * list float) : list PowerLorentzianFittingConfig :=
  configs (EstimatePowerLorentzianParameters (fst dataset) (snd dataset)
                                             center_estimate pixel_spacing).

Lemma estimator_valid_on (x_vals y_vals : list float) (c p : float) :
  length x_vals = length y_vals -> 5 <= length x_vals ->
  Est.valid (EstimatePowerLorentzianParameters x_vals y_vals c p) = true.
Proof.
  intros E L. unfold EstimatePowerLorentzianParameters.
  rewrite (size_guard_passes _ _ E L).
  assert (x_vals <> []) as N by (destruct x_vals; [cbn in L; lia | discriminate]).
  rewrite (stats_valid _ _ E N). cbn [negb].
  assert (forall est tag, Est.valid (accept Est.initial est tag) = true) as V
    by (intros [[[[a c'] g] b] bl] tag; reflexivity).
  destruct (method1_valid _); [ | destruct (method2_valid _)]; apply V.
Qed.

Lemma fit_dataset_is_config_loop (center_estimate pixel_spacing : float) (o : FitOutputs)
  (dataset : list float * list float) :
  5 <= length (fst dataset) -> length (fst dataset) = length (snd dataset) ->
  fit_dataset ENABLE_VERTICAL_CHARGE_UNCERTAINTIES MIN_UNCERTAINTY_VALUE Solve Covariance
              center_estimate pixel_spacing o dataset
  = first_success (attempt center_estimate pixel_spacing o dataset)
                  (configs_for center_estimate pixel_spacing dataset).
Proof.
  intros L E. unfold fit_dataset.
  assert ((length (fst dataset) <? 5)%nat = false) as -> by (apply Nat.ltb_ge; exact L).
  rewrite (estimator_valid_on _ _ _ _ E L). cbn [negb].
  apply try_configs_first.
Qed.

(** A configuration loop that finds nothing has rejected every attempt. *)
Lemma first_success_none {A B} (f : A -> option B) (l : list A) :
  first_success f l = None <-> Forall (fun a => f a = None) l.
Proof.
  induction l as [ | a r IH]; cbn [first_success].
  - split; [constructor | reflexivity].
  - destruct (f a) eqn:F.
    + split; [discriminate | intros H; inversion H; congruence].
    + rewrite IH. split; [intros H; constructor; assumption | intros H; inversion H; assumption].
Qed.

Lemma fit_is_dataset_search (x_vals y_vals : list float)
  (center_estimate pixel_spacing : float) (o : FitOutputs)
  (verbose enable_outlier_filtering : bool) :
  length x_vals = length y_vals -> 5 <= length x_vals ->
  FitPowerLorentzianCeres ENABLE_VERTICAL_CHARGE_UNCERTAINTIES MIN_UNCERTAINTY_VALUE
    Solve Covariance x_vals y_vals center_estimate pixel_spacing o
    verbose enable_outlier_filtering
  = match first_success
            (fun d => first_success (attempt center_estimate pixel_spacing o d)
                                    (configs_for center_estimate pixel_spacing d))
            (filtered_datasets x_vals y_vals verbose enable_outlier_filtering) with
    | Some o' => (true, o')
    | None => (false, o)
    end.
Proof.
  intros E L. unfold FitPowerLorentzianCeres.
  rewrite (size_guard_passes _ _ E L), try_datasets_first.
  pose proof (filtered_datasets_sizes x_vals y_vals verbose enable_outlier_filtering E L)
    as R.
  assert (first_success
            (fit_dataset ENABLE_VERTICAL_CHARGE_UNCERTAINTIES MIN_UNCERTAINTY_VALUE
               Solve Covariance center_estimate pixel_spacing o)
            (filtered_datasets x_vals y_vals verbose enable_outlier_filtering)
          = first_success
              (fun d => first_success (attempt center_estimate pixel_spacing o d)
                                      (configs_for center_estimate pixel_spacing d))
              (filtered_datasets x_vals y_vals verbose enable_outlier_filtering)) as ->.
  { apply first_success_ext.
    eapply Forall_impl; [ | exact R]. intros d [Ld Ed].
    apply fit_dataset_is_config_loop; assumption. }
  reflexivity.
Qed.

(** The search is greedy in the order (dataset, configuration): on a
    profile the fit returns true with outputs [o'] exactly when some attempt
    yields [o'] and every attempt before it, over all earlier datasets and
    over the earlier configurations of its own dataset, was rejected. *)
Theorem first_acceptance_wins (x_vals y_vals : list float)
  (center_estimate pixel_spacing : float) (o o' : FitOutputs)
  (verbose enable_outlier_filtering : bool) :
  length x_vals = length y_vals -> 5 <= length x_vals ->
  let try_ := attempt center_estimate pixel_spacing o in
  let configs_of := configs_for center_estimate pixel_spacing in
  FitPowerLorentzianCeres ENABLE_VERTICAL_CHARGE_UNCERTAINTIES MIN_UNCERTAINTY_VALUE
    Solve Covariance x_vals y_vals center_estimate pixel_spacing o
    verbose enable_outlier_filtering = (true, o')
  <->
  exists ds1 d ds2 cs1 c cs2,
    filtered_datasets x_vals y_vals verbose enable_outlier_filtering = ds1 ++ d :: ds2 /\
    configs_of d = cs1 ++ c :: cs2 /\
    Forall (fun d' => Forall (fun c' => try_ d' c' = None) (configs_of d')) ds1 /\
    Forall (fun c' => try_ d c' = None) cs1 /\
    try_ d c = Some o'.
Proof.
  intros E L. cbv zeta. rewrite (fit_is_dataset_search _ _ _ _ _ _ _ E L).
  generalize (filtered_datasets x_vals y_vals verbose enable_outlier_filtering) as ds.
  intros ds. split.
  - destruct (first_success _ ds) as [o1 | ] eqn:F; [ | discriminate].
    intros H. injection H as <-.
    apply first_success_some in F as (ds1 & d & ds2 & Eds & N & S).
    apply first_success_some in S as (cs1 & c & cs2 & Ecs & Nc & Sc).
    exists ds1, d, ds2, cs1, c, cs2.
    split; [exact Eds | ]. split; [exact Ecs | ]. split; [ | split; [exact Nc | exact Sc]].
    eapply Forall_impl; [ | exact N]. intros d' Hd. apply first_success_none. exact Hd.
  - intros (ds1 & d & ds2 & cs1 & c & cs2 & Eds & Ecs & N & Nc & Sc).
    assert (first_success
              (fun d0 => first_success (attempt center_estimate pixel_spacing o d0)
                                       (configs_for center_estimate pixel_spacing d0)) ds
            = Some o') as ->; [ | reflexivity].
    apply first_success_some. exists ds1, d, ds2.
    split; [exact Eds | ]. split.
    + eapply Forall_impl; [ | exact N]. intros d' Hd. apply first_success_none. exact Hd.
    + apply first_success_some. exists cs1, c, cs2.
      split; [exact Ecs | ]. split; [exact Nc | exact Sc].
Qed.

End FitMore.

(** ** What an accepted fit writes *)

Lemma errors_ok_ext (a b : FitOutputs) (pixel_spacing : float) :
  fitted_values a = fitted_values b -> fitted_errors a = fitted_errors b ->
  errors_ok a pixel_spacing = errors_ok b pixel_spacing.
Proof.
  destruct a, b. unfold fitted_values, fitted_errors, errors_ok. cbn.
  intros V E. injection V as -> -> -> -> ->. injection E as -> -> -> -> ->. reflexivity.
Qed.

Lemma fallback_errors_ext (a b : FitOutputs) (stats : DataStatistics) (pixel_spacing : float) :
  fitted_values a = fitted_values b ->
  fitted_values (fallback_errors a stats pixel_spacing)
  = fitted_values (fallback_errors b stats pixel_spacing) /\
  fitted_errors (fallback_errors a stats pixel_spacing)
  = fitted_errors (fallback_errors b stats pixel_spacing).
Proof.
  destruct a, b. unfold fitted_values, fitted_errors, fallback_errors, set_errors. cbn.
  intros V. injection V as -> -> -> -> ->. split; reflexivity.
Qed.

Section FitOutputsWritten.

Variable ENABLE_VERTICAL_CHARGE_UNCERTAINTIES : bool.
Variable MIN_UNCERTAINTY_VALUE : float.
Variable Solve : SolverOptions -> Problem -> list float -> Summary * list float.
Variable Covariance : CovarianceOptions -> Problem -> list float -> option (list float).

(** The covariance loop writes standard errors only. *)
Lemma covariance_errors_values (attempts : list CovarianceOptions) (problem : Problem)
  (parameters : list float) (pixel_spacing : float) (o : FitOutputs) :
  fitted_values (fst (covariance_errors Covariance attempts problem parameters pixel_spacing o))
  = fitted_values o /\
  chi2_reduced (fst (covariance_errors Covariance attempts problem parameters pixel_spacing o))
  = chi2_reduced o.
Proof.
  revert o. induction attempts as [ | a r IH]; intros o; cbn [covariance_errors].
  - split; reflexivity.
  - destruct (Covariance a problem parameters) as [m | ]; [ | apply IH].
    destruct (errors_ok _ pixel_spacing); [split; reflexivity | ].
    destruct (IH (set_errors o (sqrt (abs (Vec.at_ m 0))) (sqrt (abs (Vec.at_ m 6)))
                    (sqrt (abs (Vec.at_ m 12))) (sqrt (abs (Vec.at_ m 18)))
                    (sqrt (abs (Vec.at_ m 24))))) as [V C].
    split; [rewrite V | rewrite C]; reflexivity.
Qed.

(** The square roots of the diagonal of a covariance block (lines 674-678). *)
Definition covariance_sigmas (covariance_matrix : list float)
  : float * float * float * float * float :=
  (sqrt (abs (Vec.at_ covariance_matrix 0)), sqrt (abs (Vec.at_ covariance_matrix 6)),
   sqrt (abs (Vec.at_ covariance_matrix 12)), sqrt (abs (Vec.at_ covariance_matrix 18)),
   sqrt (abs (Vec.at_ covariance_matrix 24))).

(** It reports success only with the errors of one of its attempts, and only
    when they pass the test of lines 680-684. *)
Lemma covariance_errors_ok (attempts : list CovarianceOptions) (problem : Problem)
  (parameters : list float) (pixel_spacing : float) (o : FitOutputs) :
  snd (covariance_errors Covariance attempts problem parameters pixel_spacing o) = true ->
  let o1 := fst (covariance_errors Covariance attempts problem parameters pixel_spacing o) in
  errors_ok o1 pixel_spacing = true /\
  exists cov_options covariance_matrix,
    In cov_options attempts /\
    Covariance cov_options problem parameters = Some covariance_matrix /\
    fitted_errors o1 = covariance_sigmas covariance_matrix.
Proof.
  cbv zeta. revert o. induction attempts as [ | a r IH]; intros o; cbn [covariance_errors].
  - discriminate.
  - destruct (Covariance a problem parameters) as [m | ] eqn:C.
    + destruct (errors_ok _ pixel_spacing) eqn:K.
      * intros _. cbn [fst]. split; [exact K | ].
        exists a, m. split; [left; reflexivity | split; [exact C | reflexivity]].
      * intros H. destruct (IH _ H) as (K' & a' & m' & I & C' & E).
        split; [exact K' | ]. exists a', m'. split; [right; exact I | split; assumption].
    + intros H. destruct (IH _ H) as (K' & a' & m' & I & C' & E).
      split; [exact K' | ]. exists a', m'. split; [right; exact I | split; assumption].
Qed.

(** Its verdict, and the errors it leaves on success, do not depend on the
    errors or the chi-square the outputs held before. *)
Lemma covariance_errors_prior (attempts : list CovarianceOptions) (problem : Problem)
  (parameters : list float) (pixel_spacing : float) (oa ob : FitOutputs) :
  fitted_values oa = fitted_values ob ->
  let ra := covariance_errors Covariance attempts problem parameters pixel_spacing oa in
  let rb := covariance_errors Covariance attempts problem parameters pixel_spacing ob in
  snd ra = snd rb /\ (snd ra = true -> fitted_errors (fst ra) = fitted_errors (fst rb)).
Proof.
  cbv zeta. revert oa ob.
  induction attempts as [ | a r IH]; intros oa ob V; cbn [covariance_errors].
  - split; [reflexivity | discriminate].
  - destruct (Covariance a problem parameters) as [m | ]; [ | apply IH; exact V].
    set (oa' := set_errors oa _ _ _ _ _). set (ob' := set_errors ob _ _ _ _ _).
    assert (fitted_values oa' = fitted_values ob') as V'
      by (destruct oa, ob; unfold fitted_values in *; cbn in *; exact V).
    assert (fitted_errors oa' = fitted_errors ob') as E' by reflexivity.
    rewrite (errors_ok_ext oa' ob' pixel_spacing V' E').
    destruct (errors_ok ob' pixel_spacing); [split; [reflexivity | intros _; exact E'] | ].
    apply IH. exact V'.
Qed.

(** One attempt returns the same whatever the outputs held before it. *)
Lemma fit_with_config_prior (clean_x clean_y : list float)
  (estimates : Est.PowerLorentzianParameterEstimates)
  (uncertainty pixel_spacing : float) (oa ob : FitOutputs)
  (config : PowerLorentzianFittingConfig) :
  fit_with_config MIN_UNCERTAINTY_VALUE Solve Covariance clean_x clean_y estimates
                  uncertainty pixel_spacing oa config
  = fit_with_config MIN_UNCERTAINTY_VALUE Solve Covariance clean_x clean_y estimates
                    uncertainty pixel_spacing ob config.
Proof.
  unfold fit_with_config.
  destruct (two_stage_solve _ _ _ _ _) as [[summary parameters] problem].
  destruct (fit_ok summary parameters); [ | reflexivity].
  assert (fitted_values (set_values oa parameters) = fitted_values (set_values ob parameters))
    as V by reflexivity.
  pose proof (covariance_errors_prior cov_configs problem parameters pixel_spacing _ _ V)
    as [F E]. cbv zeta in F, E.
  pose proof (covariance_errors_values cov_configs problem parameters pixel_spacing
                (set_values oa parameters)) as [Va _].
  pose proof (covariance_errors_values cov_configs problem parameters pixel_spacing
                (set_values ob parameters)) as [Vb _].
  destruct (covariance_errors Covariance cov_configs problem parameters pixel_spacing
              (set_values oa parameters)) as [oa' fa].
  destruct (covariance_errors Covariance cov_configs problem parameters pixel_spacing
              (set_values ob parameters)) as [ob' fb].
  cbn [fst snd] in *. subst fb.
  assert (fitted_values oa' = fitted_values ob') as V' by congruence.
  f_equal. destruct fa.
  - apply outputs_eq; [exact V' | apply E; reflexivity | reflexivity].
  - destruct (fallback_errors_ext oa' ob'
                (CalculateRobustStatisticsPowerLorentzian clean_x clean_y) pixel_spacing V')
      as [V2 E2].
    apply outputs_eq; [exact V2 | exact E2 | reflexivity].
Qed.

Lemma try_configs_prior (clean_x clean_y : list float)
  (estimates : Est.PowerLorentzianParameterEstimates)
  (uncertainty pixel_spacing : float) (oa ob : FitOutputs)
  (cs : list PowerLorentzianFittingConfig) :
  try_configs MIN_UNCERTAINTY_VALUE Solve Covariance clean_x clean_y estimates
              uncertainty pixel_spacing oa cs
  = try_configs MIN_UNCERTAINTY_VALUE Solve Covariance clean_x clean_y estimates
                uncertainty pixel_spacing ob cs.
Proof.
  induction cs as [ | c r IH]; cbn [try_configs]; [reflexivity | ].
  rewrite (fit_with_config_prior _ _ _ _ _ oa ob c), IH. reflexivity.
Qed.

Lemma try_datasets_prior (center_estimate pixel_spacing : float) (oa ob : FitOutputs)
  (datasets : list (list float * list float)) :
  try_datasets ENABLE_VERTICAL_CHARGE_UNCERTAINTIES MIN_UNCERTAINTY_VALUE Solve Covariance
               center_estimate pixel_spacing oa datasets
  = try_datasets ENABLE_VERTICAL_CHARGE_UNCERTAINTIES MIN_UNCERTAINTY_VALUE Solve Covariance
                 center_estimate pixel_spacing ob datasets.
Proof.
  induction datasets as [ | d r IH]; cbn [try_datasets]; [reflexivity | ].
  assert (fit_dataset ENABLE_VERTICAL_CHARGE_UNCERTAINTIES MIN_UNCERTAINTY_VALUE Solve
            Covariance center_estimate pixel_spacing oa d
          = fit_dataset ENABLE_VERTICAL_CHARGE_UNCERTAINTIES MIN_UNCERTAINTY_VALUE Solve
              Covariance center_estimate pixel_spacing ob d) as ->.
  { unfold fit_dataset. destruct (length (fst d) <? 5)%nat; [reflexivity | ].
    destruct (negb (Est.valid _)); [reflexivity | ]. apply try_configs_prior. }
  rewrite IH. reflexivity.
Qed.

(** The eleven outputs are write-only.  Whether the fit succeeds does not
    depend on what the caller's variables held; after a success all eleven
    hold values computed in this call, none is left over from before; after
    a failure all eleven are untouched. *)
Theorem outputs_are_write_only (x_vals y_vals : list float)
  (center_estimate pixel_spacing : float) (oa ob : FitOutputs)
  (verbose enable_outlier_filtering : bool) :
  let fit := FitPowerLorentzianCeres ENABLE_VERTICAL_CHARGE_UNCERTAINTIES
               MIN_UNCERTAINTY_VALUE Solve Covariance x_vals y_vals
               center_estimate pixel_spacing in
  let ra := fit oa verbose enable_outlier_filtering in
  let rb := fit ob verbose enable_outlier_filtering in
  fst ra = fst rb /\
  (fst ra = true -> snd ra = snd rb) /\
  (fst ra = false -> snd ra = oa /\ snd rb = ob).
Proof.
  cbv zeta. unfold FitPowerLorentzianCeres.
  destruct (negb (length x_vals =? length y_vals)%nat || (length x_vals <? 5)%nat).
  - cbn [fst snd]. split; [reflexivity | split; [discriminate | intros _; split; reflexivity]].
  - rewrite (try_datasets_prior center_estimate pixel_spacing oa ob).
    destruct (try_datasets _ _ _ _ _ _ ob _) as [o' | ]; cbn [fst snd].
    + split; [reflexivity | split; [reflexivity | discriminate]].
    + split; [reflexivity | split; [discriminate | intros _; split; reflexivity]].
Qed.

(** A successful fit is one accepted attempt. *)
Lemma accepted_attempt (x_vals y_vals : list float)
  (center_estimate pixel_spacing : float) (o o' : FitOutputs)
  (verbose enable_outlier_filtering : bool) :
  FitPowerLorentzianCeres ENABLE_VERTICAL_CHARGE_UNCERTAINTIES MIN_UNCERTAINTY_VALUE
    Solve Covariance x_vals y_vals center_estimate pixel_spacing o
    verbose enable_outlier_filtering = (true, o') ->
  exists dataset config,
    In dataset (filtered_datasets x_vals y_vals verbose enable_outlier_filtering) /\
    fit_with_config MIN_UNCERTAINTY_VALUE Solve Covariance (fst dataset) (snd dataset)
      (EstimatePowerLorentzianParameters (fst dataset) (snd dataset)
                                         center_estimate pixel_spacing)
      (CalculatePowerLorentzianUncertainty ENABLE_VERTICAL_CHARGE_UNCERTAINTIES
         MIN_UNCERTAINTY_VALUE (Vec.max_element (snd dataset)))
      pixel_spacing o config = Some o'.
Proof.
  unfold FitPowerLorentzianCeres.
  destruct (negb (length x_vals =? length y_vals)%nat || (length x_vals <? 5)%nat);
    [discriminate | ].
  destruct (try_datasets _ _ _ _ _ _ _ _) as [o1 | ] eqn:T; [ | discriminate].
  intros H. injection H as <-.
  apply try_datasets_some in T as (dataset & I & F).
  unfold fit_dataset in F.
  destruct (length (fst dataset) <? 5)%nat; [discriminate | ].
  destruct (negb (Est.valid _)); [discriminate | ].
  apply try_configs_some in F as (config & _ & F).
  exists dataset, config. split; assumption.
Qed.

(** What one accepted attempt leaves in the outputs. *)
Lemma fit_with_config_written (clean_x clean_y : list float)
  (estimates : Est.PowerLorentzianParameterEstimates)
  (uncertainty pixel_spacing : float) (o o' : FitOutputs)
  (config : PowerLorentzianFittingConfig) :
  fit_with_config MIN_UNCERTAINTY_VALUE Solve Covariance clean_x clean_y estimates
                  uncertainty pixel_spacing o config = Some o' ->
  exists summary parameters problem,
    fit_ok summary parameters = true /\
    fitted_values o'
    = (Vec.at_ parameters 0, Vec.at_ parameters 1, abs (Vec.at_ parameters 2),
       Vec.at_ parameters 3, Vec.at_ parameters 4) /\
    ((errors_ok o' pixel_spacing = true /\
      exists cov_options covariance_matrix,
        In cov_options cov_configs /\
        Covariance cov_options problem parameters = Some covariance_matrix /\
        fitted_errors o' = covariance_sigmas covariance_matrix) \/
     fitted_errors o'
     = fitted_errors
         (fallback_errors o' (CalculateRobustStatisticsPowerLorentzian clean_x clean_y)
                          pixel_spacing)).
Proof.
  unfold fit_with_config.
  destruct (two_stage_solve _ _ _ _ _) as [[summary parameters] problem].
  destruct (fit_ok summary parameters) eqn:K; [ | discriminate].
  pose proof (covariance_errors_values cov_configs problem parameters pixel_spacing
                (set_values o parameters)) as [V _].
  pose proof (covariance_errors_ok cov_configs problem parameters pixel_spacing
                (set_values o parameters)) as OK. cbv zeta in OK.
  destruct (covariance_errors Covariance cov_configs problem parameters pixel_spacing
              (set_values o parameters)) as [o1 cov_success].
  cbn [fst snd] in V, OK.
  intros H. injection H as <-. exists summary, parameters, problem.
  split; [exact K | ]. destruct cov_success.
  - split; [exact V | left].
    destruct (OK eq_refl) as (K1 & a & m & I & C & E).
    split; [rewrite <- K1; apply errors_ok_ext; reflexivity | ].
    exists a, m. split; [exact I | split; [exact C | exact E]].
  - split.
    + transitivity (fitted_values o1); [destruct o1; reflexivity | rewrite V; reflexivity].
    + right. destruct o1; reflexivity.
Qed.

(** After a success the outputs hold a sane fit: amplitude and width
    positive, the exponent strictly between 0.1 and 5, none of the five
    values NaN; the width is the solver's third parameter itself, its
    absolute value taken in line 646 changing nothing. *)
Theorem accepted_outputs_are_sane (x_vals y_vals : list float)
  (center_estimate pixel_spacing : float) (o o' : FitOutputs)
  (verbose enable_outlier_filtering : bool) :
  FitPowerLorentzianCeres ENABLE_VERTICAL_CHARGE_UNCERTAINTIES MIN_UNCERTAINTY_VALUE
    Solve Covariance x_vals y_vals center_estimate pixel_spacing o
    verbose enable_outlier_filtering = (true, o') ->
  (fit_amplitude o' >? 0) = true /\
  (fit_gamma o' >? 0) = true /\
  (fit_beta o' >? 0.1) = true /\ (fit_beta o' <? 5) = true /\
  Dbl.isnan (fit_amplitude o') = false /\ Dbl.isnan (fit_center o') = false /\
  Dbl.isnan (fit_gamma o') = false /\ Dbl.isnan (fit_beta o') = false /\
  Dbl.isnan (fit_vertical_offset o') = false.
Proof.
  intros H. apply accepted_attempt in H as (dataset & config & _ & F).
  apply fit_with_config_written in F as (summary & parameters & problem & K & V & _).
  unfold fit_ok in K. repeat (apply andb_true_iff in K as [K ?]).
  repeat match goal with H : negb _ = true |- _ => apply negb_true_iff in H end.
  unfold fitted_values in V. injection V as -> -> G -> ->.
  assert (abs (Vec.at_ parameters 2) = Vec.at_ parameters 2) as A
    by (apply abs_of_positive; assumption).
  rewrite A in G. rewrite G.
  repeat split; assumption.
Qed.


End FitOutputsWritten.

(** ** The remover conserves the samples *)

Lemma triples_of_maps (l : list (float * (float * float))) :
  triples (map fst l) (map (fun t => fst (snd t)) l) (map (fun t => snd (snd t)) l) = l.
Proof.
  unfold triples. induction l as [ | [x [y c]] r IH]; cbn; [ | rewrite IH]; reflexivity.
Qed.

Lemma triples_length (x_coords y_coords charge_values : list float) :
  length x_coords = length y_coords -> length x_coords = length charge_values ->
  length (triples x_coords y_coords charge_values) = length charge_values.
Proof. intros E1 E2. unfold triples. rewrite !length_combine. lia. Qed.

(** The two ways the remover ends on sequences of one length: the input
    handed back, or the unflagged triples. *)
Lemma remover_cases (x_coords y_coords charge_values : list float)
  (enable_outlier_removal : bool) (sigma_threshold : float) (verbose : bool) :
  length x_coords = length y_coords -> length x_coords = length charge_values ->
  let result := RemovePowerLorentzianOutliers x_coords y_coords charge_values
                  enable_outlier_removal sigma_threshold verbose in
  let stats := CalculateRobustStatisticsPowerLorentzian x_coords charge_values in
  let flagged := is_outlier_sample (median stats) sigma_threshold (mad stats) in
  let samples := triples x_coords y_coords charge_values in
  let kept := filter (fun t => negb (flagged t)) samples in
  result = mkRemoval x_coords y_coords charge_values 0 false true \/
  (result = mkRemoval (map fst kept) (map (fun t => fst (snd t)) kept)
                      (map (fun t => snd (snd t)) kept)
                      (Z.of_nat (length (filter flagged samples))) true true /\
   5 <= length kept /\
   (length kept + length (filter flagged samples))%nat = length charge_values).
Proof.
  intros G1 G2. cbv zeta. unfold RemovePowerLorentzianOutliers.
  assert ((length x_coords =? length y_coords)%nat = true) as ->
    by (apply Nat.eqb_eq; exact G1).
  assert ((length x_coords =? length charge_values)%nat = true) as ->
    by (apply Nat.eqb_eq; exact G2).
  cbn [negb orb].
  destruct enable_outlier_removal; cbn [negb]; [ | left; reflexivity].
  destruct (length charge_values <? 5)%nat eqn:L; [left; reflexivity | ].
  apply Nat.ltb_ge in L.
  assert (x_coords <> []) as N
    by (destruct x_coords; [rewrite <- G2 in L; cbn in L; lia | discriminate]).
  rewrite (stats_valid _ _ G2 N). cbn [negb].
  rewrite (count_flags_length x_coords y_coords charge_values _ _ G1 G2).
  rewrite (keep_unflagged_spec x_coords y_coords charge_values _ _ G1 G2). cbv zeta.
  pose proof (filter_split_length
                (is_outlier_sample
                   (median (CalculateRobustStatisticsPowerLorentzian x_coords charge_values))
                   sigma_threshold
                   (mad (CalculateRobustStatisticsPowerLorentzian x_coords charge_values)))
                (triples x_coords y_coords charge_values)) as P.
  rewrite (triples_length _ _ _ G1 G2) in P.
  unfold is_outlier_sample in *.
  destruct (length charge_values - length (filter _ _) <? 5)%nat eqn:T; [left; reflexivity | ].
  apply Nat.ltb_ge in T. right. split; [reflexivity | ]. lia.
Qed.

(** For sequences of one length the remover never fails (the test on
    [stats.valid] of line 986 cannot fire), and what it returns is a
    selection of the input triples, in their order and in step; the count it
    reports is the number of triples missing; without [filtering_applied] the
    input comes back as it was; of five or more samples at least five
    remain.  On a length mismatch it returns the default result. *)
Theorem remover_conserves_samples (x_coords y_coords charge_values : list float)
  (enable_outlier_removal : bool) (sigma_threshold : float) (verbose : bool) :
  let result := RemovePowerLorentzianOutliers x_coords y_coords charge_values
                  enable_outlier_removal sigma_threshold verbose in
  let samples := triples x_coords y_coords charge_values in
  let out := triples (filtered_x_coords result) (filtered_y_coords result)
                     (filtered_charge_values result) in
  (success result = true <->
   length x_coords = length y_coords /\ length x_coords = length charge_values) /\
  (success result = false -> result = Removal_default) /\
  (success result = true ->
     (exists keep, out = filter keep samples) /\
     length (filtered_x_coords result) = length (filtered_charge_values result) /\
     length (filtered_y_coords result) = length (filtered_charge_values result) /\
     (Z.of_nat (length (filtered_charge_values result)) + outliers_removed result
      = Z.of_nat (length charge_values))%Z /\
     (filtering_applied result = false ->
        filtered_x_coords result = x_coords /\ filtered_y_coords result = y_coords /\
        filtered_charge_values result = charge_values) /\
     (5 <= length charge_values -> 5 <= length (filtered_charge_values result))).
Proof.
  cbv zeta.
  destruct (negb (length x_coords =? length y_coords)%nat ||
            negb (length x_coords =? length charge_values)%nat) eqn:G.
  { unfold RemovePowerLorentzianOutliers. rewrite G. cbn [success Removal_default].
    split; [split; [discriminate | ] | split; [reflexivity | discriminate]].
    intros [E1 E2]. rewrite E1, <- E2, E1, Nat.eqb_refl in G. discriminate. }
  apply orb_false_iff in G as [G1 G2].
  apply negb_false_iff, Nat.eqb_eq in G1. apply negb_false_iff, Nat.eqb_eq in G2.
  destruct (remover_cases x_coords y_coords charge_values enable_outlier_removal
              sigma_threshold verbose G1 G2) as [-> | (-> & K & S)];
    cbn [success filtered_x_coords filtered_y_coords filtered_charge_values
         outliers_removed filtering_applied];
    (split; [tauto | split; [discriminate | intros _]]).
  - split; [exists (fun _ => true); symmetry; apply filter_all | ].
    split; [exact G2 | ]. split; [congruence | ]. split; [lia | ].
    split; [intros _; repeat split | intros L; exact L].
  - rewrite triples_of_maps, !length_map.
    split; [eexists; reflexivity | ].
    split; [reflexivity | ]. split; [reflexivity | ].
    split; [lia | ]. split; [discriminate | intros _; exact K].
Qed.

(** ** The lines the 2-D coordinator fits *)

(** Every point of every group satisfies [P]. *)
Definition groups_hold (P : float * float -> Prop) (m : GroupMap) : Prop :=
  Forall (fun kv => Forall P (snd kv)) m.

Lemma push_near_holds (P : float * float -> Prop) (tolerance c : float)
  (p : float * float) (m m' : GroupMap) :
  groups_hold P m -> P p -> Grp.push_near tolerance c p m = Some m' -> groups_hold P m'.
Proof.
  intros H Hp. revert m'.
  induction H as [ | [k v] r Hv Hr IH]; intros m'; cbn [Grp.push_near]; [discriminate | ].
  destruct (abs (k - c) <? tolerance).
  - intros E. injection E as <-. constructor; [ | exact Hr].
    cbn [snd] in *. apply Forall_app. split; [exact Hv | repeat constructor; exact Hp].
  - destruct (Grp.push_near tolerance c p r) as [r' | ]; cbn [option_map]; [ | discriminate].
    intros E. injection E as <-. constructor; [exact Hv | apply IH; reflexivity].
Qed.

Lemma push_at_holds (P : float * float -> Prop) (c : float) (p : float * float)
  (m : GroupMap) :
  groups_hold P m -> P p -> groups_hold P (Grp.push_at c p m).
Proof.
  intros H Hp. induction H as [ | [k v] r Hv Hr IH]; cbn [Grp.push_at].
  - repeat constructor. exact Hp.
  - destruct (c <? k); [ | destruct (k <? c)].
    + constructor; [repeat constructor; exact Hp | constructor; assumption].
    + constructor; assumption.
    + constructor; [ | exact Hr].
      cbn [snd] in *. apply Forall_app. split; [exact Hv | repeat constructor; exact Hp].
Qed.

Lemma add_point_holds (P : float * float -> Prop) (tolerance c : float)
  (p : float * float) (m : GroupMap) :
  groups_hold P m -> P p -> groups_hold P (Grp.add_point tolerance c p m).
Proof.
  intros H Hp. unfold Grp.add_point.
  destruct (Grp.push_near tolerance c p m) as [m' | ] eqn:E.
  - exact (push_near_holds P tolerance c p m m' H Hp E).
  - apply push_at_holds; assumption.
Qed.

Lemma find_holds (P : float * float -> Prop) (c : float) (m : GroupMap)
  (v : list (float * float)) :
  groups_hold P m -> Grp.find c m = Some v -> Forall P v.
Proof.
  intros H. induction H as [ | [k w] r Hw Hr IH]; cbn [Grp.find]; [discriminate | ].
  destruct (k <? c); [exact IH | ].
  destruct (c <? k); [discriminate | ].
  intros E. injection E as <-. exact Hw.
Qed.

Lemma group_points_hold (P Q : float * float -> Prop) (tolerance : float)
  (x_coords y_coords charge_values : list float) (rows_data cols_data : GroupMap) :
  (forall x y charge,
     In (x, (y, charge)) (triples x_coords y_coords charge_values) ->
     (charge <=? 0) = false -> P (x, charge) /\ Q (y, charge)) ->
  groups_hold P rows_data -> groups_hold Q cols_data ->
  groups_hold P (fst (group_points tolerance x_coords y_coords charge_values
                                   rows_data cols_data)) /\
  groups_hold Q (snd (group_points tolerance x_coords y_coords charge_values
                                   rows_data cols_data)).
Proof.
  revert y_coords charge_values rows_data cols_data.
  induction x_coords as [ | x xs IH]; intros [ | y ys] [ | c cs] rows_data cols_data H Hr Hc;
    cbn [group_points fst snd]; try (split; assumption).
  assert (forall x' y' c', In (x', (y', c')) (triples xs ys cs) ->
                           (c' <=? 0) = false -> P (x', c') /\ Q (y', c')) as H'
    by (intros x' y' c' I; apply H; right; exact I).
  destruct (c <=? 0) eqn:C; [apply IH; assumption | ].
  destruct (H x y c (or_introl eq_refl) C) as [Hp Hq].
  apply IH; [exact H' | apply add_point_holds; assumption | apply add_point_holds; assumption].
Qed.

Lemma selected_line_holds (P : float * float -> Prop) (best : float) (m : GroupMap)
  (line : list (float * float)) :
  groups_hold P m -> selected_line best m = Some line -> 5 <= length line /\ Forall P line.
Proof.
  intros H. unfold selected_line.
  destruct (Grp.find best m) as [v | ] eqn:F; [ | discriminate].
  destruct (5 <=? length v)%nat eqn:L; [ | discriminate].
  intros E. injection E as <-. split.
  - rewrite sort_length. apply Nat.leb_le. exact L.
  - rewrite (sort_perm Grp.pair_ltb v). exact (find_holds P best m v H F).
Qed.

Lemma triples_in (x_coords y_coords charge_values : list float) (x y c : float) :
  In (x, (y, c)) (triples x_coords y_coords charge_values) ->
  In (x, c) (combine x_coords charge_values) /\ In (y, c) (combine y_coords charge_values).
Proof.
  unfold triples. revert y_coords charge_values.
  induction x_coords as [ | x0 xs IH]; intros [ | y0 ys] [ | c0 cs]; cbn [combine In];
    try contradiction.
  intros [E | I].
  - injection E as -> -> ->. split; left; reflexivity.
  - destruct (IH ys cs I) as [A B]. split; right; assumption.
Qed.

(** Whatever row and column the coordinator selects, each holds at least
    five points, and every point of it is an input sample -- (x, charge) in
    the row, (y, charge) in the column -- whose charge is not [<= 0]: the
    test of line 781 keeps non-positive charges out of every fit. *)
Theorem selected_lines_hold_input_samples (x_coords y_coords charge_values : list float)
  (center_x_estimate center_y_estimate pixel_spacing : float) :
  let lines := selected_lines x_coords y_coords charge_values
                              center_x_estimate center_y_estimate pixel_spacing in
  (forall row, fst lines = Some row ->
     5 <= length row /\
     Forall (fun p => (snd p <=? 0) = false /\ In p (combine x_coords charge_values)) row) /\
  (forall col, snd lines = Some col ->
     5 <= length col /\
     Forall (fun p => (snd p <=? 0) = false /\ In p (combine y_coords charge_values)) col).
Proof.
  cbv zeta. unfold selected_lines.
  pose proof (group_points_hold
                (fun p => (snd p <=? 0) = false /\ In p (combine x_coords charge_values))
                (fun p => (snd p <=? 0) = false /\ In p (combine y_coords charge_values))
                (pixel_spacing * 0.1) x_coords y_coords charge_values [] []) as G.
  destruct (group_points _ _ _ _ _ _) as [rows_data cols_data]. cbn [fst snd] in *.
  destruct G as [Gr Gc]; [ | constructor | constructor | ].
  { intros x y c I C. apply triples_in in I as [A B]. cbn [snd]. repeat split; assumption. }
  split; intros line E.
  - exact (selected_line_holds _ _ _ _ Gr E).
  - exact (selected_line_holds _ _ _ _ Gc E).
Qed.

(** ** The row and the column nearest to the centre *)

(** One round of the selection loops of lines 813-819 and 823-829. *)
Definition closest_step (center_estimate : float) (acc : float * float)
  (kv : float * list (float * float)) : float * float :=
  let dist := abs (fst kv - center_estimate) in
  if (dist <? snd acc) && (5 <=? length (snd kv))%nat then (fst kv, dist) else acc.

(** What the loop knows after the groups [seen]: the running pair is the
    initial one, or key and distance of a group of at least five points; no
    such group seen is nearer. *)
Definition closest_inv (center_estimate : float) (seen : GroupMap) (acc : float * float)
  : Prop :=
  (acc = (center_estimate, Dbl.DBL_MAX) \/
   (snd acc = abs (fst acc - center_estimate) /\
    (snd acc <? Dbl.DBL_MAX) = true /\
    exists v, In (fst acc, v) seen /\ 5 <= length v)) /\
  Forall (fun kv => 5 <= length (snd kv) ->
                    (abs (fst kv - center_estimate) <? snd acc) = false) seen.

Lemma closest_step_inv (center_estimate : float) (seen : GroupMap) (acc : float * float)
  (kv : float * list (float * float)) :
  closest_inv center_estimate seen acc ->
  closest_inv center_estimate (seen ++ [kv]) (closest_step center_estimate acc kv).
Proof.
  intros [S F]. unfold closest_step. cbv zeta.
  destruct ((abs (fst kv - center_estimate) <? snd acc) && (5 <=? length (snd kv))%nat) eqn:T.
  - apply andb_true_iff in T as [T L]. apply Nat.leb_le in L.
    assert ((abs (fst kv - center_estimate) <? Dbl.DBL_MAX) = true) as B.
    { destruct S as [-> | (_ & B & _)]; [exact T | ].
      exact (FloatOrder.ltb_trans _ _ _ T B). }
    split.
    + right. cbn [fst snd]. split; [reflexivity | split; [exact B | ]].
      exists (snd kv). split; [ | exact L].
      apply in_or_app. right. left. destruct kv; reflexivity.
    + cbn [snd]. apply Forall_app. split.
      * eapply Forall_impl; [ | exact F]. cbv beta. intros kv0 H L0.
        specialize (H L0).
        destruct (abs (fst kv0 - center_estimate) <? abs (fst kv - center_estimate)) eqn:C;
          [ | reflexivity].
        rewrite (FloatOrder.ltb_trans _ _ _ C T) in H. discriminate H.
      * repeat constructor. intros _. apply FloatOrder.ltb_irrefl.
  - split.
    + destruct S as [-> | (E & B & v & I & L)]; [left; reflexivity | right].
      split; [exact E | split; [exact B | ]].
      exists v. split; [apply in_or_app; left; exact I | exact L].
    + apply Forall_app. split; [exact F | ].
      repeat constructor. intros L.
      apply Nat.leb_le in L. rewrite L, andb_true_r in T. exact T.
Qed.

Lemma closest_fold_inv (center_estimate : float) (m seen : GroupMap) (acc : float * float) :
  closest_inv center_estimate seen acc ->
  closest_inv center_estimate (seen ++ m)
              (fold_left (closest_step center_estimate) m acc).
Proof.
  revert seen acc. induction m as [ | kv r IH]; intros seen acc H; cbn [fold_left].
  - rewrite app_nil_r. exact H.
  - replace (seen ++ kv :: r) with ((seen ++ [kv]) ++ r)
      by (rewrite <- app_assoc; reflexivity).
    apply IH. apply closest_step_inv. exact H.
Qed.

(** The key the coordinator settles on is the centre estimate itself or the
    key of a group of at least five points; and as soon as some group of at
    least five points lies at a distance below [DBL_MAX] of the centre
    estimate, it is the key of such a group, none of which is strictly
    nearer. *)
Theorem closest_is_nearest_eligible (center_estimate : float) (m : GroupMap) :
  let best := Grp.closest center_estimate m in
  (best = center_estimate \/ exists v, In (best, v) m /\ 5 <= length v) /\
  (forall k v,
     In (k, v) m -> 5 <= length v ->
     (abs (k - center_estimate) <? Dbl.DBL_MAX) = true ->
     (exists v', In (best, v') m /\ 5 <= length v') /\
     (abs (k - center_estimate) <? abs (best - center_estimate)) = false).
Proof.
  cbv zeta.
  assert (closest_inv center_estimate [] (center_estimate, Dbl.DBL_MAX)) as H0
    by (split; [left; reflexivity | constructor]).
  pose proof (closest_fold_inv center_estimate m [] _ H0) as [S F]. cbn [app] in S, F.
  change (Grp.closest center_estimate m)
    with (fst (fold_left (closest_step center_estimate) m (center_estimate, Dbl.DBL_MAX))).
  destruct (fold_left (closest_step center_estimate) m (center_estimate, Dbl.DBL_MAX))
    as [best dist]. cbn [fst snd] in *.
  split.
  - destruct S as [E | (_ & _ & v & I & L)].
    + left. injection E as -> _. reflexivity.
    + right. exists v. split; assumption.
  - intros k v I L B. rewrite Forall_forall in F. specialize (F (k, v) I L). cbn [fst] in F.
    destruct S as [E | (E & _ & v' & I' & L')].
    + injection E as _ ->. rewrite B in F. discriminate F.
    + split; [exists v'; split; assumption | ]. rewrite <- E. exact F.
Qed.

(** ** The points the diagonal coordinator fits *)

Lemma filter_in {A} (f : A -> bool) (l : list A) (a : A) : In a (filter f l) -> In a l.
Proof. intros H. apply filter_In in H. tauto. Qed.

Lemma diagonal_points_hold (P Q : float * float -> Prop)
  (diagonal_tolerance cx cy : float) (xs ys cs : list float) :
  (forall x y charge,
     In (x, (y, charge)) (triples xs ys cs) -> (charge <=? 0) = false ->
     ((abs ((x - cx) - (y - cy)) <? diagonal_tolerance) = true ->
        P (((x - cx) + (y - cy)) / 2, charge)) /\
     ((abs ((x - cx) + (y - cy)) <? diagonal_tolerance) = true ->
        Q (((x - cx) - (y - cy)) / 2, charge))) ->
  Forall P (fst (diagonal_points diagonal_tolerance cx cy xs ys cs)) /\
  Forall Q (snd (diagonal_points diagonal_tolerance cx cy xs ys cs)).
Proof.
  revert ys cs.
  induction xs as [ | x xs IH]; intros [ | y ys] [ | c cs] H;
    cbn [diagonal_points fst snd]; try (split; constructor).
  assert (forall x' y' c', In (x', (y', c')) (triples xs ys cs) -> (c' <=? 0) = false ->
            ((abs ((x' - cx) - (y' - cy)) <? diagonal_tolerance) = true ->
               P (((x' - cx) + (y' - cy)) / 2, c')) /\
            ((abs ((x' - cx) + (y' - cy)) <? diagonal_tolerance) = true ->
               Q (((x' - cx) - (y' - cy)) / 2, c'))) as H'
    by (intros x' y' c' I; apply H; right; exact I).
  destruct (IH ys cs H') as [A B].
  destruct (diagonal_points diagonal_tolerance cx cy xs ys cs) as [main_diag sec_diag].
  cbn [fst snd] in *.
  destruct (c <=? 0) eqn:C; [split; assumption | ].
  destruct (H x y c (or_introl eq_refl) C) as [Hp Hq]. cbn [fst snd].
  split.
  - destruct (abs (x - cx - (y - cy)) <? diagonal_tolerance) eqn:T; [ | exact A].
    constructor; [apply Hp; reflexivity | exact A].
  - destruct (abs (x - cx + (y - cy)) <? diagonal_tolerance) eqn:T; [ | exact B].
    constructor; [apply Hq; reflexivity | exact B].
Qed.

(** The samples the classification runs on are input samples, with or
    without the outlier removal before it. *)
Lemma diagonal_samples (x_coords y_coords charge_values : list float)
  (verbose enable_outlier_filtering : bool) :
  let used :=
    if enable_outlier_filtering
    then
      let filter_result :=
        RemovePowerLorentzianOutliers x_coords y_coords charge_values true 2.5 verbose in
      if success filter_result && filtering_applied filter_result
      then (filtered_x_coords filter_result, filtered_y_coords filter_result,
            filtered_charge_values filter_result)
      else (x_coords, y_coords, charge_values)
    else (x_coords, y_coords, charge_values) in
  incl (triples (fst (fst used)) (snd (fst used)) (snd used))
       (triples x_coords y_coords charge_values).
Proof.
  cbv zeta. destruct enable_outlier_filtering; [ | apply incl_refl].
  destruct (negb (length x_coords =? length y_coords)%nat ||
            negb (length x_coords =? length charge_values)%nat) eqn:G.
  { unfold RemovePowerLorentzianOutliers. rewrite G. apply incl_refl. }
  apply orb_false_iff in G as [G1 G2].
  apply negb_false_iff, Nat.eqb_eq in G1. apply negb_false_iff, Nat.eqb_eq in G2.
  destruct (remover_cases x_coords y_coords charge_values true 2.5 verbose G1 G2)
    as [-> | (-> & _)]; cbn [success filtering_applied andb fst snd
                             filtered_x_coords filtered_y_coords filtered_charge_values].
  - apply incl_refl.
  - rewrite triples_of_maps. intros t. apply filter_in.
Qed.

(** Every point the four diagonal fits run on stems from an input sample
    with a charge that is not [<= 0], lying within half a pixel spacing of
    its diagonal: the point is (half the sum of the offsets, charge) on the
    main diagonal and (half their difference, charge) on the secondary
    one. *)
Theorem diagonal_points_are_input_samples (x_coords y_coords charge_values : list float)
  (center_x_estimate center_y_estimate pixel_spacing : float)
  (verbose enable_outlier_filtering : bool) :
  let data := diagonal_data x_coords y_coords charge_values
                center_x_estimate center_y_estimate pixel_spacing
                verbose enable_outlier_filtering in
  let sample x y charge :=
    In (x, (y, charge)) (triples x_coords y_coords charge_values) /\
    (charge <=? 0) = false in
  Forall (fun p => exists x y charge,
            sample x y charge /\
            let dx := x - center_x_estimate in
            let dy := y - center_y_estimate in
            (abs (dx - dy) <? pixel_spacing * 0.5) = true /\
            p = ((dx + dy) / 2, charge)) (fst data) /\
  Forall (fun p => exists x y charge,
            sample x y charge /\
            let dx := x - center_x_estimate in
            let dy := y - center_y_estimate in
            (abs (dx + dy) <? pixel_spacing * 0.5) = true /\
            p = ((dx - dy) / 2, charge)) (snd data).
Proof.
  cbv zeta. unfold diagonal_data.
  pose proof (diagonal_samples x_coords y_coords charge_values verbose
                enable_outlier_filtering) as I. cbv zeta in I.
  destruct (if enable_outlier_filtering then _ else _) as [[fx fy] fc]. cbn [fst snd] in I.
  apply diagonal_points_hold.
  intros x y c Hin C. split; intros T; exists x, y, c; (split; [split; [apply I; exact Hin | exact C] | ]);
    (split; [exact T | reflexivity]).
Qed.

(** ** Runs of the 1-D fit *)

(** A solver that converges on seven residual blocks only, with final cost
    3, leaving the parameters as they are. *)
Definition seven_point_solver : SolverOptions -> Problem -> list float -> Summary * list float :=
  fun _ problem parameters =>
    (mkSummary (if (length (residual_blocks problem) =? 7)%nat
                then CONVERGENCE else NO_CONVERGENCE) 3,
     parameters).

(** The row of seven samples with a spike, under that solver: the two
    filtered datasets, of six points, are rejected by all five
    configurations, and the fit is accepted on the original seven. *)
Lemma first_acceptance_wins_witness :
  let x_vals := [0; 1; 2; 3; 4; 5; 6] in
  let y_vals := [1; 2; 3; 4; 5; 6; 1000] in
  let o' := snd (FitPowerLorentzianCeres false 1e-20 seven_point_solver no_covariance
                   x_vals y_vals 3 1 FitOutputs_default false true) in
  let try_ := attempt false 1e-20 seven_point_solver no_covariance 3 1 FitOutputs_default in
  exists ds1 d ds2 cs1 c cs2,
    filtered_datasets x_vals y_vals false true = ds1 ++ d :: ds2 /\
    configs_for 3 1 d = cs1 ++ c :: cs2 /\
    Forall (fun d' => Forall (fun c' => try_ d' c' = None) (configs_for 3 1 d')) ds1 /\
    Forall (fun c' => try_ d c' = None) cs1 /\
    try_ d c = Some o'.
Proof.
  cbv zeta.
  apply (proj1 (first_acceptance_wins false 1e-20 seven_point_solver no_covariance
                  [0; 1; 2; 3; 4; 5; 6] [1; 2; 3; 4; 5; 6; 1000] 3 1 FitOutputs_default _
                  false true eq_refl ltac:(cbn; lia))).
  vm_compute. reflexivity.
Defined.

Lemma accepted_outputs_are_sane_witness :
  let o' := mkOut 5 4 1.8257418583505538 1 1 0.22239 0.18257418583505539
                  0.091287092917527693 0.10000000000000001 0.111195 6 in
  (fit_amplitude o' >? 0) = true /\
  (fit_gamma o' >? 0) = true /\
  (fit_beta o' >? 0.1) = true /\ (fit_beta o' <? 5) = true /\
  Dbl.isnan (fit_amplitude o') = false /\ Dbl.isnan (fit_center o') = false /\
  Dbl.isnan (fit_gamma o') = false /\ Dbl.isnan (fit_beta o') = false /\
  Dbl.isnan (fit_vertical_offset o') = false.
Proof.
  cbv zeta.
  apply (accepted_outputs_are_sane false 1e-20 (converging_solver 3) no_covariance
           [0; 1; 2; 3; 4; 5; 6] [1; 2; 3; 4; 5; 6; 1000] 3 1 FitOutputs_default _
           false true).
  vm_compute. reflexivity.
Defined.


